(** * Tutoring chat backend: thread persistence and conversation orchestration

    A shallow embedding of [app/models/chat.py], [app/services/c3.py],
    [app/services/tutor.py], [app/services/conversation.py],
    [app/routers/chat/endpoints.py] and [app/routers/items.py], together
    with the library codecs those files call ([json.dumps]/[json.loads],
    [datetime.isoformat]/[datetime.fromisoformat], pydantic validation).

    Conventions.
    - A Python [str] is a [string] whose characters are the code points
      U+0000..U+00FF.
    - A Python exception is a value of [exn]; a function that can raise
      returns a [result].
    - The key-value store, the clock and the uuid generator are fields of a
      [World] that the service methods thread through a state-and-exception
      monad.  Logging is not modelled.
    - A Python [float] is modelled by the text [repr] prints for it: a
      decimal numeral in positional or scientific notation, an infinity, or
      NaN.  A float read from a text that is not written as [repr] writes
      it is kept as the numeral read.  Equality of Python values is a
      function of its own, [PyEq], because NaN is equal to nothing.
    - The store is modelled as a store that answers: reads and writes do
      not fail.  What the code does when Redis raises is outside the
      statements below.
    - The library decoders are modelled on the texts the services write.
      Where a library reads further forms (escapes above U+00FF in JSON,
      other ISO 8601 layouts, pydantic's conversion of numeric strings and
      Unix times), the model does not.  A text the model decodes is
      decoded by the library to the same value, within the limits an
      interpreter sets on the digits of an integer and the depth of
      nesting, and with the [Z] suffix that [fromisoformat] reads from
      Python 3.11 on; a failure in the model need not be one in the
      library.  Every statement that concludes from a decoding failure
      therefore takes its hypothesis from [Json.no_value],
      [Datetime.not_iso] and [action_of_str], which describe texts the
      libraries refuse as well. *)

From Stdlib Require Import String Ascii NArith ZArith List Bool Lia.
From Stdlib Require Import DecimalString DecimalN.
From stdpp Require Import gmap strings list fin_maps.

Local Open Scope N_scope.

(* ===================================================================== *)
(** ** Python strings *)
(* ===================================================================== *)

Module Py.

(** The double quote, U+0022. *)
Definition quote : ascii := Ascii false true false false false true false false.

Definition ord (c : ascii) : N := N_of_ascii c.
Definition chr (n : N) : ascii := ascii_of_N n.

(** [str.lower] on one code point below U+0100: A-Z and the Latin-1
    capitals U+00C0..U+00DE (the multiplication sign U+00D7 apart). *)
Definition lower_char (c : ascii) : ascii :=
  let n := ord c in
  if ((65 <=? n) && (n <=? 90)) || ((192 <=? n) && (n <=? 222) && negb (n =? 215))
  then chr (n + 32) else c.

Fixpoint lower (s : string) : string :=
  match s with
  | EmptyString => EmptyString
  | String c r => String (lower_char c) (lower r)
  end.

Fixpoint startswith (s p : string) : bool :=
  match p, s with
  | EmptyString, _ => true
  | String a p', String b s' => Ascii.eqb a b && startswith s' p'
  | String _ _, EmptyString => false
  end.

(** The text after the literal [p], when [s] starts with it. *)
Fixpoint strip_prefix (p s : string) : option string :=
  match p with
  | EmptyString => Some s
  | String a p' =>
      match s with
      | EmptyString => None
      | String b s' => if Ascii.eqb a b then strip_prefix p' s' else None
      end
  end.

(** An ASCII letter. *)
Definition is_letter (c : ascii) : bool :=
  let n := ord c in ((65 <=? n) && (n <=? 90)) || ((97 <=? n) && (n <=? 122)).

(** Whether the first character of [s] satisfies [P]. *)
Definition starts (P : ascii -> bool) (s : string) : bool :=
  match s with String c _ => P c | EmptyString => false end.

(** [needle in hay] *)
Fixpoint contains (needle hay : string) : bool :=
  startswith hay needle ||
  match hay with
  | EmptyString => false
  | String _ r => contains needle r
  end.

(** [x or default] for an optional string: [None] and the empty string
    are falsy. *)
Definition or_str (x : option string) (default : string) : string :=
  match x with
  | Some (String c r) => String c r
  | _ => default
  end.

Fixpoint last {A} (l : list A) : option A :=
  match l with
  | [] => None
  | [x] => Some x
  | _ :: l' => last l'
  end.

(** [l.pop()] on a non-empty list: the list without its last element. *)
Fixpoint pop {A} (l : list A) : list A :=
  match l with
  | [] => []
  | [x] => []
  | x :: l' => x :: pop l'
  end.

End Py.

(* ===================================================================== *)
(** ** Exceptions and results *)
(* ===================================================================== *)

Inductive exn : Type :=
| ValueError (msg : string)
| ValidationError
| JSONDecodeError
| TypeError
| KeyError
| IndexError
| AttributeError.

Inductive result (A : Type) : Type :=
| Ok (a : A)
| Raise (e : exn).
Arguments Ok {A} a.
Arguments Raise {A} e.

Definition rbind {A B} (r : result A) (k : A -> result B) : result B :=
  match r with
  | Ok a => k a
  | Raise e => Raise e
  end.

Definition of_option {A} (e : exn) (o : option A) : result A :=
  match o with
  | Some a => Ok a
  | None => Raise e
  end.

Fixpoint rmapM {A B} (f : A -> result B) (l : list A) : result (list B) :=
  match l with
  | [] => Ok []
  | x :: l' => rbind (f x) (fun y => rbind (rmapM f l') (fun ys => Ok (y :: ys)))
  end.

(* ===================================================================== *)
(** ** Decimal numerals *)
(* ===================================================================== *)

Module Num.

Inductive digit : Type := d0 | d1 | d2 | d3 | d4 | d5 | d6 | d7 | d8 | d9.

Definition push (d : digit) (u : Decimal.uint) : Decimal.uint :=
  match d with
  | d0 => Decimal.D0 u | d1 => Decimal.D1 u | d2 => Decimal.D2 u
  | d3 => Decimal.D3 u | d4 => Decimal.D4 u | d5 => Decimal.D5 u
  | d6 => Decimal.D6 u | d7 => Decimal.D7 u | d8 => Decimal.D8 u
  | d9 => Decimal.D9 u
  end.

Definition uncons (u : Decimal.uint) : option (digit * Decimal.uint) :=
  match u with
  | Decimal.Nil => None
  | Decimal.D0 u => Some (d0, u) | Decimal.D1 u => Some (d1, u)
  | Decimal.D2 u => Some (d2, u) | Decimal.D3 u => Some (d3, u)
  | Decimal.D4 u => Some (d4, u) | Decimal.D5 u => Some (d5, u)
  | Decimal.D6 u => Some (d6, u) | Decimal.D7 u => Some (d7, u)
  | Decimal.D8 u => Some (d8, u) | Decimal.D9 u => Some (d9, u)
  end.

Definition digit_of_char (c : ascii) : option digit :=
  match Py.ord c with
  | 48 => Some d0 | 49 => Some d1 | 50 => Some d2 | 51 => Some d3
  | 52 => Some d4 | 53 => Some d5 | 54 => Some d6 | 55 => Some d7
  | 56 => Some d8 | 57 => Some d9
  | _ => None
  end.

Definition is_digit (c : ascii) : bool :=
  match digit_of_char c with Some _ => true | None => false end.

(** The longest prefix of decimal digits, and what follows it. *)
Fixpoint take_digits (s : string) : Decimal.uint * string :=
  match s with
  | EmptyString => (Decimal.Nil, EmptyString)
  | String c r =>
      match digit_of_char c with
      | Some d => let '(u, r') := take_digits r in (push d u, r')
      | None => (Decimal.Nil, s)
      end
  end.

Definition str_of_N (n : N) : string := NilEmpty.string_of_uint (N.to_uint n).

(** [repr] of a Python [int]. *)
Definition int_repr (z : Z) : string :=
  if (z <? 0)%Z then String "-" (str_of_N (Z.abs_N z)) else str_of_N (Z.abs_N z).

(** The exponent of a numeral in scientific notation: a sign and at
    least one digit. *)
Record exponent : Type := { eneg : bool; ehd : digit; etl : Decimal.uint }.

(** A Python [float], by the text [repr] prints for it:
    - [Dec neg int hd tl e]: the numeral [int . hd tl], with exponent [e]
      if there is one, negated when [neg];
    - [Sci neg int e]: the numeral [int] with exponent [e] and no
      fraction, as in [1e-05];
    - [Inf neg]: an infinity;
    - [NaN].
    Distinct floats print differently, except that every NaN prints
    alike.  The type also holds numerals [repr] never prints (trailing
    zeros, more digits than a double has); nothing below depends on
    them. *)
Inductive pyfloat : Type :=
| Dec (neg : bool) (int : N) (hd : digit) (tl : Decimal.uint) (e : option exponent)
| Sci (neg : bool) (int : N) (e : exponent)
| Inf (neg : bool)
| NaN.

Definition sign_repr (neg : bool) : string := if neg then "-" else EmptyString.

Definition exponent_repr (e : exponent) : string :=
  String "e" (String (if eneg e then "-"%char else "+"%char)
                     (NilEmpty.string_of_uint (push (ehd e) (etl e)))).

Definition exponent_text (e : option exponent) : string :=
  match e with Some e => exponent_repr e | None => EmptyString end.

(** [repr] of a finite float; [float_repr] of any float. *)
Definition numeral_repr (neg : bool) (int : N) (frac : option (digit * Decimal.uint))
    (e : option exponent) : string :=
  sign_repr neg +:+ str_of_N int +:+
  match frac with
  | Some (hd, tl) => String "." (NilEmpty.string_of_uint (push hd tl))
  | None => EmptyString
  end +:+
  exponent_text e.

Definition float_repr (f : pyfloat) : string :=
  match f with
  | Dec neg int hd tl e => numeral_repr neg int (Some (hd, tl)) e
  | Sci neg int e => numeral_repr neg int None (Some e)
  | Inf neg => sign_repr neg +:+ "inf"
  | NaN => "nan"
  end.

(** [float(z)] for an integer. *)
Definition float_of_int (z : Z) : pyfloat :=
  Dec (z <? 0)%Z (Z.abs_N z) d0 Decimal.Nil None.

Definition float_of_bool (b : bool) : pyfloat :=
  Dec false (if b then 1 else 0) d0 Decimal.Nil None.

(** The float literals of the sources: 0.9, 0.85 and 0.8. *)
Definition f0_9 : pyfloat := Dec false 0 d9 Decimal.Nil None.
Definition f0_85 : pyfloat := Dec false 0 d8 (Decimal.D5 Decimal.Nil) None.
Definition f0_8 : pyfloat := Dec false 0 d8 Decimal.Nil None.

Definition is_nan (f : pyfloat) : bool :=
  match f with NaN => true | _ => false end.

(** The number a finite float denotes, as [m * 10 ^ k]. *)
Definition exponent_val (e : option exponent) : Z :=
  match e with
  | None => 0
  | Some e =>
      let n := Z.of_N (N.of_uint (push (ehd e) (etl e))) in
      if eneg e then (- n)%Z else n
  end.

Definition scaled (f : pyfloat) : option (Z * Z) :=
  match f with
  | Dec neg int hd tl e =>
      let frac := push hd tl in
      let k := Z.of_nat (Decimal.nb_digits frac) in
      let m := (Z.of_N int * 10 ^ k + Z.of_N (N.of_uint frac))%Z in
      Some (if neg then (- m)%Z else m, (exponent_val e - k)%Z)
  | Sci neg int e =>
      Some (if neg then (- Z.of_N int)%Z else Z.of_N int, exponent_val (Some e))
  | Inf _ | NaN => None
  end.

(** [a == b] on floats: NaN equals nothing, itself included; an infinity
    equals the infinity of the same sign; finite floats are equal when
    they denote the same number, so that [-0.0 == 0.0]. *)
Definition float_eq (a b : pyfloat) : bool :=
  match a, b with
  | NaN, _ | _, NaN => false
  | Inf s, Inf s' => Bool.eqb s s'
  | Inf _, _ | _, Inf _ => false
  | _, _ =>
      match scaled a, scaled b with
      | Some (m1, k1), Some (m2, k2) =>
          let k := Z.min k1 k2 in
          (m1 * 10 ^ (k1 - k) =? m2 * 10 ^ (k2 - k))%Z
      | _, _ => false
      end
  end.

(** Fixed-width fields, as [%04d] and [%02d] print them. *)
Fixpoint pad (k : nat) (n : N) : string :=
  match k with
  | O => EmptyString
  | S k' => String (Py.chr (48 + n / 10 ^ N.of_nat k')) (pad k' (n mod 10 ^ N.of_nat k'))
  end.

Definition digit_val (c : ascii) : option N :=
  let n := Py.ord c in
  if (48 <=? n) && (n <=? 57) then Some (n - 48) else None.

Fixpoint fixed (k : nat) (s : string) : option (N * string) :=
  match k with
  | O => Some (0, s)
  | S k' =>
      match s with
      | EmptyString => None
      | String c r =>
          match digit_val c with
          | None => None
          | Some d =>
              match fixed k' r with
              | None => None
              | Some (m, r') => Some (d * 10 ^ N.of_nat k' + m, r')
              end
          end
      end
  end.

End Num.

(* ===================================================================== *)
(** ** The [json] module *)
(* ===================================================================== *)

Module Json.

(** What [json.loads] returns and [json.dumps] accepts.  A [dict] keeps
    its items in insertion order. *)
#[local] Unset Elimination Schemes.
Inductive t : Type :=
| Null
| Bool (b : bool)
| Int (z : Z)
| Float (f : Num.pyfloat)
| Str (s : string)
| Arr (l : list t)
| Obj (items : list (string * t)).
#[local] Set Elimination Schemes.

(** Induction over values, with the elements of arrays and objects. *)
Section Induction.
Variable P : t -> Prop.
Hypothesis Hnull : P Null.
Hypothesis Hbool : forall b, P (Bool b).
Hypothesis Hint : forall z, P (Int z).
Hypothesis Hfloat : forall f, P (Float f).
Hypothesis Hstr : forall s, P (Str s).
Hypothesis Harr : forall l, Forall P l -> P (Arr l).
Hypothesis Hobj : forall m, Forall (fun kv => P (snd kv)) m -> P (Obj m).

Fixpoint t_ind' (v : t) : P v :=
  match v with
  | Null => Hnull
  | Bool b => Hbool b
  | Int z => Hint z
  | Float f => Hfloat f
  | Str s => Hstr s
  | Arr l =>
      Harr l ((fix all (l : list t) : Forall P l :=
                 match l with
                 | [] => List.Forall_nil P
                 | x :: l' => List.Forall_cons P x l' (t_ind' x) (all l')
                 end) l)
  | Obj m =>
      Hobj m ((fix all (m : list (string * t)) : Forall (fun kv => P (snd kv)) m :=
                 match m with
                 | [] => List.Forall_nil _
                 | kx :: m' => List.Forall_cons _ kx m' (t_ind' (snd kx)) (all m')
                 end) m)
  end.
End Induction.

(** *** Encoder ([ensure_ascii=True], the default separators) *)

Definition hex_char (n : N) : ascii :=
  if n <? 10 then Py.chr (48 + n) else Py.chr (87 + n).

(** [ESCAPE_ASCII]: the quote, the backslash and everything outside
    [' '..'~'] is escaped. *)
Definition escape_char (c : ascii) (k : string) : string :=
  let n := Py.ord c in
  if n =? 34 then String "\" (String Py.quote k)
  else if n =? 92 then String "\" (String "\" k)
  else if n =? 10 then String "\" (String "n" k)
  else if n =? 13 then String "\" (String "r" k)
  else if n =? 9 then String "\" (String "t" k)
  else if n =? 8 then String "\" (String "b" k)
  else if n =? 12 then String "\" (String "f" k)
  else if (n <? 32) || (126 <? n)
    then String "\" (String "u" (String "0" (String "0"
           (String (hex_char (n / 16)) (String (hex_char (n mod 16)) k)))))
  else String c k.

Fixpoint encode_chars (s : string) (k : string) : string :=
  match s with
  | EmptyString => k
  | String c r => escape_char c (encode_chars r k)
  end.

Definition encode_basestring (s : string) : string :=
  String Py.quote (encode_chars s (String Py.quote EmptyString)).

(** [floatstr] of the encoder, with [allow_nan] at its default: [repr]
    for a finite float, and the three JavaScript names otherwise. *)
Definition floatstr (f : Num.pyfloat) : string :=
  match f with
  | Num.NaN => "NaN"
  | Num.Inf false => "Infinity"
  | Num.Inf true => "-Infinity"
  | _ => Num.float_repr f
  end.

Fixpoint dumps (v : t) : string :=
  match v with
  | Null => "null"
  | Bool true => "true"
  | Bool false => "false"
  | Int z => Num.int_repr z
  | Float f => floatstr f
  | Str s => encode_basestring s
  | Arr [] => "[]"
  | Arr (x :: l) =>
      "[" +:+ dumps x +:+
      (fix rest (l : list t) : string :=
         match l with
         | [] => "]"
         | y :: l' => ", " +:+ dumps y +:+ rest l'
         end) l
  | Obj [] => "{}"
  | Obj ((k, x) :: m) =>
      "{" +:+ encode_basestring k +:+ ": " +:+ dumps x +:+
      (fix rest (m : list (string * t)) : string :=
         match m with
         | [] => "}"
         | (k', y) :: m' => ", " +:+ encode_basestring k' +:+ ": " +:+ dumps y +:+ rest m'
         end) m
  end.

(** The two local loops of [dumps], named. *)
Fixpoint dumps_rest (l : list t) : string :=
  match l with
  | [] => "]"
  | y :: l' => ", " +:+ dumps y +:+ dumps_rest l'
  end.

Fixpoint dumps_members (m : list (string * t)) : string :=
  match m with
  | [] => "}"
  | (k', y) :: m' => ", " +:+ encode_basestring k' +:+ ": " +:+ dumps y +:+ dumps_members m'
  end.

(** Fuel that suffices to scan the text of a value. *)
Fixpoint need (v : t) : nat :=
  match v with
  | Arr l =>
      (fix needs (l : list t) : nat :=
         match l with
         | [] => 1
         | x :: l' => S (need x + needs l')
         end) l
  | Obj m =>
      (fix needo (m : list (string * t)) : nat :=
         match m with
         | [] => 1
         | (_, x) :: m' => S (S (need x) + needo m')
         end) m
  | _ => 1
  end%nat.

Fixpoint needs (l : list t) : nat :=
  match l with
  | [] => 1
  | x :: l' => S (need x + needs l')
  end%nat.

Fixpoint needo (m : list (string * t)) : nat :=
  match m with
  | [] => 1
  | (_, x) :: m' => S (S (need x) + needo m')
  end%nat.

(** The first character of a number, and of any encoded value. *)
Definition num_start (c : ascii) : bool := Num.is_digit c || (Py.ord c =? 45).

(** [e] or [E] *)
Definition is_e (c : ascii) : bool := (Py.ord c =? 101) || (Py.ord c =? 69).

(** What may follow a number: the end of the text, or a character that
    is neither a digit, nor the decimal point, nor the letter of an
    exponent. *)
Definition delim (s : string) : bool :=
  match s with
  | EmptyString => true
  | String c _ => negb (Num.is_digit c) && negb (Py.ord c =? 46) && negb (is_e c)
  end.

(** *** Decoder *)

Definition is_ws (c : ascii) : bool :=
  let n := Py.ord c in (n =? 32) || (n =? 9) || (n =? 10) || (n =? 13).

Fixpoint skip_ws (s : string) : string :=
  match s with
  | EmptyString => EmptyString
  | String c r => if is_ws c then skip_ws r else s
  end.

Definition hex_val (c : ascii) : option N :=
  let n := Py.ord c in
  if (48 <=? n) && (n <=? 57) then Some (n - 48)
  else if (97 <=? n) && (n <=? 102) then Some (n - 87)
  else if (65 <=? n) && (n <=? 70) then Some (n - 55)
  else None.

(** [BACKSLASH]: the one-letter escapes. *)
Definition unescape (c : ascii) : option ascii :=
  let n := Py.ord c in
  if n =? 34 then Some c
  else if n =? 92 then Some c
  else if n =? 47 then Some c
  else if n =? 98 then Some (Py.chr 8)
  else if n =? 102 then Some (Py.chr 12)
  else if n =? 110 then Some (Py.chr 10)
  else if n =? 114 then Some (Py.chr 13)
  else if n =? 116 then Some (Py.chr 9)
  else None.

(** [scanstring], called after the opening quote: the decoded string and
    the text after the closing quote.  A [\uXXXX] escape above U+00FF has
    no value in this model of [str] and is refused. *)
Fixpoint scanstring (s : string) : option (string * string) :=
  match s with
  | EmptyString => None
  | String c r =>
      if Py.ord c =? 34 then Some (EmptyString, r)
      else if Py.ord c =? 92 then
        match r with
        | EmptyString => None
        | String e r1 =>
            if Py.ord e =? 117 then
              match r1 with
              | String h1 (String h2 (String h3 (String h4 r2))) =>
                  match hex_val h1, hex_val h2, hex_val h3, hex_val h4 with
                  | Some a, Some b, Some x, Some y =>
                      if (a =? 0) && (b =? 0) then
                        match scanstring r2 with
                        | Some (k, r3) => Some (String (Py.chr (16 * x + y)) k, r3)
                        | None => None
                        end
                      else None
                  | _, _, _, _ => None
                  end
              | _ => None
              end
            else
              match unescape e with
              | None => None
              | Some ch =>
                  match scanstring r1 with
                  | Some (k, r2) => Some (String ch k, r2)
                  | None => None
                  end
              end
        end
      else if Py.ord c <? 32 then None
      else
        match scanstring r with
        | Some (k, r1) => Some (String c k, r1)
        | None => None
        end
  end.

(** The exponent after its letter: an optional sign and at least one
    digit. *)
Definition parse_exponent (s : string) : option (Num.exponent * string) :=
  let '(neg, s1) :=
    match s with
    | String c r =>
        if Py.ord c =? 45 then (true, r)
        else if Py.ord c =? 43 then (false, r)
        else (false, s)
    | EmptyString => (false, s)
    end in
  let '(de, s2) := Num.take_digits s1 in
  match Num.uncons de with
  | Some (h, tl) => Some ({| Num.eneg := neg; Num.ehd := h; Num.etl := tl |}, s2)
  | None => None
  end.

(** [NUMBER_RE]: an optional sign, [0] or a numeral without leading zero,
    an optional fraction, an optional exponent; with a fraction or an
    exponent the number is a float.  Where the regular expression would
    stop inside a run of digits, before a lone dot or before an exponent
    letter without digits, what follows cannot continue any JSON text, so
    the number is refused at once. *)
Definition parse_unsigned (neg : bool) (s1 : string) : option (t * string) :=
  let '(di, s2) := Num.take_digits s1 in
  if Decimal.uint_beq (Decimal.unorm di) di then
    match s2 with
    | String c s3 =>
        if Py.ord c =? 46 then
          let '(df, s4) := Num.take_digits s3 in
          match Num.uncons df with
          | Some (h, tl) =>
              match s4 with
              | String c4 s5 =>
                  if is_e c4 then
                    match parse_exponent s5 with
                    | Some (e, s6) => Some (Float (Num.Dec neg (N.of_uint di) h tl (Some e)), s6)
                    | None => None
                    end
                  else Some (Float (Num.Dec neg (N.of_uint di) h tl None), s4)
              | EmptyString => Some (Float (Num.Dec neg (N.of_uint di) h tl None), s4)
              end
          | None => None
          end
        else if is_e c then
          match parse_exponent s3 with
          | Some (e, s4) => Some (Float (Num.Sci neg (N.of_uint di) e), s4)
          | None => None
          end
        else Some (Int (if neg then - Z.of_N (N.of_uint di) else Z.of_N (N.of_uint di))%Z, s2)
    | EmptyString => Some (Int (if neg then - Z.of_N (N.of_uint di) else Z.of_N (N.of_uint di))%Z, s2)
    end
  else None.

Definition parse_number (s : string) : option (t * string) :=
  match s with
  | String c r => if Py.ord c =? 45 then parse_unsigned true r else parse_unsigned false s
  | EmptyString => parse_unsigned false s
  end.

(** [scan_once] with its helpers for arrays and objects; [fuel] bounds
    the nesting depth plus the number of items. *)
Fixpoint scan_once (fuel : nat) (s : string) : option (t * string) :=
  match fuel with
  | O => None
  | S n =>
      match s with
      | EmptyString => None
      | String c r =>
          let o := Py.ord c in
          if o =? 34 then
            match scanstring r with
            | Some (k, r1) => Some (Str k, r1)
            | None => None
            end
          else if o =? 91 then
            match skip_ws r with
            | EmptyString => None
            | String c1 r1 =>
                if Py.ord c1 =? 93 then Some (Arr [], r1)
                else
                  match scan_once n (String c1 r1) with
                  | None => None
                  | Some (x, r2) =>
                      match scan_array n r2 with
                      | Some (l, r3) => Some (Arr (x :: l), r3)
                      | None => None
                      end
                  end
            end
          else if o =? 123 then
            match skip_ws r with
            | EmptyString => None
            | String c1 r1 =>
                if Py.ord c1 =? 125 then Some (Obj [], r1)
                else if Py.ord c1 =? 34 then
                  match scan_pair n r1 with
                  | None => None
                  | Some (kx, r2) =>
                      match scan_object n r2 with
                      | Some (m, r3) => Some (Obj (kx :: m), r3)
                      | None => None
                      end
                  end
                else None
            end
          else if o =? 110 then
            match Py.strip_prefix "ull" r with Some r1 => Some (Null, r1) | None => None end
          else if o =? 116 then
            match Py.strip_prefix "rue" r with Some r1 => Some (Bool true, r1) | None => None end
          else if o =? 102 then
            match Py.strip_prefix "alse" r with Some r1 => Some (Bool false, r1) | None => None end
          else
            match parse_number s with
            | Some x => Some x
            | None =>
                if o =? 78 then
                  match Py.strip_prefix "aN" r with
                  | Some r1 => Some (Float Num.NaN, r1)
                  | None => None
                  end
                else if o =? 73 then
                  match Py.strip_prefix "nfinity" r with
                  | Some r1 => Some (Float (Num.Inf false), r1)
                  | None => None
                  end
                else if o =? 45 then
                  match Py.strip_prefix "Infinity" r with
                  | Some r1 => Some (Float (Num.Inf true), r1)
                  | None => None
                  end
                else None
            end
      end
  end
(** after an array element: a comma and the next element, or the closing
    bracket *)
with scan_array (fuel : nat) (s : string) : option (list t * string) :=
  match fuel with
  | O => None
  | S n =>
      match skip_ws s with
      | EmptyString => None
      | String c r =>
          if Py.ord c =? 93 then Some ([], r)
          else if Py.ord c =? 44 then
            match scan_once n (skip_ws r) with
            | None => None
            | Some (x, r1) =>
                match scan_array n r1 with
                | Some (l, r2) => Some (x :: l, r2)
                | None => None
                end
            end
          else None
      end
  end
(** after the opening quote of a key: the key, a colon, the value *)
with scan_pair (fuel : nat) (s : string) : option ((string * t) * string) :=
  match fuel with
  | O => None
  | S n =>
      match scanstring s with
      | None => None
      | Some (k, r) =>
          match skip_ws r with
          | EmptyString => None
          | String c r1 =>
              if Py.ord c =? 58 then
                match scan_once n (skip_ws r1) with
                | Some (x, r2) => Some ((k, x), r2)
                | None => None
                end
              else None
          end
      end
  end
(** after an object member: a comma and the next member, or the closing
    brace *)
with scan_object (fuel : nat) (s : string) : option (list (string * t) * string) :=
  match fuel with
  | O => None
  | S n =>
      match skip_ws s with
      | EmptyString => None
      | String c r =>
          if Py.ord c =? 125 then Some ([], r)
          else if Py.ord c =? 44 then
            match skip_ws r with
            | EmptyString => None
            | String c1 r1 =>
                if Py.ord c1 =? 34 then
                  match scan_pair n r1 with
                  | None => None
                  | Some (kx, r2) =>
                      match scan_object n r2 with
                      | Some (m, r3) => Some (kx :: m, r3)
                      | None => None
                      end
                  end
                else None
            end
          else None
      end
  end.

(** [json.loads]: leading blanks, one value, trailing blanks, nothing
    else.  [None] stands for [JSONDecodeError]. *)
Definition loads (s : string) : option t :=
  match scan_once (S (String.length s)) (skip_ws s) with
  | Some (v, r) => match skip_ws r with EmptyString => Some v | _ => None end
  | None => None
  end.

(** *** Texts the decoder certainly refuses *)

(** The characters at which [scan_once] can read a value: the quote, the
    two opening brackets, the minus sign, a digit, and the first letters of
    [null], [true], [false], [NaN] and [Infinity]. *)
Definition may_start (c : ascii) : bool :=
  let n := Py.ord c in
  (n =? 34) || (n =? 91) || (n =? 123) || (n =? 45) || Num.is_digit c ||
  (n =? 110) || (n =? 116) || (n =? 102) || (n =? 78) || (n =? 73).

(** No value can be read at the first non-blank position of the text,
    whatever follows: nothing is there; or the character there begins no
    value; or it opens an array that is not closed at once and whose first
    element cannot be read; or it opens an object and what comes next is
    neither the quote of a key nor the closing brace.  On such a text
    [json.loads] raises [JSONDecodeError]; the criterion looks at the
    opening of the text only and does not depend on which numbers, escapes
    or constants the decoder accepts further on. *)
Inductive no_value : string -> Prop :=
| nv_blank (s : string) :
    skip_ws s = EmptyString -> no_value s
| nv_start (s : string) (c : ascii) (r : string) :
    skip_ws s = String c r -> may_start c = false -> no_value s
| nv_element (s r : string) :
    skip_ws s = String "[" r ->
    Py.starts (fun c => Py.ord c =? 93) (skip_ws r) = false ->
    no_value r -> no_value s
| nv_key (s r : string) :
    skip_ws s = String "{" r ->
    Py.starts (fun c => (Py.ord c =? 34) || (Py.ord c =? 125)) (skip_ws r) = false ->
    no_value s.

Definition value_start (c : ascii) : bool :=
  negb (is_ws c) && negb (Py.ord c =? 93).

(** Scanning the text of [v] gives [v] back and stops right after it. *)
Definition scans (v : t) : Prop :=
  forall fuel rest, (need v <= fuel)%nat -> delim rest = true ->
    scan_once fuel (dumps v +:+ rest) = Some (v, rest).

(** *** Python's view of a decoded value *)

(** [d[k]] / [d.get(k)] on the dict built from the items in text order:
    a later duplicate key replaces an earlier one. *)
Fixpoint get (k : string) (items : list (string * t)) : option t :=
  match items with
  | [] => None
  | (k', v) :: m =>
      match get k m with
      | Some v' => Some v'
      | None => if String.eqb k' k then Some v else None
      end
  end.

(** [bool(v)] *)
Definition truthy (v : t) : bool :=
  match v with
  | Null => false
  | Bool b => b
  | Int z => negb (z =? 0)%Z
  | Float (Num.Dec _ int hd tl _) =>
      negb ((int =? 0) && Decimal.uint_beq (Decimal.nzhead (Num.push hd tl)) Decimal.Nil)
  | Float (Num.Sci _ int _) => negb (int =? 0)
  | Float (Num.Inf _) | Float Num.NaN => true
  | Str s => match s with EmptyString => false | _ => true end
  | Arr l => match l with [] => false | _ => true end
  | Obj m => match m with [] => false | _ => true end
  end.

(** [v[0]] *)
Definition index0 (v : t) : result t :=
  match v with
  | Arr (x :: _) => Ok x
  | Arr [] => Raise IndexError
  | Str (String c _) => Ok (Str (String c EmptyString))
  | Str EmptyString => Raise IndexError
  | Obj _ => Raise KeyError
  | Null | Bool _ | Int _ | Float _ => Raise TypeError
  end.

End Json.

(* ===================================================================== *)
(** ** [datetime] *)
(* ===================================================================== *)

Module Datetime.

(** The fields of a [datetime]; [tzoffset] is the UTC offset in minutes
    of an aware value, [None] for a naive one. *)
Record fields : Type := {
  year : N; month : N; day : N;
  hour : N; minute : N; second : N; microsecond : N;
  tzoffset : option Z
}.

Definition is_leap (y : N) : bool :=
  ((y mod 4 =? 0) && negb (y mod 100 =? 0)) || (y mod 400 =? 0).

Definition days_in_month (y m : N) : N :=
  if m =? 2 then (if is_leap y then 29 else 28)
  else if (m =? 4) || (m =? 6) || (m =? 9) || (m =? 11) then 30
  else 31.

(** The range checks of the [datetime] constructor. *)
Definition valid (f : fields) : bool :=
  (1 <=? year f) && (year f <=? 9999) &&
  (1 <=? month f) && (month f <=? 12) &&
  (1 <=? day f) && (day f <=? days_in_month (year f) (month f)) &&
  (hour f <? 24) && (minute f <? 60) && (second f <? 60) &&
  (microsecond f <? 1000000) &&
  match tzoffset f with
  | None => true
  | Some z => (-1440 <? z)%Z && (z <? 1440)%Z
  end.

(** A [datetime] object: fields that passed the constructor's checks. *)
Definition t : Type := { f : fields | valid f = true }.

Definition make (f : fields) : option t :=
  match Bool.bool_dec (valid f) true with
  | left H => Some (exist _ f H)
  | right _ => None
  end.

Definition format_tz (o : option Z) : string :=
  match o with
  | None => EmptyString
  | Some z =>
      let a := Z.abs_N z in
      String (if (z <? 0)%Z then "-"%char else "+"%char)
             (Num.pad 2 (a / 60) +:+ ":" +:+ Num.pad 2 (a mod 60))
  end.

Definition format (f : fields) : string :=
  Num.pad 4 (year f) +:+ "-" +:+ Num.pad 2 (month f) +:+ "-" +:+ Num.pad 2 (day f) +:+
  "T" +:+ Num.pad 2 (hour f) +:+ ":" +:+ Num.pad 2 (minute f) +:+ ":" +:+ Num.pad 2 (second f) +:+
  (if microsecond f =? 0 then EmptyString else String "."%char (Num.pad 6 (microsecond f))) +:+
  format_tz (tzoffset f).

(** [datetime.isoformat()] *)
Definition isoformat (d : t) : string := format (proj1_sig d).

Definition parse_tz (s : string) : option (option Z) :=
  match s with
  | EmptyString => Some None
  | String c r =>
      if Py.ord c =? 90 then
        match r with EmptyString => Some (Some 0%Z) | _ => None end
      else if (Py.ord c =? 43) || (Py.ord c =? 45) then
        '(hh, r1) ← Num.fixed 2 r;
        r2 ← Py.strip_prefix ":" r1;
        '(mm, r3) ← Num.fixed 2 r2;
        match r3 with
        | EmptyString =>
            Some (Some (if Py.ord c =? 45 then (- Z.of_N (hh * 60 + mm))%Z
                        else Z.of_N (hh * 60 + mm)))
        | _ => None
        end
      else None
  end.

Definition parse_fraction (s : string) : option (N * string) :=
  match s with
  | String c r => if Py.ord c =? 46 then Num.fixed 6 r else Some (0, s)
  | EmptyString => Some (0, s)
  end.

Definition parse (s : string) : option fields :=
  '(y, s1) ← Num.fixed 4 s;
  s2 ← Py.strip_prefix "-" s1;
  '(mo, s3) ← Num.fixed 2 s2;
  s4 ← Py.strip_prefix "-" s3;
  '(d, s5) ← Num.fixed 2 s4;
  match s5 with
  | EmptyString =>
      Some {| year := y; month := mo; day := d; hour := 0; minute := 0;
              second := 0; microsecond := 0; tzoffset := None |}
  | String _ s6 =>
      '(hh, s7) ← Num.fixed 2 s6;
      s8 ← Py.strip_prefix ":" s7;
      '(mi, s9) ← Num.fixed 2 s8;
      s10 ← Py.strip_prefix ":" s9;
      '(ss, s11) ← Num.fixed 2 s10;
      '(us, s12) ← parse_fraction s11;
      tz ← parse_tz s12;
      Some {| year := y; month := mo; day := d; hour := hh; minute := mi;
              second := ss; microsecond := us; tzoffset := tz |}
  end.

(** [datetime.fromisoformat], on the texts [isoformat] emits, the same
    with a [Z] suffix, and the date alone.  pydantic's parser for a
    [datetime] field agrees with it on these texts.  The library reads
    further layouts (a time without seconds, fractions of other lengths,
    the basic format); the model does not, so [Some] here is the
    library's result, while [None] is the library's [ValueError] only for
    the texts [not_iso] describes below. *)
Definition fromisoformat (s : string) : option t :=
  f ← parse s; make f.

(** Texts that are certainly no date: the empty text and a text that
    begins with a letter.  Every layout [datetime.fromisoformat] and
    pydantic's [datetime] parser accept begins with a digit of the year
    (pydantic also reads a numeral as a Unix time), so both refuse these
    texts. *)
Definition not_iso (s : string) : bool :=
  match s with
  | EmptyString => true
  | String c _ => Py.is_letter c
  end.

(** The days before the first of January of year [y], the days of year
    [y] before the first of month [m], and the number of a day counted
    from the first of January of year 1, as [_ymd2ord] computes them. *)
Definition days_before_year (y : N) : N :=
  let p := y - 1 in p * 365 + p / 4 - p / 100 + p / 400.

Definition days_before_month (y m : N) : N :=
  fold_right N.add 0 ((fun k => days_in_month y (N.of_nat k)) <$> seq 1 (N.to_nat m - 1)).

Definition ordinal (f : fields) : N :=
  days_before_year (year f) + days_before_month (year f) (month f) + day f.

(** The microseconds from the start of day 0 to the instant the fields
    denote at the UTC offset [offset], in minutes. *)
Definition instant (f : fields) (offset : Z) : Z :=
  ((((Z.of_N (ordinal f) * 24 + Z.of_N (hour f)) * 60 + Z.of_N (minute f) - offset) * 60
    + Z.of_N (second f)) * 1000000 + Z.of_N (microsecond f))%Z.

(** [a == b]: two aware values are equal when they denote the same
    instant, two naive values when their fields agree, which is when they
    denote the same instant at offset 0; a naive value never equals an
    aware one. *)
Definition py_eq (a b : t) : bool :=
  match tzoffset (proj1_sig a), tzoffset (proj1_sig b) with
  | Some oa, Some ob => (instant (proj1_sig a) oa =? instant (proj1_sig b) ob)%Z
  | None, None => (instant (proj1_sig a) 0 =? instant (proj1_sig b) 0)%Z
  | _, _ => false
  end.

End Datetime.

(* ===================================================================== *)
(** ** [app/models/chat.py] *)
(* ===================================================================== *)

(** [Literal["question", "answer", "chat", "regenerate"]] *)
Inductive Action : Type := question | answer | chat | regenerate.

Definition action_str (a : Action) : string :=
  match a with
  | question => "question"
  | answer => "answer"
  | chat => "chat"
  | regenerate => "regenerate"
  end.

Definition action_of_str (s : string) : option Action :=
  if String.eqb s "question" then Some question
  else if String.eqb s "answer" then Some answer
  else if String.eqb s "chat" then Some chat
  else if String.eqb s "regenerate" then Some regenerate
  else None.

Module StudentMessage.
Record t : Type := {
  conversation_id : string;
  content : string;
  action : Action;
  timestamp : Datetime.t
}.
End StudentMessage.

Module TutorMessage.
Record t : Type := {
  conversation_id : string;
  content : string;
  feedback : gmap string Num.pyfloat;
  timestamp : Datetime.t
}.
End TutorMessage.

(** An element of [ConversationThread.messages]. *)
Inductive Message : Type :=
| Student (m : StudentMessage.t)
| Tutor (m : TutorMessage.t).

Definition is_student (m : Message) : bool :=
  match m with Student _ => true | Tutor _ => false end.

Definition is_tutor (m : Message) : bool :=
  match m with Student _ => false | Tutor _ => true end.

Definition message_conversation_id (m : Message) : string :=
  match m with
  | Student s => StudentMessage.conversation_id s
  | Tutor u => TutorMessage.conversation_id u
  end.

Definition message_content (m : Message) : string :=
  match m with
  | Student s => StudentMessage.content s
  | Tutor u => TutorMessage.content u
  end.

Definition message_timestamp (m : Message) : Datetime.t :=
  match m with
  | Student s => StudentMessage.timestamp s
  | Tutor u => TutorMessage.timestamp u
  end.

Module ConversationThread.
Record t : Type := {
  id : string;
  student_id : string;
  usmos : list string;
  content_id : string;
  messages : list Message;
  created_at : Datetime.t;
  updated_at : Datetime.t
}.

(** Assignment to the attributes the services mutate. *)
Definition set_messages (ms : list Message) (thread : t) : t :=
  {| id := id thread; student_id := student_id thread; usmos := usmos thread;
     content_id := content_id thread; messages := ms;
     created_at := created_at thread; updated_at := updated_at thread |}.

Definition set_updated_at (d : Datetime.t) (thread : t) : t :=
  {| id := id thread; student_id := student_id thread; usmos := usmos thread;
     content_id := content_id thread; messages := messages thread;
     created_at := created_at thread; updated_at := d |}.
End ConversationThread.

Module ConversationThreadRedis.
Record t : Type := {
  id : string;
  student_id : string;
  usmos_json : string;
  content_ids : string;
  messages : string;
  created_at : string;
  updated_at : string;
  is_active : bool
}.
End ConversationThreadRedis.

Module ContentResponse.
Record t : Type := {
  content_id : string;
  usmos : list string;
  problem : string;
  answer : string;
  explanation : option string
}.
End ContentResponse.

(** The dictionary [start_conversation] returns. *)
Module StartConversationResponse.
Record t : Type := {
  threads : list ConversationThread.t;
  contents : list ContentResponse.t
}.
End StartConversationResponse.

(* ===================================================================== *)
(** ** Equality as Python computes it *)
(* ===================================================================== *)

(** [a == b] for two values built apart from one another, as a loaded
    thread and the thread that was saved are: no float of the one is the
    very object of the other, so a NaN on either side makes the values
    unequal.  Models are equal when they are of the same class and their
    fields are equal; lists are compared element by element, dicts key by
    key. *)
Module PyEq.

Definition feedback (a b : gmap string Num.pyfloat) : bool :=
  bool_decide ((dom a : gset string) = dom b) &&
  forallb (fun kx => match b !! fst kx with
                     | Some y => Num.float_eq (snd kx) y
                     | None => false
                     end)
          (map_to_list a).

Definition message (a b : Message) : bool :=
  match a, b with
  | Student x, Student y =>
      String.eqb (StudentMessage.conversation_id x) (StudentMessage.conversation_id y) &&
      String.eqb (StudentMessage.content x) (StudentMessage.content y) &&
      String.eqb (action_str (StudentMessage.action x)) (action_str (StudentMessage.action y)) &&
      Datetime.py_eq (StudentMessage.timestamp x) (StudentMessage.timestamp y)
  | Tutor x, Tutor y =>
      String.eqb (TutorMessage.conversation_id x) (TutorMessage.conversation_id y) &&
      String.eqb (TutorMessage.content x) (TutorMessage.content y) &&
      feedback (TutorMessage.feedback x) (TutorMessage.feedback y) &&
      Datetime.py_eq (TutorMessage.timestamp x) (TutorMessage.timestamp y)
  | _, _ => false
  end.

Fixpoint messages (a b : list Message) : bool :=
  match a, b with
  | [], [] => true
  | x :: a', y :: b' => message x y && messages a' b'
  | _, _ => false
  end.

Definition thread (a b : ConversationThread.t) : bool :=
  String.eqb (ConversationThread.id a) (ConversationThread.id b) &&
  String.eqb (ConversationThread.student_id a) (ConversationThread.student_id b) &&
  bool_decide (ConversationThread.usmos a = ConversationThread.usmos b) &&
  String.eqb (ConversationThread.content_id a) (ConversationThread.content_id b) &&
  messages (ConversationThread.messages a) (ConversationThread.messages b) &&
  Datetime.py_eq (ConversationThread.created_at a) (ConversationThread.created_at b) &&
  Datetime.py_eq (ConversationThread.updated_at a) (ConversationThread.updated_at b).

End PyEq.

(** No feedback value of the thread is NaN. *)
Definition nan_free (t : ConversationThread.t) : bool :=
  forallb (fun m => match m with
                    | Student _ => true
                    | Tutor u =>
                        forallb (fun kx => negb (Num.is_nan (snd kx)))
                                (map_to_list (TutorMessage.feedback u))
                    end)
          (ConversationThread.messages t).

(* ===================================================================== *)
(** ** pydantic validation and [model_dump] *)
(* ===================================================================== *)

Module Pydantic.

(** The items of the [dict] built from decoded pairs: of two pairs with
    the same key the later one stays. *)
Fixpoint dict_items (items : list (string * Json.t)) : list (string * Json.t) :=
  match items with
  | [] => []
  | (k, v) :: m =>
      if existsb (fun kv => String.eqb (fst kv) k) m then dict_items m
      else (k, v) :: dict_items m
  end.

(** A required field of type [str]. *)
Definition str_field (v : option Json.t) : result string :=
  match v with
  | Some (Json.Str s) => Ok s
  | _ => Raise ValidationError
  end.

(** A required field of type [Literal["question", ...]]. *)
Definition action_field (v : option Json.t) : result Action :=
  match v with
  | Some (Json.Str s) => of_option ValidationError (action_of_str s)
  | _ => Raise ValidationError
  end.

(** A value of type [float]: a float, or an integer or boolean
    converted.  (The conversion of numeric strings is not modelled.) *)
Definition float_value (v : Json.t) : result Num.pyfloat :=
  match v with
  | Json.Float f => Ok f
  | Json.Int z => Ok (Num.float_of_int z)
  | Json.Bool b => Ok (Num.float_of_bool b)
  | _ => Raise ValidationError
  end.

(** A field of type [Dict[str, float]] with [default_factory=dict]. *)
Definition feedback_field (v : option Json.t) : result (gmap string Num.pyfloat) :=
  match v with
  | None => Ok ∅
  | Some (Json.Obj items) =>
      rbind (rmapM (fun kv => rbind (float_value (snd kv)) (fun f => Ok (fst kv, f)))
                   (dict_items items))
            (fun l => Ok (list_to_map l))
  | Some _ => Raise ValidationError
  end.

(** A field of type [List[str]]. *)
Definition str_list (v : Json.t) : result (list string) :=
  match v with
  | Json.Arr l => rmapM (fun x => str_field (Some x)) l
  | _ => Raise ValidationError
  end.

(** A present field of type [datetime], given as text.  (The reading of
    a number as a Unix time is not modelled.) *)
Definition datetime_value (v : Json.t) : result Datetime.t :=
  match v with
  | Json.Str s => of_option ValidationError (Datetime.fromisoformat s)
  | _ => Raise ValidationError
  end.

(** The feedback dict as a JSON object.  The items come in the order of
    the finite map, which may differ from Python's insertion order; no
    reader of the text depends on that order. *)
Definition feedback_dump (fb : gmap string Num.pyfloat) : Json.t :=
  Json.Obj ((fun kf => (fst kf, Json.Float (snd kf))) <$> map_to_list fb).

(** [message.model_dump()] followed by the rewriting of [timestamp] to
    its ISO text, as [_save_thread] does for each message. *)
Definition msg_dict (m : Message) : Json.t :=
  match m with
  | Student s =>
      Json.Obj [("conversation_id", Json.Str (StudentMessage.conversation_id s));
                ("content", Json.Str (StudentMessage.content s));
                ("action", Json.Str (action_str (StudentMessage.action s)));
                ("timestamp", Json.Str (Datetime.isoformat (StudentMessage.timestamp s)))]
  | Tutor u =>
      Json.Obj [("conversation_id", Json.Str (TutorMessage.conversation_id u));
                ("content", Json.Str (TutorMessage.content u));
                ("feedback", feedback_dump (TutorMessage.feedback u));
                ("timestamp", Json.Str (Datetime.isoformat (TutorMessage.timestamp u)))]
  end.

End Pydantic.

(* ===================================================================== *)
(** ** The world of the services *)
(* ===================================================================== *)

(** The Redis hash models by primary key, the instants [datetime.now]
    returns on its successive calls, and the strings [uuid.uuid4] returns
    on its successive calls. *)
Record World : Type := {
  redis : gmap string ConversationThreadRedis.t;
  clock : nat -> Datetime.t;
  ticks : nat;
  uuids : nat -> string;
  drawn : nat
}.

Definition M (A : Type) : Type := World -> result A * World.

Definition ret {A} (a : A) : M A := fun w => (Ok a, w).

Definition raise {A} (e : exn) : M A := fun w => (Raise e, w).

Definition bind {A B} (m : M A) (k : A -> M B) : M B :=
  fun w =>
    match m w with
    | (Ok a, w') => k a w'
    | (Raise e, w') => (Raise e, w')
    end.

(** [try: m  except Exception as e: h e] *)
Definition try_except {A} (m : M A) (h : exn -> M A) : M A :=
  fun w =>
    match m w with
    | (Ok a, w') => (Ok a, w')
    | (Raise e, w') => h e w'
    end.

Definition lift {A} (r : result A) : M A := fun w => (r, w).

Declare Scope monad_scope.
Delimit Scope monad_scope with monad.
Notation "'let*' x := m 'in' k" := (bind m (fun x => k))
  (at level 10, x name, m at level 100, k at level 200) : monad_scope.
Notation "m ;; k" := (bind m (fun _ => k))
  (at level 100, k at level 200, right associativity) : monad_scope.
Local Open Scope monad_scope.

Fixpoint mapM {A B} (f : A -> M B) (l : list A) : M (list B) :=
  match l with
  | [] => ret []
  | x :: l' => let* y := f x in let* ys := mapM f l' in ret (y :: ys)
  end.

Definition tick (w : World) : World :=
  {| redis := redis w; clock := clock w; ticks := S (ticks w);
     uuids := uuids w; drawn := drawn w |}.

Definition draw (w : World) : World :=
  {| redis := redis w; clock := clock w; ticks := ticks w;
     uuids := uuids w; drawn := S (drawn w) |}.

Definition set_redis (db : gmap string ConversationThreadRedis.t) (w : World) : World :=
  {| redis := db; clock := clock w; ticks := ticks w;
     uuids := uuids w; drawn := drawn w |}.

(** [datetime.now(timezone.utc)] *)
Definition now : M Datetime.t :=
  fun w => (Ok (clock w (ticks w)), tick w).

(** [str(uuid.uuid4())] *)
Definition uuid4 : M string :=
  fun w => (Ok (uuids w (drawn w)), draw w).

(** [ConversationThreadRedis.get(pk)], with [None] for a key that is not
    there, and [thread_redis.save()], which replaces the whole record. *)
Definition redis_get (pk : string) : M (option ConversationThreadRedis.t) :=
  fun w => (Ok (redis w !! pk), w).

Definition redis_save (r : ConversationThreadRedis.t) : M unit :=
  fun w => (Ok tt, set_redis (<[ConversationThreadRedis.id r := r]> (redis w)) w).

(** Constructing the models from decoded values.  pydantic validates every
    field before it reports, so a missing [timestamp] draws its default
    from the clock whatever the other fields hold; unknown keys are
    ignored. *)

Definition timestamp_field (v : option Json.t) : M (result Datetime.t) :=
  match v with
  | None => let* n := now in ret (Ok n)
  | Some x => ret (Pydantic.datetime_value x)
  end.

(** [StudentMessage] called with the mapping as keyword arguments *)
Definition new_StudentMessage (message : list (string * Json.t)) : M StudentMessage.t :=
  let* ts := timestamp_field (Json.get "timestamp" message) in
  lift (rbind (Pydantic.str_field (Json.get "conversation_id" message)) (fun cid =>
        rbind (Pydantic.str_field (Json.get "content" message)) (fun c =>
        rbind (Pydantic.action_field (Json.get "action" message)) (fun a =>
        rbind ts (fun t =>
        Ok {| StudentMessage.conversation_id := cid; StudentMessage.content := c;
              StudentMessage.action := a; StudentMessage.timestamp := t |}))))).

(** [TutorMessage] called with the mapping as keyword arguments *)
Definition new_TutorMessage (message : list (string * Json.t)) : M TutorMessage.t :=
  let* ts := timestamp_field (Json.get "timestamp" message) in
  lift (rbind (Pydantic.str_field (Json.get "conversation_id" message)) (fun cid =>
        rbind (Pydantic.str_field (Json.get "content" message)) (fun c =>
        rbind (Pydantic.feedback_field (Json.get "feedback" message)) (fun fb =>
        rbind ts (fun t =>
        Ok {| TutorMessage.conversation_id := cid; TutorMessage.content := c;
              TutorMessage.feedback := fb; TutorMessage.timestamp := t |}))))).

(** [ConversationThread(id=..., ..., updated_at=...)] as [get_thread]
    calls it: [usmos] must be a list of strings and [content_id], declared
    [str], must be a string. *)
Definition new_ConversationThread (id student_id : string) (usmos : Json.t)
    (content_id : option Json.t) (messages : list Message)
    (created_at updated_at : Datetime.t) : result ConversationThread.t :=
  rbind (Pydantic.str_list usmos) (fun us =>
  rbind (Pydantic.str_field content_id) (fun cid =>
  Ok {| ConversationThread.id := id; ConversationThread.student_id := student_id;
        ConversationThread.usmos := us; ConversationThread.content_id := cid;
        ConversationThread.messages := messages;
        ConversationThread.created_at := created_at;
        ConversationThread.updated_at := updated_at |})).

(* ===================================================================== *)
(** ** [app/services/c3.py] *)
(* ===================================================================== *)

(** The superscript two, U+00B2. *)
Definition sup2 : ascii := Ascii false true false false true true false true.

Definition content123 : ContentResponse.t :=
  {| ContentResponse.content_id := "content123";
     ContentResponse.usmos := ["MATH.ALG.1"];
     ContentResponse.problem := "Solve for x: x + 5 = 10";
     ContentResponse.answer := "x = 5";
     ContentResponse.explanation := Some "Subtract 5 from both sides to isolate x." |}.

Definition content456 : ContentResponse.t :=
  {| ContentResponse.content_id := "content456";
     ContentResponse.usmos := ["MATH.ALG.2"];
     ContentResponse.problem := "Solve the system of equations: x + y = 10, x - y = 4";
     ContentResponse.answer := "x = 7, y = 3";
     ContentResponse.explanation :=
       Some "Add the equations to eliminate y and solve for x, then substitute to find y." |}.

Definition content789 : ContentResponse.t :=
  {| ContentResponse.content_id := "content789";
     ContentResponse.usmos := ["SCIENCE.PHYS.1"];
     ContentResponse.problem :=
       "A ball is thrown upward with an initial velocity of 20 m/s. How high will it go?";
     ContentResponse.answer := "20.4 meters";
     ContentResponse.explanation :=
       Some ("Use the formula h = v" +:+ String sup2 ("/(2g) where g = 9.8 m/s" +:+ String sup2 ".")) |}.

Module C3Service.

Definition mock_data : gmap string ContentResponse.t :=
  {[ "MATH.ALG.1" := content123; "MATH.ALG.2" := content456;
     "SCIENCE.PHYS.1" := content789 ]}.

Fixpoint get_mock_content (usmos : list string) : list ContentResponse.t :=
  match usmos with
  | [] => []
  | usmo :: rest =>
      match mock_data !! usmo with
      | Some c => c :: get_mock_content rest
      | None => get_mock_content rest
      end
  end.

End C3Service.

(* ===================================================================== *)
(** ** [app/services/tutor.py] *)
(* ===================================================================== *)

Module TutorService.

(** [dspy] is the imported module when the import succeeded: the reply
    of the tutoring program for a history, a student message and a
    content item.  [dspy_configured] is the flag [__init__] sets. *)
Record t : Type := {
  dspy_configured : bool;
  dspy : option (string -> StudentMessage.t -> ContentResponse.t -> string)
}.

(** [self.dspy_configured and dspy is not None] *)
Definition configured (self : t) : bool :=
  dspy_configured self && match dspy self with Some _ => true | None => false end.

Definition newline : ascii := Ascii false true false true false false false false.

Fixpoint last_student (messages : list Message) : option StudentMessage.t :=
  match messages with
  | [] => None
  | m :: rest =>
      match last_student rest with
      | Some s => Some s
      | None => match m with Student s => Some s | Tutor _ => None end
      end
  end.

Definition history_line (m : Message) : string :=
  match m with
  | Student s => "Student: " +:+ StudentMessage.content s
  | Tutor u => "Tutor: " +:+ TutorMessage.content u
  end.

Fixpoint join_lines (l : list string) : string :=
  match l with
  | [] => EmptyString
  | [x] => x
  | x :: l' => x +:+ String newline (join_lines l')
  end.

Definition _format_conversation_history (messages : list Message) : string :=
  join_lines (history_line <$> messages).

Definition _generate_dspy_response (self : t) (conversation_history : string)
    (last_message : StudentMessage.t) (content : ContentResponse.t) : string :=
  match dspy self with
  | None => "I'm sorry, I'm having trouble generating a response right now."
  | Some program => program conversation_history last_message content
  end.

Definition _generate_feedback (response : string) : gmap string Num.pyfloat :=
  {[ "clarity" := Num.f0_9; "helpfulness" := Num.f0_85; "engagement" := Num.f0_8 ]}.

(** The rule-based reply of the [else] branch. *)
Definition fallback_response (last_message : StudentMessage.t) (content : ContentResponse.t) : string :=
  match StudentMessage.action last_message with
  | question =>
      "That's a good question about '" +:+ ContentResponse.problem content +:+
      "'. The answer is '" +:+ ContentResponse.answer content +:+ "'. Does that make sense?"
  | answer =>
      if Py.contains (Py.lower (ContentResponse.answer content))
                     (Py.lower (StudentMessage.content last_message))
      then "That's correct! Well done."
      else "Not quite. The correct answer is '" +:+ ContentResponse.answer content +:+
           "'. Let me explain: " +:+
           Py.or_str (ContentResponse.explanation content) "Think about it carefully."
  | chat =>
      "I understand your comment. Let's continue discussing this problem: " +:+
      ContentResponse.problem content
  | regenerate =>
      "Let me try to explain this differently. The problem is '" +:+
      ContentResponse.problem content +:+ "' and the answer is '" +:+
      ContentResponse.answer content +:+ "'. " +:+
      Py.or_str (ContentResponse.explanation content) EmptyString
  end.

Definition generate_response (self : t) (thread : ConversationThread.t)
    (content : ContentResponse.t) : M TutorMessage.t :=
  match last_student (ConversationThread.messages thread) with
  | None =>
      let* ts := now in
      ret {| TutorMessage.conversation_id := ConversationThread.id thread;
             TutorMessage.content :=
               "Let's discuss this problem: " +:+ ContentResponse.problem content +:+
               ". How would you approach solving it?";
             TutorMessage.feedback := ∅;
             TutorMessage.timestamp := ts |}
  | Some last_message =>
      let conversation_history :=
        _format_conversation_history (ConversationThread.messages thread) in
      let response :=
        if configured self
        then _generate_dspy_response self conversation_history last_message content
        else fallback_response last_message content in
      let* ts := now in
      ret {| TutorMessage.conversation_id := ConversationThread.id thread;
             TutorMessage.content := response;
             TutorMessage.feedback := _generate_feedback response;
             TutorMessage.timestamp := ts |}
  end.

End TutorService.

(* ===================================================================== *)
(** ** [app/services/conversation.py] *)
(* ===================================================================== *)

Module ConversationService.

Definition json_loads (s : string) : result Json.t :=
  of_option JSONDecodeError (Json.loads s).

(** [for message in messages]: a list yields its elements, a dict its
    keys, a string its characters; nothing else can be iterated. *)
Definition iterate (v : Json.t) : result (list Json.t) :=
  match v with
  | Json.Arr l => Ok l
  | Json.Obj items => Ok ((fun kv => Json.Str (fst kv)) <$> Pydantic.dict_items items)
  | Json.Str s => Ok ((fun c => Json.Str (String c EmptyString)) <$> list_ascii_of_string s)
  | Json.Null | Json.Bool _ | Json.Int _ | Json.Float _ => Raise TypeError
  end.

(** [message.get("action") is not None] *)
Definition has_action (message : list (string * Json.t)) : bool :=
  match Json.get "action" message with
  | None | Some Json.Null => false
  | Some _ => true
  end.

(** The body of the loop that types the decoded messages. *)
Definition typed_message (message : Json.t) : M Message :=
  match message with
  | Json.Obj items =>
      if has_action items
      then let* s := new_StudentMessage items in ret (Student s)
      else let* u := new_TutorMessage items in ret (Tutor u)
  | _ => raise AttributeError
  end.

Definition mock_content : gmap string ContentResponse.t :=
  {[ "content123" := content123; "content456" := content456;
     "content789" := content789 ]}.

Definition get_content (content_id : string) : option ContentResponse.t :=
  mock_content !! content_id.

(** The Redis model [_save_thread] creates for a thread. *)
Definition thread_redis (thread : ConversationThread.t) : ConversationThreadRedis.t :=
  let message_dicts := Pydantic.msg_dict <$> ConversationThread.messages thread in
  {| ConversationThreadRedis.id := ConversationThread.id thread;
     ConversationThreadRedis.student_id := ConversationThread.student_id thread;
     ConversationThreadRedis.usmos_json :=
       Json.dumps (Json.Arr (Json.Str <$> ConversationThread.usmos thread));
     ConversationThreadRedis.content_ids :=
       Json.dumps (Json.Arr [Json.Str (ConversationThread.content_id thread)]);
     ConversationThreadRedis.messages := Json.dumps (Json.Arr message_dicts);
     ConversationThreadRedis.created_at :=
       Datetime.isoformat (ConversationThread.created_at thread);
     ConversationThreadRedis.updated_at :=
       Datetime.isoformat (ConversationThread.updated_at thread);
     ConversationThreadRedis.is_active := true |}.

(** A stored thread: the store holds, under the thread's id, the record
    [_save_thread] writes for it. *)
Definition stored (thread : ConversationThread.t) (w : World) : Prop :=
  redis w !! ConversationThread.id thread = Some (thread_redis thread).

(** The thread [add_message] saves: the message appended and
    [updated_at] set to the instant the clock shows. *)
Definition appended (m : Message) (t : ConversationThread.t) (w : World) : ConversationThread.t :=
  ConversationThread.set_updated_at (clock w (ticks w))
    (ConversationThread.set_messages (ConversationThread.messages t ++ [m]) t).

(** The thread [create_thread] builds in a world. *)
Definition created (student_id : string) (content : ContentResponse.t) (w : World)
    : ConversationThread.t :=
  {| ConversationThread.id := uuids w (drawn w);
     ConversationThread.student_id := student_id;
     ConversationThread.usmos := ContentResponse.usmos content;
     ConversationThread.content_id := ContentResponse.content_id content;
     ConversationThread.messages := [];
     ConversationThread.created_at := clock w (ticks w);
     ConversationThread.updated_at := clock w (S (ticks w)) |}.

(** The store after saving the threads of a list, first to last. *)
Definition save_all (threads : list ConversationThread.t)
    (db : gmap string ConversationThreadRedis.t) : gmap string ConversationThreadRedis.t :=
  foldl (fun db t => <[ConversationThread.id t := thread_redis t]> db) db threads.

(** The next [n] strings [uuid4] returns are pairwise distinct and name
    no record of the store. *)
Definition fresh_uuids (n : nat) (w : World) : Prop :=
  NoDup ((fun i => uuids w (drawn w + i)%nat) <$> seq 0 n) /\
  forall i, (i < n)%nat -> redis w !! uuids w (drawn w + i)%nat = None.

(** A thread created for a content item on behalf of a student. *)
Definition matches (student_id : string) (t : ConversationThread.t) (c : ContentResponse.t) : Prop :=
  ConversationThread.student_id t = student_id /\
  ConversationThread.usmos t = ContentResponse.usmos c /\
  ConversationThread.content_id t = ContentResponse.content_id c /\
  ConversationThread.messages t = [].

(** The mapping contains a non-null [action] field. *)
Definition nonnull_action (items : list (string * Json.t)) : Prop :=
  exists v, Json.get "action" items = Some v /\ v <> Json.Null.

(** A persisted message mapping that cannot be decoded: its timestamp
    is a text that is certainly no date, or its action is a string that is
    not one of the four tags.  The model constructors refuse both. *)
Inductive corrupt_message (items : list (string * Json.t)) : Prop :=
| bad_timestamp (s : string) :
    Json.get "timestamp" items = Some (Json.Str s) ->
    Datetime.not_iso s = true -> corrupt_message items
| unknown_action (s : string) :
    Json.get "action" items = Some (Json.Str s) ->
    action_of_str s = None -> corrupt_message items.

(** A persisted record with a field that fails to decode, recognised
    from the text alone: a JSON field at whose start no value can be read,
    a [created_at] or [updated_at] that is certainly no date, or a message
    of the decoded list that cannot be decoded.  The criteria do not depend
    on which further forms the library decoders accept: the libraries
    refuse every record they describe. *)
Inductive corrupt_record (r : ConversationThreadRedis.t) : Prop :=
| bad_usmos_json :
    Json.no_value (ConversationThreadRedis.usmos_json r) -> corrupt_record r
| bad_content_ids :
    Json.no_value (ConversationThreadRedis.content_ids r) -> corrupt_record r
| bad_messages :
    Json.no_value (ConversationThreadRedis.messages r) -> corrupt_record r
| bad_created_at :
    Datetime.not_iso (ConversationThreadRedis.created_at r) = true -> corrupt_record r
| bad_updated_at :
    Datetime.not_iso (ConversationThreadRedis.updated_at r) = true -> corrupt_record r
| bad_message (decoded : Json.t) (elements : list Json.t) (items : list (string * Json.t)) :
    Json.loads (ConversationThreadRedis.messages r) = Some decoded ->
    iterate decoded = Ok elements ->
    Json.Obj items ∈ elements ->
    corrupt_message items -> corrupt_record r.

(** What a successfully typed message says about its mapping. *)
Inductive well_typed (e : Json.t) (m : Message) : Prop :=
| WellTyped (items : list (string * Json.t))
    (typed_obj : e = Json.Obj items)
    (typed_variant : is_student m = has_action items)
    (typed_timestamp : forall s,
       Json.get "timestamp" items = Some (Json.Str s) -> Datetime.fromisoformat s <> None)
    (typed_action : forall s,
       Json.get "action" items = Some (Json.Str s) -> action_of_str s <> None).

(** What a successful load says about the record it read. *)
Inductive loaded (r : ConversationThreadRedis.t) (t : ConversationThread.t) : Prop :=
| Loaded (messages : Json.t) (elements : list Json.t) (content_ids : Json.t) (usmos : Json.t)
    (load_messages : Json.loads (ConversationThreadRedis.messages r) = Some messages)
    (load_iterate : iterate messages = Ok elements)
    (load_typed : Forall2 well_typed elements (ConversationThread.messages t))
    (load_content_ids : Json.loads (ConversationThreadRedis.content_ids r) = Some content_ids)
    (load_content_id :
       Json.truthy content_ids = true /\
       Json.index0 content_ids = Ok (Json.Str (ConversationThread.content_id t)))
    (load_usmos : Json.loads (ConversationThreadRedis.usmos_json r) = Some usmos)
    (load_usmos_list : Pydantic.str_list usmos = Ok (ConversationThread.usmos t))
    (load_created_at :
       Datetime.fromisoformat (ConversationThreadRedis.created_at r)
       = Some (ConversationThread.created_at t))
    (load_updated_at :
       Datetime.fromisoformat (ConversationThreadRedis.updated_at r)
       = Some (ConversationThread.updated_at t))
    (load_id : ConversationThread.id t = ConversationThreadRedis.id r)
    (load_student_id : ConversationThread.student_id t = ConversationThreadRedis.student_id r).

Section Service.

(** [self.tutor_service] *)
Variable tutor_service : TutorService.t.

Definition _save_thread (thread : ConversationThread.t) : M unit :=
  try_except (redis_save (thread_redis thread)) (fun e => raise e).

Definition create_thread (student_id : string) (content : ContentResponse.t)
    : M ConversationThread.t :=
  let* i := uuid4 in
  let* c := now in
  let* u := now in
  let thread :=
    {| ConversationThread.id := i;
       ConversationThread.student_id := student_id;
       ConversationThread.usmos := ContentResponse.usmos content;
       ConversationThread.content_id := ContentResponse.content_id content;
       ConversationThread.messages := [];
       ConversationThread.created_at := c;
       ConversationThread.updated_at := u |} in
  _save_thread thread ;;
  ret thread.

Definition start_conversation (student_id : string) (usmos : list string)
    : M StartConversationResponse.t :=
  try_except
    (let contents := C3Service.get_mock_content usmos in
     match contents with
     | [] => ret {| StartConversationResponse.threads := [];
                    StartConversationResponse.contents := [] |}
     | _ :: _ =>
         let* threads := mapM (create_thread student_id) contents in
         ret {| StartConversationResponse.threads := threads;
                StartConversationResponse.contents := contents |}
     end)
    (fun e => raise e).

(** The body of the [try] of [get_thread]. *)
Definition get_thread_body (thread_id : string) : M (option ConversationThread.t) :=
  let* thread_redis := redis_get thread_id in
  match thread_redis with
  | None => ret None
  | Some r =>
      let* messages := lift (json_loads (ConversationThreadRedis.messages r)) in
      let* elements := lift (iterate messages) in
      let* typed_messages := mapM typed_message elements in
      let* content_ids := lift (json_loads (ConversationThreadRedis.content_ids r)) in
      let* content_id :=
        lift (if Json.truthy content_ids
              then rbind (Json.index0 content_ids) (fun x => Ok (Some x))
              else Ok None) in
      let* usmos := lift (json_loads (ConversationThreadRedis.usmos_json r)) in
      let* created_at :=
        lift (of_option (ValueError "Invalid isoformat string")
                (Datetime.fromisoformat (ConversationThreadRedis.created_at r))) in
      let* updated_at :=
        lift (of_option (ValueError "Invalid isoformat string")
                (Datetime.fromisoformat (ConversationThreadRedis.updated_at r))) in
      let* thread :=
        lift (new_ConversationThread (ConversationThreadRedis.id r)
                (ConversationThreadRedis.student_id r) usmos content_id
                typed_messages created_at updated_at) in
      ret (Some thread)
  end.

Definition get_thread (thread_id : string) : M (option ConversationThread.t) :=
  try_except (get_thread_body thread_id) (fun _ => ret None).

Definition add_message (message : Message) : M ConversationThread.t :=
  let* thread := get_thread (message_conversation_id message) in
  match thread with
  | None =>
      raise (ValueError ("Thread " +:+ message_conversation_id message +:+ " not found"))
  | Some thread =>
      let thread :=
        ConversationThread.set_messages
          (ConversationThread.messages thread ++ [message]) thread in
      let* n := now in
      let thread := ConversationThread.set_updated_at n thread in
      _save_thread thread ;;
      ret thread
  end.

Definition regenerate_tutor_response (thread_id : string) : M TutorMessage.t :=
  let* thread := get_thread thread_id in
  match thread with
  | None => raise (ValueError ("Thread " +:+ thread_id +:+ " not found"))
  | Some thread =>
      match get_content (ConversationThread.content_id thread) with
      | None =>
          raise (ValueError ("Content " +:+ ConversationThread.content_id thread +:+ " not found"))
      | Some content =>
          let* thread :=
            match Py.last (ConversationThread.messages thread) with
            | Some (Tutor _) =>
                let thread :=
                  ConversationThread.set_messages
                    (Py.pop (ConversationThread.messages thread)) thread in
                _save_thread thread ;;
                ret thread
            | _ => ret thread
            end in
          let* response := TutorService.generate_response tutor_service thread content in
          add_message (Tutor response) ;;
          ret response
      end
  end.

Definition handle_student_action (message : StudentMessage.t) : M TutorMessage.t :=
  let* thread := get_thread (StudentMessage.conversation_id message) in
  match thread with
  | None =>
      raise (ValueError ("Thread " +:+ StudentMessage.conversation_id message +:+ " not found"))
  | Some thread =>
      match get_content (ConversationThread.content_id thread) with
      | None =>
          raise (ValueError ("Content " +:+ ConversationThread.content_id thread +:+ " not found"))
      | Some content =>
          let* thread := add_message (Student message) in
          match StudentMessage.action message with
          | regenerate =>
              regenerate_tutor_response (StudentMessage.conversation_id message)
          | _ =>
              let* response := TutorService.generate_response tutor_service thread content in
              add_message (Tutor response) ;;
              ret response
          end
      end
  end.

End Service.

End ConversationService.

(* ===================================================================== *)
(** ** Sample worlds *)
(* ===================================================================== *)

Module Examples.

Definition noon : Datetime.t :=
  exist _ {| Datetime.year := 2025; Datetime.month := 5; Datetime.day := 22;
             Datetime.hour := 12; Datetime.minute := 0; Datetime.second := 0;
             Datetime.microsecond := 0; Datetime.tzoffset := Some 0%Z |} eq_refl.

Definition past_noon : Datetime.t :=
  exist _ {| Datetime.year := 2025; Datetime.month := 5; Datetime.day := 22;
             Datetime.hour := 12; Datetime.minute := 1; Datetime.second := 30;
             Datetime.microsecond := 250000; Datetime.tzoffset := Some 0%Z |} eq_refl.

(** An empty store, a clock that shows noon, and uuids [thread-0],
    [thread-1], ... *)
Definition world0 : World :=
  {| redis := ∅; clock := fun _ => noon; ticks := 0;
     uuids := fun n => "thread-" +:+ Num.str_of_N (N.of_nat n); drawn := 0 |}.

(** The service as it runs without a model backend. *)
Definition tutor : TutorService.t :=
  {| TutorService.dspy_configured := false; TutorService.dspy := None |}.

Definition question1 : StudentMessage.t :=
  {| StudentMessage.conversation_id := "conv123";
     StudentMessage.content := "How do I solve x + 5 = 10?";
     StudentMessage.action := question;
     StudentMessage.timestamp := noon |}.

Definition reply1 : TutorMessage.t :=
  {| TutorMessage.conversation_id := "conv123";
     TutorMessage.content := "To solve x + 5 = 10, subtract 5 from both sides.";
     TutorMessage.feedback := {[ "clarity" := Num.f0_9 ]};
     TutorMessage.timestamp := past_noon |}.

Definition again : StudentMessage.t :=
  {| StudentMessage.conversation_id := "conv123";
     StudentMessage.content := "Please explain again";
     StudentMessage.action := regenerate;
     StudentMessage.timestamp := past_noon |}.

(** A thread with one message of each kind. *)
Definition thread1 : ConversationThread.t :=
  {| ConversationThread.id := "conv123";
     ConversationThread.student_id := "student123";
     ConversationThread.usmos := ["MATH.ALG.1"];
     ConversationThread.content_id := "content123";
     ConversationThread.messages := [Student question1; Tutor reply1];
     ConversationThread.created_at := noon;
     ConversationThread.updated_at := past_noon |}.

Definition world1 : World :=
  set_redis {[ "conv123" := ConversationService.thread_redis thread1 ]} world0.

(** Records with one field spoiled, all else as [_save_thread] writes
    it for [thread1]. *)
Definition spoiled (pk usmos_json content_ids messages created_at : string)
    : ConversationThreadRedis.t :=
  {| ConversationThreadRedis.id := pk;
     ConversationThreadRedis.student_id := "student123";
     ConversationThreadRedis.usmos_json := usmos_json;
     ConversationThreadRedis.content_ids := content_ids;
     ConversationThreadRedis.messages := messages;
     ConversationThreadRedis.created_at := created_at;
     ConversationThreadRedis.updated_at := Datetime.isoformat past_noon;
     ConversationThreadRedis.is_active := true |}.

Definition good_usmos : string := Json.dumps (Json.Arr [Json.Str "MATH.ALG.1"]).
Definition good_content_ids : string := Json.dumps (Json.Arr [Json.Str "content123"]).
Definition good_messages : string :=
  Json.dumps (Json.Arr (Pydantic.msg_dict <$> ConversationThread.messages thread1)).
Definition good_time : string := Datetime.isoformat noon.

(** A student message whose action is not one of the four tags. *)
Definition bogus_messages : string :=
  Json.dumps (Json.Arr [Json.Obj [("conversation_id", Json.Str "bad-action");
                                  ("content", Json.Str "hello");
                                  ("action", Json.Str "bogus");
                                  ("timestamp", Json.Str good_time)]]).

Definition bad_json : ConversationThreadRedis.t :=
  spoiled "bad-json" good_usmos good_content_ids "[{not json" good_time.
Definition bad_time : ConversationThreadRedis.t :=
  spoiled "bad-time" good_usmos good_content_ids good_messages "yesterday".
Definition bad_action : ConversationThreadRedis.t :=
  spoiled "bad-action" good_usmos good_content_ids bogus_messages good_time.
Definition no_content : ConversationThreadRedis.t :=
  spoiled "no-content" good_usmos "[]" good_messages good_time.
Definition one_content : ConversationThreadRedis.t :=
  spoiled "one-content" good_usmos good_content_ids good_messages good_time.

Definition world2 : World :=
  set_redis {[ "bad-json" := bad_json; "bad-time" := bad_time;
               "bad-action" := bad_action; "no-content" := no_content;
               "one-content" := one_content ]} world0.

End Examples.

(* ===================================================================== *)
(** ** Read-only computations and thread invariants *)
(* ===================================================================== *)

(** [w'] is [w] with the clock possibly read some more: the store, the
    clock itself and the uuid generator are as they were. *)
Definition only_ticks (w w' : World) : Prop :=
  redis w' = redis w /\ clock w' = clock w /\ uuids w' = uuids w /\
  drawn w' = drawn w /\ (ticks w <= ticks w')%nat.

(** A computation that, whatever it returns or raises, at most reads the
    clock. *)
Definition reads {A} (m : M A) : Prop := forall w, only_ticks w (snd (m w)).

(** Every message of the thread names the thread as its conversation. *)
Definition coherent (t : ConversationThread.t) : Prop :=
  Forall (fun m => message_conversation_id m = ConversationThread.id t)
         (ConversationThread.messages t).

(** The header of a thread: what no operation but creation sets. *)
Definition same_header (t t' : ConversationThread.t) : Prop :=
  ConversationThread.id t' = ConversationThread.id t /\
  ConversationThread.student_id t' = ConversationThread.student_id t /\
  ConversationThread.usmos t' = ConversationThread.usmos t /\
  ConversationThread.content_id t' = ConversationThread.content_id t /\
  ConversationThread.created_at t' = ConversationThread.created_at t.

(* ===================================================================== *)
(** ** [UsmosRequest] of [app/models/chat.py] *)
(* ===================================================================== *)

Module UsmosRequest.

Record t : Type := { usmos : list string }.

(** The field validator: an empty list is refused. *)
Definition validate_usmos (v : list string) : result (list string) :=
  match v with
  | [] => Raise ValidationError
  | _ :: _ => Ok v
  end.

(** [UsmosRequest(usmos=v)] *)
Definition new (v : list string) : result t :=
  rbind (validate_usmos v) (fun v => Ok {| usmos := v |}).

End UsmosRequest.

(* ===================================================================== *)
(** ** [app/routers/chat/endpoints.py] *)
(* ===================================================================== *)

Module Endpoints.

(** An exception in flight inside an endpoint: an [HTTPException], or an
    exception that came out of a service.  The detail of an
    [HTTPException] is a literal text or [str(e)] of a caught
    exception, kept as that exception. *)
Inductive failure : Type :=
| HTTPException (status_code : N) (detail : detail)
| Error (e : exn)
with detail : Type :=
| Text (s : string)
| str (e : failure).

(** What an endpoint hands to the framework. *)
Inductive outcome (A : Type) : Type :=
| Return (a : A)
| Raised (f : failure).
Arguments Return {A} a.
Arguments Raised {A} f.

Definition E (A : Type) : Type := World -> outcome A * World.

Definition ereturn {A} (a : A) : E A := fun w => (Return a, w).

Definition efail {A} (f : failure) : E A := fun w => (Raised f, w).

Definition ebind {A B} (m : E A) (k : A -> E B) : E B :=
  fun w =>
    match m w with
    | (Return a, w') => k a w'
    | (Raised f, w') => (Raised f, w')
    end.

(** Awaiting a service method. *)
Definition call {A} (m : M A) : E A :=
  fun w =>
    match m w with
    | (Ok a, w') => (Return a, w')
    | (Raise e, w') => (Raised (Error e), w')
    end.

(** [isinstance(e, ValueError)]: pydantic's [ValidationError] and json's
    [JSONDecodeError] derive from [ValueError]; [HTTPException] does
    not. *)
Definition is_value_error (f : failure) : bool :=
  match f with
  | Error (ValueError _) | Error ValidationError | Error JSONDecodeError => true
  | _ => false
  end.

(** [try: m  except ValueError as e: h1 e  except Exception as e: h2 e] *)
Definition try_value_error {A} (m : E A) (h1 h2 : failure -> E A) : E A :=
  fun w =>
    match m w with
    | (Return a, w') => (Return a, w')
    | (Raised f, w') => if is_value_error f then h1 f w' else h2 f w'
    end.

(** [try: m  except Exception as e: h e] *)
Definition try_exception {A} (m : E A) (h : failure -> E A) : E A :=
  fun w =>
    match m w with
    | (Return a, w') => (Return a, w')
    | (Raised f, w') => h f w'
    end.

Notation "'let+' x := m 'in' k" := (ebind m (fun x => k))
  (at level 10, x name, m at level 100, k at level 200) : monad_scope.

Section Routes.

(** The tutor service behind [conversation_service]. *)
Variable tutor_service : TutorService.t.

(** The text Python gives a JSON value that is not a string when it is
    formatted into a key or a message. *)
Variable format_value : Json.t -> string.

(** [POST /start] *)
Definition start_conversation (request : UsmosRequest.t) (student_id : string)
    : E StartConversationResponse.t :=
  try_exception
    (let+ result := call (ConversationService.start_conversation student_id
                            (UsmosRequest.usmos request)) in
     ereturn {| StartConversationResponse.threads := StartConversationResponse.threads result;
                StartConversationResponse.contents := StartConversationResponse.contents result |})
    (fun e => efail (HTTPException 500 (str e))).

(** [POST /message] *)
Definition send_message (message : StudentMessage.t) : E TutorMessage.t :=
  try_value_error
    (let+ response := call (ConversationService.handle_student_action tutor_service message) in
     ereturn response)
    (fun e => efail (HTTPException 404 (str e)))
    (fun e => efail (HTTPException 500 (str e))).

(** The id a request value names: a string is its own text. *)
Definition thread_id_of (v : Json.t) : string :=
  match v with
  | Json.Str s => s
  | _ => format_value v
  end.

(** [POST /regenerate], given the decoded body *)
Definition regenerate_response (request : list (string * Json.t)) : E TutorMessage.t :=
  try_value_error
    (match Json.get "conversation_id" request with
     | None => efail (HTTPException 400 (Text "conversation_id is required"))
     | Some v =>
         let+ response :=
           call (ConversationService.regenerate_tutor_response tutor_service (thread_id_of v)) in
         ereturn response
     end)
    (fun e => efail (HTTPException 404 (str e)))
    (fun e => efail (HTTPException 500 (str e))).

(** [GET /conversation/{conversation_id}] *)
Definition get_conversation (conversation_id : string) : E ConversationThread.t :=
  try_exception
    (let+ thread := call (ConversationService.get_thread conversation_id) in
     match thread with
     | None =>
         efail (HTTPException 404 (Text ("Conversation " +:+ conversation_id +:+ " not found")))
     | Some thread => ereturn thread
     end)
    (fun e => efail (HTTPException 500 (str e))).

End Routes.

(** The status of the response the framework sends. *)
Definition status_code {A} (o : outcome A) : N :=
  match o with
  | Return _ => 200
  | Raised (HTTPException s _) => s
  | Raised (Error _) => 500
  end.

End Endpoints.

(* ===================================================================== *)
(** ** [app/routers/items.py] *)
(* ===================================================================== *)

Module Items.

(** An entry of [items_db]: what [Item.model_dump()] holds. *)
Record Item : Type := { name : string; description : option string }.

(** The module-level [items_db] as it is when the module is loaded. *)
Definition items_db : gmap Z Item :=
  {[ 1%Z := {| name := "Item 1"; description := Some "This is item 1" |};
     2%Z := {| name := "Item 2"; description := Some "This is item 2" |} ]}.

(** An endpoint returns a body or raises, and leaves a dictionary. *)
Definition R (A : Type) : Type := gmap Z Item -> Endpoints.outcome A * gmap Z Item.

Definition not_found {A} : R A :=
  fun db => (Endpoints.Raised (Endpoints.HTTPException 404 (Endpoints.Text "Item not found")), db).

Definition read_items : R (gmap Z Item) :=
  fun db => (Endpoints.Return db, db).

Definition read_item (item_id : Z) : R Item :=
  fun db =>
    match db !! item_id with
    | None => not_found db
    | Some it => (Endpoints.Return it, db)
    end.

Definition create_item (item_id : Z) (item : Item) : R Item :=
  fun db =>
    match db !! item_id with
    | Some _ =>
        (Endpoints.Raised (Endpoints.HTTPException 400 (Endpoints.Text "Item already exists")), db)
    | None => (Endpoints.Return item, <[item_id := item]> db)
    end.

Definition update_item (item_id : Z) (item : Item) : R Item :=
  fun db =>
    match db !! item_id with
    | None => not_found db
    | Some _ => (Endpoints.Return item, <[item_id := item]> db)
    end.

(** The body of a successful [DELETE]: the message and the item removed. *)
Definition delete_item (item_id : Z) : R (string * Item) :=
  fun db =>
    match db !! item_id with
    | None => not_found db
    | Some it => (Endpoints.Return ("Item deleted", it), delete item_id db)
    end.

End Items.

(* ===================================================================== *)
(** ** Decoding relation, keyed stores and further sample data *)
(* ===================================================================== *)

(** What a decoded element says about the message typed from it, for a
    clock [c]: the identifying fields are the strings of the mapping, a
    present timestamp is the text of the message's instant and a missing
    one was read from the clock, a student's action is the tag of the
    mapping, and a tutor's feedback is the mapping's, value by value. *)
Definition decodes (c : nat -> Datetime.t) (e : Json.t) (m : Message) : Prop :=
  exists items,
    e = Json.Obj items /\
    Json.get "conversation_id" items = Some (Json.Str (message_conversation_id m)) /\
    Json.get "content" items = Some (Json.Str (message_content m)) /\
    match Json.get "timestamp" items with
    | Some v => exists s, v = Json.Str s /\ Datetime.fromisoformat s = Some (message_timestamp m)
    | None => exists n, message_timestamp m = c n
    end /\
    match m with
    | Student s =>
        Json.get "action" items = Some (Json.Str (action_str (StudentMessage.action s)))
    | Tutor u =>
        match Json.get "feedback" items with
        | None => TutorMessage.feedback u = ∅
        | Some v =>
            exists fitems, v = Json.Obj fitems /\
              forall k, (Ok <$> TutorMessage.feedback u !! k)
                        = (Pydantic.float_value <$> Json.get k fitems)
        end
    end.

(** Redis-OM derives the key of a record from its primary key: every
    record of the store sits under its own id. *)
Definition keyed (w : World) : Prop :=
  forall k r, redis w !! k = Some r -> ConversationThreadRedis.id r = k.

(** Running [m] in [w] keeps the store keyed and leaves every record but
    the one under [k0] as it was, whether [m] returns or raises. *)
Definition touches_only {A} (k0 : string) (m : M A) (w : World) : Prop :=
  keyed w ->
  keyed (snd (m w)) /\ forall k, k <> k0 -> redis (snd (m w)) !! k = redis w !! k.

(** Further sample data: a thread whose content id names no content, a
    message for it, an attempt at an answer, and a world that holds the
    thread next to a record that does not decode. *)
Module Samples.

Definition hello : StudentMessage.t :=
  {| StudentMessage.conversation_id := "conv999";
     StudentMessage.content := "Hello";
     StudentMessage.action := chat;
     StudentMessage.timestamp := Examples.noon |}.

Definition orphan : ConversationThread.t :=
  {| ConversationThread.id := "conv999";
     ConversationThread.student_id := "student123";
     ConversationThread.usmos := ["ART.1"];
     ConversationThread.content_id := "content000";
     ConversationThread.messages := [Student hello];
     ConversationThread.created_at := Examples.noon;
     ConversationThread.updated_at := Examples.noon |}.

Definition attempt : StudentMessage.t :=
  {| StudentMessage.conversation_id := "conv123";
     StudentMessage.content := "I think X = 5!";
     StudentMessage.action := answer;
     StudentMessage.timestamp := Examples.past_noon |}.

(** The same with a reply of the tutor at the end of its log. *)
Definition greeting : TutorMessage.t :=
  {| TutorMessage.conversation_id := "conv998";
     TutorMessage.content := "Hello, how can I help?";
     TutorMessage.feedback := ∅;
     TutorMessage.timestamp := Examples.past_noon |}.

Definition answered_orphan : ConversationThread.t :=
  {| ConversationThread.id := "conv998";
     ConversationThread.student_id := "student123";
     ConversationThread.usmos := ["ART.1"];
     ConversationThread.content_id := "content000";
     ConversationThread.messages := [Tutor greeting];
     ConversationThread.created_at := Examples.noon;
     ConversationThread.updated_at := Examples.past_noon |}.

Definition world3 : World :=
  set_redis {[ "conv999" := ConversationService.thread_redis orphan;
               "conv998" := ConversationService.thread_redis answered_orphan;
               "bad-json" := Examples.bad_json ]} Examples.world0.

(** A request to regenerate in the thread whose content is unknown, and
    a message for the record that does not decode. *)
Definition redo : StudentMessage.t :=
  {| StudentMessage.conversation_id := "conv999";
     StudentMessage.content := "Please explain again";
     StudentMessage.action := regenerate;
     StudentMessage.timestamp := Examples.past_noon |}.

Definition stray : StudentMessage.t :=
  {| StudentMessage.conversation_id := "bad-json";
     StudentMessage.content := "Hello";
     StudentMessage.action := chat;
     StudentMessage.timestamp := Examples.noon |}.

(** A thread with one message of each kind whose tutor message carries a
    feedback value that is NaN. *)
Definition nan_reply : TutorMessage.t :=
  {| TutorMessage.conversation_id := "conv123";
     TutorMessage.content := "To solve x + 5 = 10, subtract 5 from both sides.";
     TutorMessage.feedback := {[ "clarity" := Num.NaN ]};
     TutorMessage.timestamp := Examples.past_noon |}.

Definition nan_thread : ConversationThread.t :=
  ConversationThread.set_messages [Student Examples.question1; Tutor nan_reply]
    Examples.thread1.

End Samples.

(* ===================================================================== *)
(** ** Facts about the codecs *)
(* ===================================================================== *)

#[local] Arguments String.append !_ _ / : simpl nomatch.
Module NumFacts.
Import Num.

Lemma append_assoc (a b c : string) : (a +:+ b) +:+ c = a +:+ (b +:+ c).
Proof. induction a as [|x a IH]; simpl; [done | by rewrite IH]. Qed.

Lemma append_nil_r (a : string) : a +:+ EmptyString = a.
Proof. induction a as [|x a IH]; simpl; [done | by rewrite IH]. Qed.

Lemma length_append (a b : string) :
  String.length (a +:+ b) = (String.length a + String.length b)%nat.
Proof. induction a as [|x a IH]; simpl; [done | by rewrite IH]. Qed.

Lemma uncons_push d u : uncons (push d u) = Some (d, u).
Proof. by destruct d. Qed.

Lemma take_digits_uint (d : Decimal.uint) (rest : string) :
  Py.starts is_digit rest = false ->
  take_digits (NilEmpty.string_of_uint d +:+ rest) = (d, rest).
Proof.
  intros Hrest. induction d as [|d IH|d IH|d IH|d IH|d IH|d IH|d IH|d IH|d IH|d IH];
    simpl; try (rewrite IH; reflexivity).
  destruct rest as [|c r]; [done|]. simpl in *.
  unfold is_digit in Hrest. by destruct (digit_of_char c).
Qed.

Lemma unorm_to_uint (n : N) : Decimal.unorm (N.to_uint n) = N.to_uint n.
Proof.
  rewrite <- (DecimalN.Unsigned.of_to n) at 2.
  by rewrite DecimalN.Unsigned.to_of.
Qed.

Lemma uint_beq_refl (d : Decimal.uint) : Decimal.uint_beq d d = true.
Proof. induction d; simpl; auto. Qed.

Lemma string_of_uint_head (d : Decimal.uint) :
  d <> Decimal.Nil ->
  exists c r, NilEmpty.string_of_uint d = String c r /\ is_digit c = true.
Proof. destruct d; intros H; try done; simpl; eauto. Qed.

Lemma to_uint_nonnil (n : N) : N.to_uint n <> Decimal.Nil.
Proof.
  rewrite <- unorm_to_uint. unfold Decimal.unorm.
  by destruct (Decimal.nzhead (N.to_uint n)).
Qed.

Lemma str_of_N_head (n : N) :
  exists c r, str_of_N n = String c r /\ is_digit c = true.
Proof. apply string_of_uint_head, to_uint_nonnil. Qed.

Lemma digit_val_chr (d : N) : d < 10 -> digit_val (Py.chr (48 + d)) = Some d.
Proof.
  intros H. unfold digit_val, Py.ord, Py.chr.
  rewrite N_ascii_embedding by lia.
  replace ((48 <=? 48 + d) && (48 + d <=? 57)) with true.
  - f_equal. lia.
  - symmetry. apply andb_true_iff. split; apply N.leb_le; lia.
Qed.

Lemma fixed_pad (k : nat) (n : N) (rest : string) :
  n < 10 ^ N.of_nat k ->
  fixed k (pad k n +:+ rest) = Some (n, rest).
Proof.
  revert n. induction k as [|k IH]; intros n Hn.
  - simpl in *. f_equal. f_equal. lia.
  - cbn [pad fixed String.append].
    assert (Hpow : 10 ^ N.of_nat (S k) = 10 * 10 ^ N.of_nat k).
    { rewrite Nat2N.inj_succ, N.pow_succ_r'. done. }
    assert (Hpos : 0 < 10 ^ N.of_nat k) by (apply N.neq_0_lt_0, N.pow_nonzero; lia).
    rewrite digit_val_chr.
    + rewrite IH by (apply N.mod_lt; lia).
      f_equal. f_equal.
      rewrite N.mul_comm. symmetry. apply N.div_mod. lia.
    + apply N.Div0.div_lt_upper_bound. lia.
Qed.

End NumFacts.

Module JsonFacts.
Import Num NumFacts Json.


Lemma dumps_arr x l : dumps (Arr (x :: l)) = "[" +:+ dumps x +:+ dumps_rest l.
Proof. reflexivity. Qed.

Lemma dumps_obj k x m :
  dumps (Obj ((k, x) :: m)) = "{" +:+ encode_basestring k +:+ ": " +:+ dumps x +:+ dumps_members m.
Proof. reflexivity. Qed.

Lemma need_arr l : need (Arr l) = needs l.
Proof. reflexivity. Qed.

Lemma need_obj m : need (Obj m) = needo m.
Proof. reflexivity. Qed.

(** Strings *)

Lemma scanstring_escape_char (c : ascii) (k : string) :
  scanstring (escape_char c k) =
  match scanstring k with
  | Some (s, r) => Some (String c s, r)
  | None => None
  end.
Proof. destruct c as [[] [] [] [] [] [] [] []]; reflexivity. Qed.

Lemma scanstring_encode (s rest : string) :
  scanstring (encode_chars s (String Py.quote rest)) = Some (s, rest).
Proof.
  induction s as [|c s IH]; [reflexivity|].
  cbn [encode_chars]. by rewrite scanstring_escape_char, IH.
Qed.

Lemma escape_char_append (c : ascii) (k k' : string) :
  escape_char c k +:+ k' = escape_char c (k +:+ k').
Proof. unfold escape_char. repeat case_match; reflexivity. Qed.

Lemma encode_chars_append (s k k' : string) :
  encode_chars s k +:+ k' = encode_chars s (k +:+ k').
Proof.
  induction s as [|c s IH]; [reflexivity|].
  cbn [encode_chars]. by rewrite escape_char_append, IH.
Qed.

Lemma encode_basestring_append (s k : string) :
  encode_basestring s +:+ k = String Py.quote (encode_chars s (String Py.quote k)).
Proof. unfold encode_basestring. simpl. by rewrite encode_chars_append. Qed.

(** Numbers *)

Lemma digit_not_minus c : is_digit c = true -> (Py.ord c =? 45) = false.
Proof. destruct c as [[] [] [] [] [] [] [] []]; (discriminate || reflexivity). Qed.

Lemma delim_inv rest :
  delim rest = true ->
  Py.starts is_digit rest = false /\
  match rest with
  | String c _ => (Py.ord c =? 46) = false /\ is_e c = false
  | EmptyString => True
  end.
Proof.
  destruct rest as [|c r]; simpl; [done|].
  intros [[H1 H2]%andb_true_iff H3]%andb_true_iff.
  by rewrite !negb_true_iff in *.
Qed.

Lemma parse_exponent_repr (e : exponent) (rest : string) :
  Py.starts is_digit rest = false ->
  exists tail,
    exponent_repr e +:+ rest = String "e" tail /\ parse_exponent tail = Some (e, rest).
Proof.
  intros Hd. destruct e as [neg h tl]. unfold exponent_repr. cbn [eneg ehd etl String.append].
  eexists. split; [reflexivity|]. unfold parse_exponent.
  destruct neg.
  - replace (Py.ord "-" =? 45) with true by reflexivity.
    rewrite take_digits_uint by done. by rewrite uncons_push.
  - replace (Py.ord "+" =? 45) with false by reflexivity.
    replace (Py.ord "+" =? 43) with true by reflexivity.
    rewrite take_digits_uint by done. by rewrite uncons_push.
Qed.

Lemma parse_unsigned_int (n : N) (rest : string) (neg : bool) :
  delim rest = true ->
  parse_unsigned neg (str_of_N n +:+ rest)
  = Some (Int (if neg then - Z.of_N n else Z.of_N n)%Z, rest).
Proof.
  intros [Hd Hp]%delim_inv. unfold parse_unsigned, str_of_N.
  rewrite take_digits_uint by done.
  rewrite unorm_to_uint, uint_beq_refl, DecimalN.Unsigned.of_to.
  destruct rest as [|c r]; [done|]. destruct Hp as [Hp He]. by rewrite Hp, He.
Qed.

Lemma parse_number_int (z : Z) (rest : string) :
  delim rest = true -> parse_number (int_repr z +:+ rest) = Some (Int z, rest).
Proof.
  intros Hrest. unfold parse_number, int_repr.
  destruct (Z.ltb_spec z 0) as [Hneg|Hpos].
  - cbn [String.append]. replace (Py.ord "-" =? 45) with true by reflexivity.
    rewrite (parse_unsigned_int _ _ true Hrest). do 3 f_equal. rewrite N2Z.inj_abs_N. lia.
  - destruct (str_of_N_head (Z.abs_N z)) as (c & r & E & Hc).
    rewrite E. cbn [String.append]. rewrite (digit_not_minus _ Hc).
    change (String c (r +:+ rest)) with (String c r +:+ rest). rewrite <- E.
    rewrite (parse_unsigned_int _ _ false Hrest). do 3 f_equal. rewrite N2Z.inj_abs_N. lia.
Qed.

Lemma starts_exponent_text (e : option exponent) (rest : string) :
  Py.starts is_digit rest = false ->
  Py.starts is_digit (exponent_text e +:+ rest) = false.
Proof. by destruct e. Qed.

Lemma parse_unsigned_dec (neg : bool) (n : N) (h : digit) (tl : Decimal.uint)
    (e : option exponent) (rest : string) :
  delim rest = true ->
  parse_unsigned neg
    (str_of_N n +:+ String "." (NilEmpty.string_of_uint (push h tl) +:+ exponent_text e +:+ rest))
  = Some (Float (Dec neg n h tl e), rest).
Proof.
  intros [Hd Hp]%delim_inv. unfold parse_unsigned, str_of_N.
  rewrite take_digits_uint by done.
  rewrite unorm_to_uint, uint_beq_refl, DecimalN.Unsigned.of_to.
  replace (Py.ord "." =? 46) with true by reflexivity.
  rewrite take_digits_uint by (by apply starts_exponent_text).
  rewrite uncons_push. destruct e as [e|]; cbn [exponent_text].
  - destruct (parse_exponent_repr e rest Hd) as (tail & -> & ->). reflexivity.
  - cbn [String.append]. destruct rest as [|c r]; [done|]. destruct Hp as [_ He]. by rewrite He.
Qed.

Lemma parse_unsigned_sci (neg : bool) (n : N) (e : exponent) (rest : string) :
  delim rest = true ->
  parse_unsigned neg (str_of_N n +:+ exponent_repr e +:+ rest) = Some (Float (Sci neg n e), rest).
Proof.
  intros [Hd Hp]%delim_inv. unfold parse_unsigned, str_of_N.
  destruct (parse_exponent_repr e rest Hd) as (tail & -> & Hpe).
  rewrite take_digits_uint by done.
  rewrite unorm_to_uint, uint_beq_refl, DecimalN.Unsigned.of_to.
  replace (Py.ord "e" =? 46) with false by reflexivity.
  replace (is_e "e") with true by reflexivity.
  by rewrite Hpe.
Qed.

Lemma parse_number_unsigned (neg : bool) (n : N) (k : string) :
  parse_number (sign_repr neg +:+ str_of_N n +:+ k) = parse_unsigned neg (str_of_N n +:+ k).
Proof.
  unfold parse_number, sign_repr. destruct neg.
  - cbn [String.append]. by replace (Py.ord "-" =? 45) with true by reflexivity.
  - cbn [String.append]. destruct (str_of_N_head n) as (c & r & E & Hc).
    rewrite E. cbn [String.append]. by rewrite (digit_not_minus _ Hc).
Qed.

Lemma numeral_repr_dec (neg : bool) (n : N) (h : digit) (tl : Decimal.uint)
    (e : option exponent) (rest : string) :
  numeral_repr neg n (Some (h, tl)) e +:+ rest
  = sign_repr neg +:+ str_of_N n +:+
    String "." (NilEmpty.string_of_uint (push h tl) +:+ exponent_text e +:+ rest).
Proof.
  unfold numeral_repr. rewrite !append_assoc. cbn [String.append].
  rewrite ?append_assoc. by destruct e.
Qed.

Lemma numeral_repr_sci (neg : bool) (n : N) (e : exponent) (rest : string) :
  numeral_repr neg n None (Some e) +:+ rest
  = sign_repr neg +:+ str_of_N n +:+ exponent_repr e +:+ rest.
Proof. unfold numeral_repr. rewrite !append_assoc. reflexivity. Qed.

Lemma parse_number_float (f : pyfloat) (rest : string) :
  delim rest = true ->
  match f with
  | Dec _ _ _ _ _ | Sci _ _ _ => parse_number (float_repr f +:+ rest) = Some (Float f, rest)
  | Inf _ | NaN => True
  end.
Proof.
  intros Hrest. destruct f as [neg n h tl e | neg n e | neg | ]; try done; cbn [float_repr].
  - rewrite numeral_repr_dec, parse_number_unsigned. by apply parse_unsigned_dec.
  - rewrite numeral_repr_sci, parse_number_unsigned. by apply parse_unsigned_sci.
Qed.

(** At a digit or a minus sign [scan_once] tries the number first. *)
Lemma scan_once_num_start (n : nat) (c : ascii) (r : string) :
  num_start c = true ->
  scan_once (S n) (String c r)
  = match parse_number (String c r) with
    | Some x => Some x
    | None =>
        if Py.ord c =? 45 then
          match Py.strip_prefix "Infinity" r with
          | Some r1 => Some (Float (Inf true), r1)
          | None => None
          end
        else None
    end.
Proof. destruct c as [[] [] [] [] [] [] [] []]; (discriminate || reflexivity). Qed.

Lemma scan_once_number (n : nat) (c : ascii) (r : string) (x : t * string) :
  num_start c = true ->
  parse_number (String c r) = Some x ->
  scan_once (S n) (String c r) = Some x.
Proof. intros Hc Hp. by rewrite scan_once_num_start, Hp. Qed.

Lemma int_repr_head z : exists c r, int_repr z = String c r /\ num_start c = true.
Proof.
  unfold int_repr. destruct (z <? 0)%Z; [by eauto|].
  destruct (str_of_N_head (Z.abs_N z)) as (c & r & E & Hc).
  exists c, r. split; [done|]. unfold num_start. by rewrite Hc.
Qed.

Lemma numeral_repr_head neg n frac e :
  exists c r, numeral_repr neg n frac e = String c r /\ num_start c = true.
Proof.
  unfold numeral_repr, sign_repr. destruct neg; [eexists _, _; split; reflexivity|].
  destruct (str_of_N_head n) as (c & r & E & Hc).
  rewrite E. cbn [String.append]. eexists _, _. split; [done|]. unfold num_start. by rewrite Hc.
Qed.

Lemma scan_once_float (n : nat) (f : pyfloat) (rest : string) :
  delim rest = true -> scan_once (S n) (floatstr f +:+ rest) = Some (Float f, rest).
Proof.
  intros Hd. pose proof (parse_number_float f rest Hd) as Hp.
  destruct f as [neg i h tl e | neg i e | [] | ]; try reflexivity; cbn [floatstr float_repr] in *.
  - destruct (numeral_repr_head neg i (Some (h, tl)) e) as (c & r & E & Hc).
    rewrite E in *. cbn [String.append] in *. by apply scan_once_number.
  - destruct (numeral_repr_head neg i None (Some e)) as (c & r & E & Hc).
    rewrite E in *. cbn [String.append] in *. by apply scan_once_number.
Qed.

Lemma floatstr_head f : exists c r, floatstr f = String c r /\ value_start c = true.
Proof.
  destruct f as [neg i h tl e | neg i e | [] | ]; try (by eexists _, _); cbn [floatstr float_repr].
  - destruct (numeral_repr_head neg i (Some (h, tl)) e) as (c & r & E & Hc).
    exists c, r. split; [done|]. destruct c as [[] [] [] [] [] [] [] []]; (discriminate || reflexivity).
  - destruct (numeral_repr_head neg i None (Some e)) as (c & r & E & Hc).
    exists c, r. split; [done|]. destruct c as [[] [] [] [] [] [] [] []]; (discriminate || reflexivity).
Qed.

(** The first character of an encoded value *)

Lemma num_start_value c : num_start c = true -> value_start c = true.
Proof. destruct c as [[] [] [] [] [] [] [] []]; (discriminate || reflexivity). Qed.

Lemma dumps_head v : exists c r, dumps v = String c r /\ value_start c = true.
Proof.
  destruct v as [ | [] | z | f | s | [|x l] | [|[k x] m] ]; try (by eexists _, _).
  - destruct (int_repr_head z) as (c & r & E & H). exists c, r. split; [done|]. by apply num_start_value.
  - apply floatstr_head.
Qed.

Lemma skip_ws_dumps v k : skip_ws (dumps v +:+ k) = dumps v +:+ k.
Proof.
  destruct (dumps_head v) as (c & r & E & H). rewrite E. cbn [String.append skip_ws].
  unfold value_start in H. apply andb_true_iff in H as [H _]. apply negb_true_iff in H. by rewrite H.
Qed.

Lemma delim_dumps_rest l k : delim (dumps_rest l +:+ k) = true.
Proof. by destruct l. Qed.

Lemma delim_dumps_members m k : delim (dumps_members m +:+ k) = true.
Proof. by destruct m as [|[??]?]. Qed.

(** Values *)

Lemma scan_array_rest (l : list t) :
  Forall scans l ->
  forall fuel rest, (needs l <= fuel)%nat ->
    scan_array fuel (dumps_rest l +:+ rest) = Some (l, rest).
Proof.
  induction 1 as [|y l Hy Hl IH]; intros fuel rest Hf.
  - destruct fuel as [|n]; [simpl in Hf; lia | reflexivity].
  - destruct fuel as [|n]; cbn [needs] in Hf; [lia|].
    cbn [dumps_rest]. rewrite ?append_assoc. cbn [String.append].
    simpl. rewrite skip_ws_dumps.
    rewrite Hy by (lia || apply delim_dumps_rest).
    by rewrite IH by lia.
Qed.

Lemma scan_pair_dumps (k : string) (x : t) :
  scans x ->
  forall fuel K, (S (need x) <= fuel)%nat -> delim K = true ->
    scan_pair fuel (encode_chars k (String Py.quote (String ":" (String " " (dumps x +:+ K)))))
    = Some ((k, x), K).
Proof.
  intros Hx fuel K Hf HK. destruct fuel as [|n]; [lia|].
  cbn [scan_pair]. rewrite scanstring_encode. simpl. rewrite skip_ws_dumps.
  by rewrite Hx by (lia || done).
Qed.

Lemma scan_object_members (m : list (string * t)) :
  Forall (fun kv => scans (snd kv)) m ->
  forall fuel rest, (needo m <= fuel)%nat ->
    scan_object fuel (dumps_members m +:+ rest) = Some (m, rest).
Proof.
  induction 1 as [|[k y] m Hy Hm IH]; intros fuel rest Hf.
  - destruct fuel as [|n]; [simpl in Hf; lia | reflexivity].
  - destruct fuel as [|n]; cbn [needo] in Hf; [lia|].
    cbn [dumps_members]. rewrite ?append_assoc, encode_basestring_append.
    cbn [String.append]. rewrite ?append_assoc. cbn [String.append].
    simpl. rewrite (scan_pair_dumps k y Hy) by (lia || apply delim_dumps_members).
    by rewrite IH by lia.
Qed.

Lemma scan_once_dumps (v : t) : scans v.
Proof.
  induction v as [ | b | z | f | s | l Hl | m Hm ] using t_ind'; intros fuel rest Hf Hd.
  - destruct fuel as [|n]; [simpl in Hf; lia | reflexivity].
  - destruct fuel as [|n]; [simpl in Hf; lia | by destruct b].
  - destruct fuel as [|n]; [simpl in Hf; lia |].
    destruct (int_repr_head z) as (c & r & E & Hc).
    cbn [dumps]. pose proof (parse_number_int z rest Hd) as Hp.
    rewrite E in *. cbn [String.append] in *. by apply scan_once_number.
  - destruct fuel as [|n]; [simpl in Hf; lia |].
    cbn [dumps]. by apply scan_once_float.
  - destruct fuel as [|n]; [simpl in Hf; lia |].
    cbn [dumps]. rewrite encode_basestring_append.
    cbn [scan_once]. replace (Py.ord Py.quote =? 34) with true by reflexivity.
    by rewrite scanstring_encode.
  - destruct l as [|x l]; (destruct fuel as [|n]; [simpl in Hf; lia |]); [reflexivity|].
    rewrite need_arr in Hf. cbn [needs] in Hf.
    apply Forall_cons in Hl as [Hx Hl].
    rewrite dumps_arr, ?append_assoc. cbn [String.append].
    destruct (dumps_head x) as (c & r & E & Hc).
    apply andb_true_iff in Hc as [_ Hc]. apply negb_true_iff in Hc.
    assert (E' : forall K, dumps x +:+ K = String c (r +:+ K)) by (intros; by rewrite E).
    simpl. rewrite skip_ws_dumps, E', Hc, <- E'.
    rewrite Hx by (lia || apply delim_dumps_rest).
    by rewrite (scan_array_rest l Hl) by lia.
  - destruct m as [|[k x] m]; (destruct fuel as [|n]; [simpl in Hf; lia |]); [reflexivity|].
    rewrite need_obj in Hf. cbn [needo] in Hf.
    apply Forall_cons in Hm as [Hx Hm]. cbn [snd] in Hx.
    rewrite dumps_obj, ?append_assoc, encode_basestring_append.
    cbn [String.append]. rewrite ?append_assoc. cbn [String.append].
    simpl. rewrite (scan_pair_dumps k x Hx) by (lia || apply delim_dumps_members).
    by rewrite (scan_object_members m Hm) by lia.
Qed.

Lemma need_le_length (v : t) : (need v <= String.length (dumps v))%nat.
Proof.
  induction v as [ | b | z | f | s | l Hl | m Hm ] using t_ind'.
  - simpl; lia.
  - destruct b; simpl; lia.
  - destruct (int_repr_head z) as (c & r & E & _). cbn [dumps need]. rewrite E. simpl. lia.
  - destruct (floatstr_head f) as (c & r & E & _). cbn [dumps need]. rewrite E. simpl. lia.
  - simpl. lia.
  - rewrite need_arr. destruct l as [|x l]; [simpl; lia|].
    apply Forall_cons in Hl as [Hx Hl].
    rewrite dumps_arr. cbn [needs String.append String.length]. rewrite length_append.
    enough (needs l <= String.length (dumps_rest l))%nat by lia.
    clear Hx. induction Hl as [|y l Hy Hl IH]; [simpl; lia|].
    cbn [needs dumps_rest String.append String.length]. rewrite length_append. lia.
  - rewrite need_obj. destruct m as [|[k x] m]; [simpl; lia|].
    apply Forall_cons in Hm as [Hx Hm]. cbn [snd] in Hx.
    rewrite dumps_obj. cbn [needo String.append String.length].
    repeat first [rewrite length_append | progress cbn [String.length String.append]].
    enough (needo m <= String.length (dumps_members m))%nat by lia.
    clear Hx. induction Hm as [|[k' y] m Hy Hm IH]; [simpl; lia|].
    cbn [snd] in Hy.
    cbn [needo dumps_members].
    repeat first [rewrite length_append | progress cbn [String.length String.append]]. lia.
Qed.

(** [json.loads(json.dumps(v)) == v] *)
Lemma loads_dumps (v : t) : loads (dumps v) = Some v.
Proof.
  unfold loads.
  pose proof (skip_ws_dumps v EmptyString) as Hs.
  pose proof (scan_once_dumps v (S (String.length (dumps v))) EmptyString) as Hv.
  rewrite append_nil_r in Hs, Hv.
  rewrite Hs, Hv; [done | | done].
  pose proof (need_le_length v). lia.
Qed.

(** Texts the decoder certainly refuses *)

Lemma scan_once_blank (fuel : nat) : scan_once fuel EmptyString = None.
Proof. by destruct fuel. Qed.

Lemma scan_once_no_start (fuel : nat) (c : ascii) (r : string) :
  may_start c = false -> scan_once fuel (String c r) = None.
Proof.
  intros Hc. destruct fuel as [|n]; [done|].
  destruct c as [[] [] [] [] [] [] [] []]; (discriminate || reflexivity).
Qed.

Lemma scan_once_array_open (n : nat) (r : string) :
  scan_once (S n) (String "[" r)
  = match skip_ws r with
    | EmptyString => None
    | String c1 r1 =>
        if Py.ord c1 =? 93 then Some (Arr [], r1)
        else
          match scan_once n (String c1 r1) with
          | None => None
          | Some (x, r2) =>
              match scan_array n r2 with
              | Some (l, r3) => Some (Arr (x :: l), r3)
              | None => None
              end
          end
    end.
Proof. reflexivity. Qed.

Lemma scan_once_object_open (n : nat) (r : string) :
  scan_once (S n) (String "{" r)
  = match skip_ws r with
    | EmptyString => None
    | String c1 r1 =>
        if Py.ord c1 =? 125 then Some (Obj [], r1)
        else if Py.ord c1 =? 34 then
          match scan_pair n r1 with
          | None => None
          | Some (kx, r2) =>
              match scan_object n r2 with
              | Some (m, r3) => Some (Obj (kx :: m), r3)
              | None => None
              end
          end
        else None
    end.
Proof. reflexivity. Qed.

Lemma no_value_scan (s : string) :
  no_value s -> forall fuel, scan_once fuel (skip_ws s) = None.
Proof.
  induction 1 as [s H | s c r H Hc | s r H Hclose Hr IH | s r H Hkey]; intros fuel; rewrite H.
  - apply scan_once_blank.
  - by apply scan_once_no_start.
  - destruct fuel as [|n]; [done|]. rewrite scan_once_array_open.
    specialize (IH n). destruct (skip_ws r) as [|c1 r1]; [done|].
    cbn [Py.starts] in Hclose. by rewrite Hclose, IH.
  - destruct fuel as [|n]; [done|]. rewrite scan_once_object_open.
    destruct (skip_ws r) as [|c1 r1]; [done|].
    cbn [Py.starts] in Hkey. apply orb_false_iff in Hkey as [Hq Hb]. by rewrite Hb, Hq.
Qed.

Lemma no_value_loads (s : string) : no_value s -> loads s = None.
Proof. intros H. unfold loads. by rewrite (no_value_scan s H). Qed.
End JsonFacts.

Module DatetimeFacts.
Import Num NumFacts Datetime.

Opaque pad fixed.
#[local] Arguments N.mul : simpl never.
#[local] Arguments N.add : simpl never.
#[local] Arguments N.div : simpl never.
#[local] Arguments N.modulo : simpl never.
#[local] Arguments Z.of_N : simpl never.
#[local] Arguments Z.opp : simpl never.

Lemma parse_tz_format (o : option Z) :
  match o with Some z => (-1440 < z < 1440)%Z | None => True end ->
  parse_tz (format_tz o) = Some o.
Proof.
  destruct o as [z|]; [|reflexivity]. intros Hz.
  unfold format_tz, parse_tz.
  set (a := Z.abs_N z).
  assert (Ha : a < 1440) by (subst a; lia).
  assert (Hq : a / 60 < 10 ^ N.of_nat 2) by (apply N.Div0.div_lt_upper_bound; simpl; lia).
  assert (Hr : a mod 60 < 10 ^ N.of_nat 2).
  { pose proof (N.mod_lt a 60 ltac:(lia)). simpl. lia. }
  assert (Hsum : a / 60 * 60 + a mod 60 = a).
  { rewrite N.mul_comm. symmetry. apply N.div_mod. lia. }
  rewrite <- (append_nil_r (pad 2 (a mod 60))).
  destruct (Z.ltb_spec z 0) as [Hneg|Hpos]; simpl;
    rewrite fixed_pad by done; simpl;
    rewrite fixed_pad by done; simpl;
    rewrite Hsum; do 2 f_equal; subst a; lia.
Qed.

Lemma parse_fraction_tz (o : option Z) :
  parse_fraction (format_tz o) = Some (0, format_tz o).
Proof.
  destruct o as [z|]; [|reflexivity]. unfold format_tz.
  by destruct (z <? 0)%Z.
Qed.

Lemma parse_format (f : fields) : valid f = true -> parse (format f) = Some f.
Proof.
  destruct f as [y mo d hh mi ss us tz]. unfold valid. cbn [year month day hour minute second microsecond tzoffset].
  rewrite !andb_true_iff, !N.leb_le, !N.ltb_lt.
  intros ((((((((((Hy1 & Hy2) & Hm1) & Hm2) & Hd1) & Hd2) & Hh) & Hmi) & Hs) & Hus) & Htz).
  assert (Hdim : days_in_month y mo <= 31).
  { unfold days_in_month. repeat case_match; lia. }
  assert (Htz' : parse_tz (format_tz tz) = Some tz).
  { apply parse_tz_format. destruct tz as [z|]; [|done].
    apply andb_true_iff in Htz as [H1 H2]. apply Z.ltb_lt in H1, H2. lia. }
  unfold format, parse. cbn [year month day hour minute second microsecond tzoffset].
  rewrite fixed_pad by (simpl; lia). simpl.
  rewrite fixed_pad by (simpl; lia). simpl.
  rewrite fixed_pad by (simpl; lia). simpl.
  rewrite fixed_pad by (simpl; lia). simpl.
  rewrite fixed_pad by (simpl; lia). simpl.
  rewrite fixed_pad by (simpl; lia). simpl.
  destruct (N.eqb_spec us 0) as [->|Hne]; simpl.
  - rewrite parse_fraction_tz. simpl. by rewrite Htz'.
  - rewrite fixed_pad by (simpl; lia). simpl. by rewrite Htz'.
Qed.

Transparent pad fixed.

Lemma make_proj (d : t) : make (proj1_sig d) = Some d.
Proof.
  destruct d as [f H]. unfold make. cbn [proj1_sig].
  destruct (Bool.bool_dec (valid f) true) as [H'|H']; [|done].
  f_equal. by apply (sig_eq_pi _).
Qed.

(** [datetime.fromisoformat(d.isoformat()) == d] *)
Lemma fromisoformat_isoformat (d : t) : fromisoformat (isoformat d) = Some d.
Proof.
  unfold fromisoformat, isoformat.
  rewrite parse_format by apply (proj2_sig d).
  cbn [mbind option_bind]. apply make_proj.
Qed.

Lemma not_iso_fromisoformat (s : string) : not_iso s = true -> fromisoformat s = None.
Proof.
  destruct s as [|c r]; [reflexivity|]. cbn [not_iso]. intros Hc.
  destruct c as [[] [] [] [] [] [] [] []]; (discriminate || reflexivity).
Qed.

Lemma py_eq_refl (d : t) : py_eq d d = true.
Proof. unfold py_eq. destruct (tzoffset (proj1_sig d)); apply Z.eqb_refl. Qed.
End DatetimeFacts.

Module ModelFacts.
Import Pydantic ConversationService.
Import JsonFacts DatetimeFacts.

Lemma existsb_key_false (k : string) (m : list (string * Json.t)) :
  k ∉ m.*1 -> existsb (fun kv => String.eqb (fst kv) k) m = false.
Proof.
  induction m as [|[k' v] m IH]; [done|]. cbn [existsb fst fmap list_fmap].
  intros Hk. apply not_elem_of_cons in Hk as [Hne Hk].
  rewrite IH by done. rewrite orb_false_r. apply String.eqb_neq. congruence.
Qed.

Lemma dict_items_nodup (m : list (string * Json.t)) :
  NoDup m.*1 -> dict_items m = m.
Proof.
  induction m as [|[k v] m IH]; [done|]. cbn [fmap list_fmap fst].
  intros [Hk Hm]%NoDup_cons. cbn [dict_items].
  rewrite existsb_key_false by done. by rewrite IH.
Qed.

Lemma rmapM_float_values (l : list (string * Num.pyfloat)) :
  rmapM (fun kv : string * Json.t => rbind (float_value (snd kv)) (fun f => Ok (fst kv, f)))
        ((fun kf => (fst kf, Json.Float (snd kf))) <$> l) = Ok l.
Proof.
  induction l as [|[k f] l IH]; [done|].
  cbn [fmap list_fmap rmapM fst snd float_value rbind] in *. by rewrite IH.
Qed.

Lemma feedback_roundtrip (fb : gmap string Num.pyfloat) :
  feedback_field (Some (feedback_dump fb)) = Ok fb.
Proof.
  unfold feedback_field, feedback_dump.
  rewrite dict_items_nodup.
  - rewrite rmapM_float_values. cbn [rbind]. f_equal. apply list_to_map_to_list.
  - rewrite <- list_fmap_compose.
    replace (fst ∘ (fun kf : string * Num.pyfloat => (fst kf, Json.Float (snd kf)))) with (@fst string Num.pyfloat) by done.
    apply NoDup_fst_map_to_list.
Qed.

Lemma action_roundtrip (a : Action) : action_of_str (action_str a) = Some a.
Proof. by destruct a. Qed.

Lemma datetime_value_isoformat (d : Datetime.t) :
  datetime_value (Json.Str (Datetime.isoformat d)) = Ok d.
Proof. unfold datetime_value. by rewrite fromisoformat_isoformat. Qed.

(** One message through [model_dump] and back through the discriminant. *)
Lemma typed_message_msg_dict (m : Message) (w : World) :
  typed_message (msg_dict m) w = (Ok m, w).
Proof.
  destruct m as [[cid c a ts] | [cid c fb ts]].
  - unfold typed_message, msg_dict, has_action.
    cbn [StudentMessage.conversation_id StudentMessage.content StudentMessage.action StudentMessage.timestamp].
    change (Json.get "action" _) with (Some (Json.Str (action_str a))).
    cbv iota beta. unfold new_StudentMessage.
    change (Json.get "timestamp" _) with (Some (Json.Str (Datetime.isoformat ts))).
    change (Json.get "conversation_id" _) with (Some (Json.Str cid)).
    change (Json.get "content" _) with (Some (Json.Str c)).
    change (Json.get "action" _) with (Some (Json.Str (action_str a))).
    unfold bind, timestamp_field, ret, lift. rewrite datetime_value_isoformat.
    cbn [str_field action_field rbind]. by rewrite action_roundtrip.
  - unfold typed_message, msg_dict, has_action.
    cbn [TutorMessage.conversation_id TutorMessage.content TutorMessage.feedback TutorMessage.timestamp].
    change (Json.get "action" _) with (@None Json.t).
    cbv iota beta. unfold new_TutorMessage.
    change (Json.get "timestamp" _) with (Some (Json.Str (Datetime.isoformat ts))).
    change (Json.get "conversation_id" _) with (Some (Json.Str cid)).
    change (Json.get "content" _) with (Some (Json.Str c)).
    change (Json.get "feedback" _) with (Some (feedback_dump fb)).
    unfold bind, timestamp_field, ret, lift. rewrite datetime_value_isoformat.
    rewrite feedback_roundtrip. reflexivity.
Qed.

Lemma mapM_typed_message (ms : list Message) (w : World) :
  mapM typed_message (msg_dict <$> ms) w = (Ok ms, w).
Proof.
  induction ms as [|m ms IH]; [done|].
  cbn [fmap list_fmap mapM]. unfold bind at 1. rewrite typed_message_msg_dict.
  unfold bind at 1. fold (@fmap list _ _ _ msg_dict ms). by rewrite IH.
Qed.

Lemma str_list_roundtrip (l : list string) :
  str_list (Json.Arr (Json.Str <$> l)) = Ok l.
Proof.
  unfold str_list. induction l as [|x l IH]; [done|].
  cbn [fmap list_fmap rmapM str_field rbind] in *. by rewrite IH.
Qed.

(** Loading what [_save_thread] wrote gives the thread back. *)
Lemma get_thread_stored (t : ConversationThread.t) (w : World) :
  stored t w -> get_thread (ConversationThread.id t) w = (Ok (Some t), w).
Proof.
  unfold stored, get_thread, get_thread_body, try_except, redis_get. intros Hs.
  unfold bind at 1. rewrite Hs. unfold thread_redis.
  cbn [ConversationThreadRedis.id ConversationThreadRedis.student_id
       ConversationThreadRedis.usmos_json ConversationThreadRedis.content_ids
       ConversationThreadRedis.messages ConversationThreadRedis.created_at
       ConversationThreadRedis.updated_at].
  unfold json_loads. rewrite !loads_dumps, !fromisoformat_isoformat.
  unfold bind, lift, of_option. cbn [iterate].
  rewrite mapM_typed_message.
  cbn [Json.truthy Json.index0 rbind]. unfold new_ConversationThread.
  rewrite str_list_roundtrip. cbn [rbind str_field]. unfold ret.
  by destruct t.
Qed.
End ModelFacts.

Module ServiceFacts.
Import ConversationService ModelFacts.

Lemma bind_run {A B} (m : M A) (k : A -> M B) (w w1 : World) (a : A) :
  m w = (Ok a, w1) -> bind m k w = k a w1.
Proof. intros H. unfold bind. by rewrite H. Qed.

Lemma save_run (t : ConversationThread.t) (w : World) :
  _save_thread t w =
  (Ok tt, set_redis (<[ConversationThread.id t := thread_redis t]> (redis w)) w).
Proof. reflexivity. Qed.

Lemma stored_save (t : ConversationThread.t) (w : World) :
  stored t (set_redis (<[ConversationThread.id t := thread_redis t]> (redis w)) w).
Proof. unfold stored. cbn [redis set_redis]. apply lookup_insert_eq. Qed.

Lemma stored_tick (t : ConversationThread.t) (w : World) : stored t w -> stored t (tick w).
Proof. done. Qed.

Lemma generate_response_run (ts : TutorService.t) (t : ConversationThread.t)
    (c : ContentResponse.t) (w : World) :
  exists response,
    TutorService.generate_response ts t c w = (Ok response, tick w) /\
    TutorMessage.conversation_id response = ConversationThread.id t.
Proof.
  unfold TutorService.generate_response.
  destruct (TutorService.last_student (ConversationThread.messages t)); by eexists.
Qed.

Lemma add_message_run (m : Message) (t : ConversationThread.t) (w : World) :
  stored t w -> message_conversation_id m = ConversationThread.id t ->
  add_message m w =
  (Ok (appended m t w),
   set_redis (<[ConversationThread.id t := thread_redis (appended m t w)]> (redis w)) (tick w)).
Proof.
  intros Hs Hid. unfold add_message. rewrite Hid.
  rewrite (bind_run _ _ _ _ _ (get_thread_stored t w Hs)).
  reflexivity.
Qed.

Lemma stored_add_message (m : Message) (t : ConversationThread.t) (w : World) :
  stored (appended m t w)
    (set_redis (<[ConversationThread.id t := thread_redis (appended m t w)]> (redis w)) (tick w)).
Proof. unfold stored. cbn [redis set_redis]. apply lookup_insert_eq. Qed.

Lemma last_snoc {A} (l : list A) (x : A) : Py.last (l ++ [x]) = Some x.
Proof.
  induction l as [|y l IH]; [done|]. cbn [app Py.last].
  destruct (l ++ [x]) eqn:E; [by destruct l | done].
Qed.

Lemma pop_length {A} (l : list A) (x : A) :
  Py.last l = Some x -> S (length (Py.pop l)) = length l.
Proof.
  induction l as [|y l IH]; [done|]. destruct l as [|z l]; [done|].
  intros H. cbn [Py.pop length]. f_equal. by apply IH.
Qed.

Lemma pop_last {A} (l : list A) (x : A) :
  Py.last l = Some x -> l = Py.pop l ++ [x].
Proof.
  induction l as [|y l IH]; [done|]. destruct l as [|z l].
  - by intros [= ->].
  - intros H. cbn [Py.pop app]. f_equal. by apply IH.
Qed.
End ServiceFacts.

Module Inversion.
Import Pydantic ConversationService.

Lemma bind_inv {A B} (m : M A) (k : A -> M B) (w w' : World) (b : B) :
  bind m k w = (Ok b, w') -> exists a w1, m w = (Ok a, w1) /\ k a w1 = (Ok b, w').
Proof. unfold bind. destruct (m w) as [[a|e] w1]; [by eauto | done]. Qed.

Lemma lift_inv {A} (r : result A) (w w' : World) (a : A) :
  lift r w = (Ok a, w') -> r = Ok a /\ w' = w.
Proof. unfold lift. by intros [= -> ->]. Qed.

Lemma ret_inv {A} (x a : A) (w w' : World) : ret x w = (Ok a, w') -> a = x /\ w' = w.
Proof. unfold ret. by intros [= -> ->]. Qed.

Lemma rbind_inv {A B} (r : result A) (k : A -> result B) (b : B) :
  rbind r k = Ok b -> exists a, r = Ok a /\ k a = Ok b.
Proof. destruct r; [by eauto | done]. Qed.

Lemma of_option_inv {A} (e : exn) (o : option A) (a : A) :
  of_option e o = Ok a -> o = Some a.
Proof. by destruct o; intros [= ->]. Qed.

Lemma mapM_inv {A B} (f : A -> M B) (P : A -> B -> Prop) :
  (forall x w w' y, f x w = (Ok y, w') -> P x y) ->
  forall l w ys w', mapM f l w = (Ok ys, w') -> Forall2 P l ys.
Proof.
  intros Hf. induction l as [|x l IH]; intros w ys w' H.
  - apply ret_inv in H as [-> _]. constructor.
  - cbn [mapM] in H.
    apply bind_inv in H as (y & w1 & Hy & H).
    apply bind_inv in H as (ys' & w2 & Hys & H).
    apply ret_inv in H as [-> _].
    constructor; [by eapply Hf | by eapply IH].
Qed.

Lemma timestamp_field_inv (v : option Json.t) (w w' : World) (r : result Datetime.t) (d : Datetime.t) :
  timestamp_field v w = (Ok r, w') -> r = Ok d ->
  forall s, v = Some (Json.Str s) -> Datetime.fromisoformat s <> None.
Proof.
  intros H -> s ->. unfold timestamp_field, ret in H. injection H as H _.
  unfold datetime_value in H. by destruct (Datetime.fromisoformat s).
Qed.

Lemma typed_message_inv (e : Json.t) (w w' : World) (m : Message) :
  typed_message e w = (Ok m, w') -> well_typed e m.
Proof.
  destruct e as [ | | | | | | items]; try done.
  unfold typed_message. destruct (has_action items) eqn:Hact; intros H.
  - apply bind_inv in H as (s & w1 & Hs & H). apply ret_inv in H as [-> _].
    unfold new_StudentMessage in Hs.
    apply bind_inv in Hs as (ts & w2 & Hts & Hs). apply lift_inv in Hs as [Hs _].
    apply rbind_inv in Hs as (cid & _ & Hs). apply rbind_inv in Hs as (c & _ & Hs).
    apply rbind_inv in Hs as (a & Ha & Hs). apply rbind_inv in Hs as (d & Hd & _).
    exists items; [done | done | by eapply timestamp_field_inv |].
    intros s' Hs'. rewrite Hs' in Ha. cbn in Ha.
    by destruct (action_of_str s').
  - apply bind_inv in H as (u & w1 & Hu & H). apply ret_inv in H as [-> _].
    unfold new_TutorMessage in Hu.
    apply bind_inv in Hu as (ts & w2 & Hts & Hu). apply lift_inv in Hu as [Hu _].
    apply rbind_inv in Hu as (cid & _ & Hu). apply rbind_inv in Hu as (c & _ & Hu).
    apply rbind_inv in Hu as (fb & _ & Hu). apply rbind_inv in Hu as (d & Hd & _).
    exists items; [done | done | by eapply timestamp_field_inv |].
    intros s' Hs'. unfold has_action in Hact. by rewrite Hs' in Hact.
Qed.

Lemma get_thread_total (tid : string) (w : World) :
  exists o w', get_thread tid w = (Ok o, w').
Proof.
  unfold get_thread, try_except.
  destruct (get_thread_body tid w) as [[o|e] w']; by eauto.
Qed.

Lemma get_thread_absent (tid : string) (w : World) :
  redis w !! tid = None -> get_thread tid w = (Ok None, w).
Proof.
  intros H. unfold get_thread, try_except, get_thread_body, bind, redis_get. by rewrite H.
Qed.

Lemma get_thread_inv (tid : string) (w w' : World) (t : ConversationThread.t) :
  get_thread tid w = (Ok (Some t), w') ->
  exists r, redis w !! tid = Some r /\ loaded r t.
Proof.
  unfold get_thread, try_except.
  destruct (get_thread_body tid w) as [[o|e] w1] eqn:Hbody; [|done].
  intros [= -> ->]. unfold get_thread_body in Hbody.
  apply bind_inv in Hbody as (o & w2 & Hget & H).
  unfold redis_get in Hget. injection Hget as <- <-.
  destruct (redis w !! tid) as [r|]; [|done].
  exists r. split; [done|].
  apply bind_inv in H as (msgs_v & w3 & H1 & H). apply lift_inv in H1 as [H1 ->].
  apply of_option_inv in H1.
  apply bind_inv in H as (elements & w4 & H2 & H). apply lift_inv in H2 as [H2 ->].
  apply bind_inv in H as (typed & w5 & H3 & H).
  apply (mapM_inv _ well_typed typed_message_inv) in H3.
  apply bind_inv in H as (cids & w6 & H4 & H). apply lift_inv in H4 as [H4 ->].
  apply of_option_inv in H4.
  apply bind_inv in H as (cid & w7 & H5 & H). apply lift_inv in H5 as [H5 ->].
  apply bind_inv in H as (usmos_v & w8 & H6 & H). apply lift_inv in H6 as [H6 ->].
  apply of_option_inv in H6.
  apply bind_inv in H as (created & w9 & H7 & H). apply lift_inv in H7 as [H7 ->].
  apply of_option_inv in H7.
  apply bind_inv in H as (updated & w10 & H8 & H). apply lift_inv in H8 as [H8 ->].
  apply of_option_inv in H8.
  apply bind_inv in H as (t' & w11 & H9 & H). apply lift_inv in H9 as [H9 ->].
  apply ret_inv in H as [[= ->] _].
  unfold new_ConversationThread in H9.
  apply rbind_inv in H9 as (us & Hus & H9). apply rbind_inv in H9 as (c & Hc & H9).
  injection H9 as <-. cbn [ConversationThread.messages ConversationThread.content_id
    ConversationThread.usmos ConversationThread.created_at ConversationThread.updated_at
    ConversationThread.id ConversationThread.student_id].
  assert (Hcid : Json.truthy cids = true /\ Json.index0 cids = Ok (Json.Str c)).
  { destruct (Json.truthy cids).
    - apply rbind_inv in H5 as (x & Hx & [= <-]). split; [done|].
      rewrite Hx. f_equal. destruct x; cbn in Hc; congruence.
    - injection H5 as <-. done. }
  by econstructor.
Qed.
End Inversion.

Module MoreFacts.
Import Pydantic ConversationService.
Import ModelFacts ServiceFacts Inversion.

Lemma has_action_spec (items : list (string * Json.t)) :
  has_action items = true <-> nonnull_action items.
Proof.
  unfold has_action, nonnull_action. split.
  - destruct (Json.get "action" items) as [v|]; [|done].
    intros H. exists v. split; [done|]. by intros ->.
  - intros (v & -> & Hv). by destruct v.
Qed.

Lemma is_tutor_negb (m : Message) : is_tutor m = negb (is_student m).
Proof. by destruct m. Qed.

Lemma Forall2_elem_of_l {A B} (P : A -> B -> Prop) (l : list A) (k : list B) (x : A) :
  Forall2 P l k -> x ∈ l -> exists y, y ∈ k /\ P x y.
Proof.
  induction 1 as [|a b l k Hab Hlk IH]; intros Hx.
  - by apply elem_of_nil in Hx.
  - apply elem_of_cons in Hx as [->|Hx].
    + exists b. split; [left | done].
    + destruct (IH Hx) as (y & Hy & HP). exists y. split; [by right | done].
Qed.

Lemma loaded_not_corrupt (r : ConversationThreadRedis.t) (t : ConversationThread.t) :
  loaded r t -> corrupt_record r -> False.
Proof.
  intros [msgs elements cids us H1 H2 H3 H4 H5 H6 H7 H8 H9 H10 H11] Hc.
  destruct Hc as [H|H|H|H|H|decoded elements' items Hd Hi Hin Hm];
    try (apply JsonFacts.no_value_loads in H; congruence);
    try (apply DatetimeFacts.not_iso_fromisoformat in H; congruence).
  rewrite H1 in Hd. injection Hd as <-. rewrite H2 in Hi. injection Hi as <-.
  destruct (Forall2_elem_of_l _ _ _ _ H3 Hin) as (m & _ & [items' Ho Hv Hts Ha]).
  injection Ho as <-.
  destruct Hm as [s Hs Hp | s Hs Hp]; [|by apply (Ha s)].
  apply (Hts s Hs). by apply DatetimeFacts.not_iso_fromisoformat.
Qed.

Lemma regenerate_after_tutor (tutor : TutorService.t) (t : ConversationThread.t)
    (c : ContentResponse.t) (old : TutorMessage.t) (w : World) :
  stored t w ->
  get_content (ConversationThread.content_id t) = Some c ->
  Py.last (ConversationThread.messages t) = Some (Tutor old) ->
  let trimmed := ConversationThread.set_messages (Py.pop (ConversationThread.messages t)) t in
  exists response w1 w2,
    _save_thread trimmed w = (Ok tt, w1) /\
    stored trimmed w1 /\
    TutorService.generate_response tutor trimmed c w1 = (Ok response, w2) /\
    regenerate_tutor_response tutor (ConversationThread.id t) w
    = (Ok response,
       set_redis (<[ConversationThread.id t :=
                      thread_redis (appended (Tutor response) trimmed w2)]> (redis w2)) (tick w2)).
Proof.
  intros Hs Hc Hlast trimmed. unfold regenerate_tutor_response.
  rewrite (bind_run _ _ _ _ _ (get_thread_stored t w Hs)). rewrite Hc, Hlast.
  set (w1 := set_redis (<[ConversationThread.id t := thread_redis trimmed]> (redis w)) w).
  assert (Hs1 : stored trimmed w1) by apply (stored_save trimmed w).
  assert (Hrun1 : (_save_thread trimmed;; ret trimmed)%monad w = (Ok trimmed, w1)) by reflexivity.
  rewrite (bind_run _ _ _ _ _ Hrun1).
  destruct (generate_response_run tutor trimmed c w1) as (response & Hgen & Hid).
  rewrite (bind_run _ _ _ _ _ Hgen).
  rewrite (bind_run _ _ _ _ _
             (add_message_run (Tutor response) trimmed (tick w1) (stored_tick _ _ Hs1) Hid)).
  by exists response, w1, (tick w1).
Qed.

Lemma regenerate_without_trim (tutor : TutorService.t) (t : ConversationThread.t)
    (c : ContentResponse.t) (w : World) :
  stored t w ->
  get_content (ConversationThread.content_id t) = Some c ->
  match Py.last (ConversationThread.messages t) with Some (Tutor _) => False | _ => True end ->
  exists response w2,
    TutorService.generate_response tutor t c w = (Ok response, w2) /\
    redis w2 = redis w /\
    regenerate_tutor_response tutor (ConversationThread.id t) w
    = (Ok response,
       set_redis (<[ConversationThread.id t :=
                      thread_redis (appended (Tutor response) t w2)]> (redis w2)) (tick w2)).
Proof.
  intros Hs Hc Hlast. unfold regenerate_tutor_response.
  rewrite (bind_run _ _ _ _ _ (get_thread_stored t w Hs)). rewrite Hc.
  destruct (generate_response_run tutor t c w) as (response & Hgen & Hid).
  assert (Hkeep : (match Py.last (ConversationThread.messages t) with
                   | Some (Tutor _) =>
                       _save_thread (ConversationThread.set_messages
                                       (Py.pop (ConversationThread.messages t)) t);;
                       ret (ConversationThread.set_messages
                              (Py.pop (ConversationThread.messages t)) t)
                   | _ => ret t
                   end)%monad w = (Ok t, w)).
  { by destruct (Py.last (ConversationThread.messages t)) as [[?|?]|]. }
  rewrite (bind_run _ _ _ _ _ Hkeep).
  rewrite (bind_run _ _ _ _ _ Hgen).
  rewrite (bind_run _ _ _ _ _
             (add_message_run (Tutor response) t (tick w) (stored_tick _ _ Hs) Hid)).
  by exists response, (tick w).
Qed.

Lemma create_thread_run (student_id : string) (c : ContentResponse.t) (w : World) :
  create_thread student_id c w =
  (Ok (created student_id c w),
   set_redis (<[uuids w (drawn w) := thread_redis (created student_id c w)]> (redis w))
             (tick (tick (draw w)))).
Proof. reflexivity. Qed.

Lemma create_threads_run (student_id : string) (contents : list ContentResponse.t) (w : World) :
  exists threads w',
    mapM (create_thread student_id) contents w = (Ok threads, w') /\
    Forall2 (matches student_id) threads contents /\
    ConversationThread.id <$> threads
      = (fun i => uuids w (drawn w + i)%nat) <$> seq 0 (length contents) /\
    redis w' = save_all threads (redis w) /\
    uuids w' = uuids w /\ drawn w' = (drawn w + length contents)%nat.
Proof.
  revert w. induction contents as [|c contents IH]; intros w.
  - exists [], w. repeat split; (done || constructor || (cbn; lia)).
  - set (w1 := set_redis (<[uuids w (drawn w) := thread_redis (created student_id c w)]> (redis w))
                         (tick (tick (draw w)))).
    destruct (IH w1) as (threads & w' & Hrun & Hm & Hids & Hdb & Hu & Hd).
    exists (created student_id c w :: threads), w'.
    split.
    { cbn [mapM]. rewrite (bind_run _ _ _ _ _ (create_thread_run student_id c w)).
      fold w1. by rewrite (bind_run _ _ _ _ _ Hrun). }
    split; [constructor; done|].
    split.
    { cbn [fmap list_fmap length seq]. f_equal; [cbn; f_equal; lia|].
      fold (@fmap list _ _ _ ConversationThread.id threads). rewrite Hids.
      rewrite <- fmap_S_seq, <- list_fmap_compose. apply list_fmap_ext.
      intros i x _. cbn. f_equal. lia. }
    split; [by rewrite Hdb|].
    split; [by rewrite Hu|]. rewrite Hd. cbn. lia.
Qed.

Lemma save_all_lookup_ne (threads : list ConversationThread.t)
    (db : gmap string ConversationThreadRedis.t) (k : string) :
  k ∉ ConversationThread.id <$> threads -> save_all threads db !! k = db !! k.
Proof.
  revert db. induction threads as [|t threads IH]; intros db Hk; [done|].
  cbn [fmap list_fmap] in Hk. apply not_elem_of_cons in Hk as [Hne Hk].
  unfold save_all in *. cbn [foldl]. rewrite IH by done. by rewrite lookup_insert_ne.
Qed.

Lemma save_all_lookup (threads : list ConversationThread.t)
    (db : gmap string ConversationThreadRedis.t) (t : ConversationThread.t) :
  NoDup (ConversationThread.id <$> threads) -> t ∈ threads ->
  save_all threads db !! ConversationThread.id t = Some (thread_redis t).
Proof.
  revert db. induction threads as [|a threads IH]; intros db Hnd Ht.
  - by apply elem_of_nil in Ht.
  - cbn [fmap list_fmap] in Hnd. apply NoDup_cons in Hnd as [Ha Hnd].
    unfold save_all in *. cbn [foldl].
    apply elem_of_cons in Ht as [->|Ht].
    + fold (save_all threads (<[ConversationThread.id a := thread_redis a]> db)).
      rewrite save_all_lookup_ne by done. apply lookup_insert_eq.
    + by apply IH.
Qed.

Lemma save_all_size (threads : list ConversationThread.t)
    (db : gmap string ConversationThreadRedis.t) :
  NoDup (ConversationThread.id <$> threads) ->
  (forall k, k ∈ ConversationThread.id <$> threads -> db !! k = None) ->
  size (save_all threads db) = (size db + length threads)%nat.
Proof.
  revert db. induction threads as [|a threads IH]; intros db Hnd Hnew.
  - cbn. lia.
  - cbn [fmap list_fmap] in Hnd, Hnew. apply NoDup_cons in Hnd as [Ha Hnd].
    unfold save_all in *. cbn [foldl length]. rewrite IH; [| done |].
    + rewrite map_size_insert_None; [lia|]. apply Hnew. left.
    + intros k Hk. rewrite lookup_insert_ne; [apply Hnew; by right|].
      intros <-. done.
Qed.

Lemma last_student_none (ms : list Message) :
  TutorService.last_student ms = None <-> Forall (fun m => is_student m = false) ms.
Proof.
  induction ms as [|m ms IH]; [done|]. cbn [TutorService.last_student].
  rewrite Forall_cons. destruct (TutorService.last_student ms) as [s|].
  - split; [done|]. intros [_ H]. by apply IH in H.
  - destruct m; split; try done.
    + by intros [? _].
    + intros _. split; [done|]. by apply IH.
Qed.

Lemma bad_json_corrupt : corrupt_record Examples.bad_json.
Proof.
  apply bad_messages. apply (Json.nv_element _ "{not json"); [reflexivity | reflexivity |].
  apply (Json.nv_key _ "not json"); reflexivity.
Qed.
End MoreFacts.

Module PyEqFacts.

Lemma float_eq_refl (x : Num.pyfloat) : Num.is_nan x = false -> Num.float_eq x x = true.
Proof.
  destruct x as [neg i h tl e | neg i e | neg | ]; intros H; try done.
  - apply Z.eqb_refl.
  - apply Z.eqb_refl.
  - by destruct neg.
Qed.

Lemma feedback_refl (fb : gmap string Num.pyfloat) :
  forallb (fun kx => negb (Num.is_nan (snd kx))) (map_to_list fb) = true ->
  PyEq.feedback fb fb = true.
Proof.
  intros H. unfold PyEq.feedback. rewrite bool_decide_eq_true_2 by done. cbn [andb].
  apply List.forallb_forall. intros [k x] Hin.
  rewrite List.forallb_forall in H. specialize (H _ Hin). cbn [fst snd] in *.
  apply list_elem_of_In, elem_of_map_to_list in Hin. rewrite Hin.
  apply float_eq_refl. by apply negb_true_iff.
Qed.

Lemma messages_refl (ms : list Message) :
  forallb (fun m => match m with
                    | Student _ => true
                    | Tutor u =>
                        forallb (fun kx => negb (Num.is_nan (snd kx)))
                                (map_to_list (TutorMessage.feedback u))
                    end) ms = true ->
  PyEq.messages ms ms = true.
Proof.
  induction ms as [|m ms IH]; [done|]. cbn [forallb PyEq.messages].
  intros [Hm Hms]%andb_true_iff. rewrite (IH Hms), andb_true_r.
  destruct m as [x|u]; cbn [PyEq.message].
  - by rewrite !String.eqb_refl, DatetimeFacts.py_eq_refl.
  - by rewrite !String.eqb_refl, DatetimeFacts.py_eq_refl, (feedback_refl _ Hm).
Qed.

Lemma thread_refl (t : ConversationThread.t) : nan_free t = true -> PyEq.thread t t = true.
Proof.
  intros H. unfold PyEq.thread.
  rewrite !String.eqb_refl, !DatetimeFacts.py_eq_refl, (messages_refl _ H).
  by rewrite bool_decide_eq_true_2.
Qed.

End PyEqFacts.

(* ===================================================================== *)
(** ** The claims *)
(* ===================================================================== *)

Import Pydantic ConversationService.
Import ModelFacts ServiceFacts Inversion MoreFacts.

(** C1, as the code has it.  Round trip: for every thread none of whose
    feedback values is NaN - in particular every such thread with a
    non-empty mix of student and tutor messages - saving it succeeds and
    loading it by its id from the resulting store returns a thread with the
    same id, student_id, usmos, content_id, created_at and updated_at and
    the same messages, each with its variant, its fields and its timestamp
    as recovered from the ISO-8601 text; the loaded thread and the saved
    one compare equal. *)
Theorem save_load_roundtrip (t : ConversationThread.t) (w : World) :
  nan_free t = true ->
  exists w' t',
    _save_thread t w = (Ok tt, w') /\
    get_thread (ConversationThread.id t) w' = (Ok (Some t'), w') /\
    t' = t /\
    PyEq.thread t' t = true.
Proof.
  intros Hnan. eexists _, t. split; [apply save_run|].
  split; [apply get_thread_stored, stored_save|].
  split; [reflexivity | by apply PyEqFacts.thread_refl].
Qed.

Lemma save_load_roundtrip_witness :
  nan_free Examples.thread1 = true /\
  exists w' t',
    _save_thread Examples.thread1 Examples.world0 = (Ok tt, w') /\
    get_thread "conv123" w' = (Ok (Some t'), w') /\
    t' = Examples.thread1 /\
    PyEq.thread t' Examples.thread1 = true.
Proof.
  assert (H : nan_free Examples.thread1 = true) by (vm_compute; reflexivity).
  split; [exact H|].
  exact (save_load_roundtrip Examples.thread1 Examples.world0 H).
Defined.

(** C1 as stated fails.  [Samples.nan_thread] has one message of each
    kind, and the feedback of its tutor message holds a NaN; pydantic
    accepts it and [json.dumps] writes it.  Saving succeeds and loading
    returns a thread with a NaN in the same place, and since NaN is equal
    to nothing, the loaded thread does not compare equal to the one that
    was saved. *)
Lemma save_load_roundtrip_counterexample :
  nan_free Samples.nan_thread = false /\
  exists w' t',
    _save_thread Samples.nan_thread Examples.world0 = (Ok tt, w') /\
    ConversationThreadRedis.messages (thread_redis Samples.nan_thread)
    = Json.dumps (Json.Arr (Pydantic.msg_dict <$> ConversationThread.messages Samples.nan_thread)) /\
    get_thread (ConversationThread.id Samples.nan_thread) w' = (Ok (Some t'), w') /\
    t' = Samples.nan_thread /\
    PyEq.thread t' Samples.nan_thread = false.
Proof.
  split; [vm_compute; reflexivity|].
  eexists _, _. split; [apply save_run|]. split; [reflexivity|].
  split; [apply get_thread_stored, stored_save|].
  split; [reflexivity | vm_compute; reflexivity].
Qed.

(** C2. Discriminant: whenever a load succeeds, the decoded [messages]
    field is a sequence of mappings that corresponds, element by element
    and in order, to the messages of the thread, and each message is a
    [StudentMessage] exactly when its mapping contains a non-null [action]
    field, a [TutorMessage] exactly when it does not. *)
Theorem discriminant_correct (tid : string) (w w' : World) (t : ConversationThread.t) :
  get_thread tid w = (Ok (Some t), w') ->
  exists r decoded elements,
    redis w !! tid = Some r /\
    Json.loads (ConversationThreadRedis.messages r) = Some decoded /\
    iterate decoded = Ok elements /\
    Forall2 (fun e m => exists items,
                 e = Json.Obj items /\
                 (is_student m = true <-> nonnull_action items) /\
                 (is_tutor m = true <-> ~ nonnull_action items))
            elements (ConversationThread.messages t).
Proof.
  intros H. apply get_thread_inv in H as (r & Hr & Hl).
  destruct Hl as [decoded elements cids us H1 H2 H3 _ _ _ _ _ _ _ _].
  exists r, decoded, elements. repeat split; try done.
  eapply Forall2_impl; [exact H3|].
  intros e m [items -> Hv _ _]. exists items. split; [done|].
  rewrite <- has_action_spec, is_tutor_negb, Hv. split; [done|].
  destruct (has_action items); split; (done || (intros ?; done)).
Qed.

(** The thread of [Examples.world1] holds one message of each kind; both
    directions of C2 are exercised there. *)
Lemma discriminant_correct_witness :
  get_thread "conv123" Examples.world1 = (Ok (Some Examples.thread1), Examples.world1) /\
  exists r decoded elements,
    redis Examples.world1 !! "conv123" = Some r /\
    Json.loads (ConversationThreadRedis.messages r) = Some decoded /\
    iterate decoded = Ok elements /\
    Forall2 (fun e m => exists items,
                 e = Json.Obj items /\
                 (is_student m = true <-> nonnull_action items) /\
                 (is_tutor m = true <-> ~ nonnull_action items))
            elements [Student Examples.question1; Tutor Examples.reply1].
Proof.
  assert (H : get_thread "conv123" Examples.world1
              = (Ok (Some Examples.thread1), Examples.world1))
    by (vm_compute; reflexivity).
  split; [exact H|].
  exact (discriminant_correct "conv123" Examples.world1 Examples.world1 Examples.thread1 H).
Defined.

(** C3, as the code has it.  Regenerate: for every stored thread whose
    content reference resolves, [regenerate_tutor_response] returns a tutor
    message and leaves a stored thread with the same id.  When the last
    message was a [TutorMessage], the thread without it is saved, the reply
    is generated from that trimmed thread, and the final log is the trimmed
    log followed by the new message: the count is unchanged.  When the last
    message was a [StudentMessage], or the log was empty, the reply is
    generated from the thread as it is and the final log is the old log
    followed by the new message: the count grows by one.  The code saves
    the trimmed thread before it generates; generation neither reads nor
    writes the store, so nothing in the outcome tells this order from the
    opposite one, and the statement describes the intermediate world
    without claiming that the order can be observed. *)
Theorem regenerate_semantics (tutor : TutorService.t) (t : ConversationThread.t)
    (c : ContentResponse.t) (w : World) :
  stored t w ->
  get_content (ConversationThread.content_id t) = Some c ->
  exists response w' t',
    regenerate_tutor_response tutor (ConversationThread.id t) w = (Ok response, w') /\
    stored t' w' /\
    ConversationThread.id t' = ConversationThread.id t /\
    match Py.last (ConversationThread.messages t) with
    | Some (Tutor old) =>
        let trimmed :=
          ConversationThread.set_messages (Py.pop (ConversationThread.messages t)) t in
        (exists w1 w2,
            _save_thread trimmed w = (Ok tt, w1) /\
            stored trimmed w1 /\
            TutorService.generate_response tutor trimmed c w1 = (Ok response, w2)) /\
        ConversationThread.messages t = Py.pop (ConversationThread.messages t) ++ [Tutor old] /\
        ConversationThread.messages t'
          = Py.pop (ConversationThread.messages t) ++ [Tutor response] /\
        length (ConversationThread.messages t') = length (ConversationThread.messages t)
    | _ =>
        (exists w2,
            TutorService.generate_response tutor t c w = (Ok response, w2) /\
            redis w2 = redis w) /\
        ConversationThread.messages t' = ConversationThread.messages t ++ [Tutor response] /\
        length (ConversationThread.messages t') = S (length (ConversationThread.messages t))
    end.
Proof.
  intros Hs Hc.
  destruct (Py.last (ConversationThread.messages t)) as [[sm|old]|] eqn:Hlast.
  - destruct (regenerate_without_trim tutor t c w Hs Hc) as (response & w2 & Hgen & Hdb & Hrun);
      [by rewrite Hlast|].
    eexists response, _, _. split; [exact Hrun|]. split; [apply stored_add_message|].
    split; [reflexivity|]. split; [by exists w2|]. split; [reflexivity|].
    cbn [ConversationThread.messages appended ConversationThread.set_updated_at
         ConversationThread.set_messages].
    rewrite length_app. cbn [length]. lia.
  - destruct (regenerate_after_tutor tutor t c old w Hs Hc Hlast)
      as (response & w1 & w2 & Hsave & Hs1 & Hgen & Hrun).
    eexists response, _, _. split; [exact Hrun|].
    split; [exact (stored_add_message (Tutor response)
                     (ConversationThread.set_messages (Py.pop (ConversationThread.messages t)) t)
                     w2)|].
    split; [reflexivity|]. split; [by exists w1, w2|].
    split; [by apply pop_last|]. split; [reflexivity|].
    cbn [ConversationThread.messages appended ConversationThread.set_updated_at
         ConversationThread.set_messages].
    rewrite length_app. cbn [length]. pose proof (pop_length _ _ Hlast). lia.
  - destruct (regenerate_without_trim tutor t c w Hs Hc) as (response & w2 & Hgen & Hdb & Hrun);
      [by rewrite Hlast|].
    eexists response, _, _. split; [exact Hrun|]. split; [apply stored_add_message|].
    split; [reflexivity|]. split; [by exists w2|]. split; [reflexivity|].
    cbn [ConversationThread.messages appended ConversationThread.set_updated_at
         ConversationThread.set_messages].
    rewrite length_app. cbn [length]. lia.
Qed.

(** [Examples.thread1] ends with a tutor message: after regenerating, the
    stored log still has two messages. *)
Lemma regenerate_semantics_witness :
  stored Examples.thread1 Examples.world1 /\
  get_content "content123" = Some content123 /\
  exists response w' t',
    regenerate_tutor_response Examples.tutor "conv123" Examples.world1 = (Ok response, w') /\
    stored t' w' /\
    ConversationThread.messages t' = [Student Examples.question1; Tutor response] /\
    length (ConversationThread.messages t') = 2%nat.
Proof.
  assert (Hs : stored Examples.thread1 Examples.world1) by (vm_compute; reflexivity).
  assert (Hc : get_content (ConversationThread.content_id Examples.thread1) = Some content123)
    by (vm_compute; reflexivity).
  split; [exact Hs|]. split; [exact Hc|].
  destruct (regenerate_semantics Examples.tutor Examples.thread1 content123 Examples.world1 Hs Hc)
    as (response & w' & t' & Hrun & Hs' & _ & _ & _ & Hm & Hlen).
  exists response, w', t'. split; [exact Hrun|]. split; [exact Hs'|].
  split; [exact Hm | exact Hlen].
Defined.

(** C3 as stated fails.  The two threads of [Samples.world3] are stored
    and name a content that does not exist; the log of one ends with a
    student message, the log of the other with a tutor message.  For both
    the operation raises before it writes: nothing is removed, nothing is
    appended, and the world is as it was. *)
Lemma regenerate_semantics_counterexample :
  stored Samples.orphan Samples.world3 /\
  Py.last (ConversationThread.messages Samples.orphan) = Some (Student Samples.hello) /\
  regenerate_tutor_response Examples.tutor "conv999" Samples.world3
  = (Raise (ValueError "Content content000 not found"), Samples.world3) /\
  stored Samples.answered_orphan Samples.world3 /\
  Py.last (ConversationThread.messages Samples.answered_orphan) = Some (Tutor Samples.greeting) /\
  regenerate_tutor_response Examples.tutor "conv998" Samples.world3
  = (Raise (ValueError "Content content000 not found"), Samples.world3).
Proof. repeat split; vm_compute; reflexivity. Qed.




(** C5, as the code has it.  A student message whose action is
    [regenerate], sent to a stored thread whose content resolves: the
    message is appended first, so the regenerate operation finds a
    [StudentMessage] last and pops nothing; the stored log ends up as the
    old log followed by the request and one new tutor message - two more
    messages, none removed. *)
Theorem regenerate_action_appends (tutor : TutorService.t) (t : ConversationThread.t)
    (c : ContentResponse.t) (message : StudentMessage.t) (w : World) :
  stored t w ->
  get_content (ConversationThread.content_id t) = Some c ->
  StudentMessage.conversation_id message = ConversationThread.id t ->
  StudentMessage.action message = regenerate ->
  exists response w' t',
    handle_student_action tutor message w = (Ok response, w') /\
    (exists t1 w1,
        add_message (Student message) w = (Ok t1, w1) /\
        Py.last (ConversationThread.messages t1) = Some (Student message) /\
        regenerate_tutor_response tutor (ConversationThread.id t) w1 = (Ok response, w')) /\
    stored t' w' /\
    ConversationThread.id t' = ConversationThread.id t /\
    ConversationThread.messages t'
      = ConversationThread.messages t ++ [Student message; Tutor response] /\
    length (ConversationThread.messages t') = (length (ConversationThread.messages t) + 2)%nat.
Proof.
  intros Hs Hc Hid Hact. unfold handle_student_action. rewrite Hid.
  rewrite (bind_run _ _ _ _ _ (get_thread_stored t w Hs)). rewrite Hc.
  pose proof (add_message_run (Student message) t w Hs Hid) as Hadd.
  rewrite (bind_run _ _ _ _ _ Hadd). rewrite Hact.
  set (t1 := appended (Student message) t w) in *.
  set (w1 := set_redis _ (tick w)) in *.
  assert (Hs1 : stored t1 w1) by apply stored_add_message.
  assert (Hlast : Py.last (ConversationThread.messages t1) = Some (Student message))
    by apply last_snoc.
  destruct (regenerate_without_trim tutor t1 c w1 Hs1 Hc) as (response & w2 & Hgen & Hdb & Hrun);
    [by rewrite Hlast|].
  change (ConversationThread.id t1) with (ConversationThread.id t) in Hrun.
  eexists response, _, (appended (Tutor response) t1 w2).
  split; [exact Hrun|]. split; [by exists t1, w1|].
  split; [exact (stored_add_message (Tutor response) t1 w2)|]. split; [reflexivity|].
  assert (Hm : ConversationThread.messages (appended (Tutor response) t1 w2)
               = ConversationThread.messages t ++ [Student message; Tutor response]).
  { cbn [ConversationThread.messages t1 appended
         ConversationThread.set_updated_at ConversationThread.set_messages].
    by rewrite <- app_assoc. }
  split; [exact Hm|]. rewrite Hm, length_app. cbn [length]. lia.
Qed.

Lemma regenerate_action_appends_witness :
  stored Examples.thread1 Examples.world1 /\
  get_content "content123" = Some content123 /\
  StudentMessage.conversation_id Examples.again = "conv123" /\
  StudentMessage.action Examples.again = regenerate /\
  exists response w' t',
    handle_student_action Examples.tutor Examples.again Examples.world1 = (Ok response, w') /\
    stored t' w' /\
    ConversationThread.messages t'
      = [Student Examples.question1; Tutor Examples.reply1;
         Student Examples.again; Tutor response] /\
    length (ConversationThread.messages t') = 4%nat.
Proof.
  assert (Hs : stored Examples.thread1 Examples.world1) by (vm_compute; reflexivity).
  assert (Hc : get_content (ConversationThread.content_id Examples.thread1) = Some content123)
    by (vm_compute; reflexivity).
  split; [exact Hs|]. split; [exact Hc|]. split; [reflexivity|]. split; [reflexivity|].
  destruct (regenerate_action_appends Examples.tutor Examples.thread1 content123
              Examples.again Examples.world1 Hs Hc eq_refl eq_refl)
    as (response & w' & t' & Hrun & _ & Hs' & _ & Hm & Hlen).
  exists response, w', t'. split; [exact Hrun|]. split; [exact Hs'|].
  split; [exact Hm | exact Hlen].
Defined.

(** C5 as stated fails.  [Samples.orphan] is stored and names a content
    that does not exist: a [regenerate] request sent to it is refused
    before it is appended, and the log does not grow. *)
Lemma regenerate_action_appends_counterexample :
  stored Samples.orphan Samples.world3 /\
  StudentMessage.conversation_id Samples.redo = ConversationThread.id Samples.orphan /\
  StudentMessage.action Samples.redo = regenerate /\
  handle_student_action Examples.tutor Samples.redo Samples.world3
  = (Raise (ValueError "Content content000 not found"), Samples.world3) /\
  get_thread "conv999" Samples.world3 = (Ok (Some Samples.orphan), Samples.world3).
Proof. repeat split; vm_compute; reflexivity. Qed.

(** C6. [start_conversation] returns the content items the content
    service resolves for the tags together with one thread per item, in the
    same order, each with the student's id, the item's own tag list, the
    item's id and an empty message log, and it saves these threads first to
    last.  When nothing resolves, both lists are empty and the world is
    left as it was.  When the uuids drawn are new, every returned thread is
    stored and the store has grown by exactly one record per item. *)
Theorem start_conversation_threads (student_id : string) (usmos : list string) (w : World) :
  let contents := C3Service.get_mock_content usmos in
  exists threads w',
    start_conversation student_id usmos w
    = (Ok {| StartConversationResponse.threads := threads;
             StartConversationResponse.contents := contents |}, w') /\
    (contents = [] -> threads = [] /\ w' = w) /\
    Forall2 (fun t c =>
               ConversationThread.student_id t = student_id /\
               ConversationThread.usmos t = ContentResponse.usmos c /\
               ConversationThread.content_id t = ContentResponse.content_id c /\
               ConversationThread.messages t = [])
            threads contents /\
    redis w' = save_all threads (redis w) /\
    (fresh_uuids (length contents) w ->
     Forall (fun t => stored t w') threads /\
     size (redis w') = (size (redis w) + length contents)%nat).
Proof.
  cbv zeta. unfold start_conversation, try_except.
  destruct (C3Service.get_mock_content usmos) as [|c0 contents0].
  - exists [], w. repeat split; try done; constructor.
  - destruct (create_threads_run student_id (c0 :: contents0) w)
      as (threads & w' & Hrun & Hm & Hids & Hdb & Hu & Hd).
    exists threads, w'. split; [by rewrite (bind_run _ _ _ _ _ Hrun)|].
    split; [done|]. split; [exact Hm|]. split; [exact Hdb|].
    intros [Hnd Hnew]. rewrite <- Hids in Hnd. split.
    + apply Forall_forall. intros t Ht. unfold stored. rewrite Hdb.
      by apply save_all_lookup.
    + rewrite Hdb, save_all_size; [by rewrite (Forall2_length _ _ _ Hm) | done |].
      intros k Hk. rewrite Hids in Hk.
      apply list_elem_of_fmap in Hk as (i & -> & Hi). apply elem_of_seq in Hi.
      apply Hnew. lia.
Qed.

Lemma start_conversation_threads_witness :
  fresh_uuids 2 Examples.world0 /\
  exists threads w',
    start_conversation "student123" ["MATH.ALG.1"; "MATH.ALG.2"] Examples.world0
    = (Ok {| StartConversationResponse.threads := threads;
             StartConversationResponse.contents := [content123; content456] |}, w') /\
    Forall (fun t => stored t w') threads /\
    size (redis w') = 2%nat.
Proof.
  assert (Hf : fresh_uuids 2 Examples.world0).
  { split; [|intros i _; apply lookup_empty].
    apply (bool_decide_unpack _). vm_compute. reflexivity. }
  split; [exact Hf|].
  destruct (start_conversation_threads "student123" ["MATH.ALG.1"; "MATH.ALG.2"] Examples.world0)
    as (threads & w' & Hrun & _ & _ & _ & Hfresh).
  destruct (Hfresh Hf) as [Hst Hsize].
  exists threads, w'. split; [exact Hrun|]. split; [exact Hst | exact Hsize].
Defined.

(** The one content id of a loaded thread is the first element of the
    decoded [content_ids]. *)
Lemma content_id_is_first (tid : string) (w w' : World) (t : ConversationThread.t) :
  get_thread tid w = (Ok (Some t), w') ->
  exists r content_ids,
    redis w !! tid = Some r /\
    Json.loads (ConversationThreadRedis.content_ids r) = Some content_ids /\
    Json.index0 content_ids = Ok (Json.Str (ConversationThread.content_id t)).
Proof.
  intros H. apply get_thread_inv in H as (r & Hr & Hl).
  destruct Hl as [? ? cids ? _ _ _ H4 [_ H5] _ _ _ _ _ _]. by exists r, cids.
Qed.

(** C7, the failing case.  A record whose [content_ids] decodes to the
    empty sequence is not loaded at all: [content_id] becomes [None], the
    [ConversationThread] model refuses it, and [get_thread] returns
    [None]. *)
Theorem empty_content_ids_not_loaded (tid : string) (r : ConversationThreadRedis.t)
    (w : World) :
  redis w !! tid = Some r ->
  Json.loads (ConversationThreadRedis.content_ids r) = Some (Json.Arr []) ->
  exists w', get_thread tid w = (Ok None, w').
Proof.
  intros Hr Hc.
  destruct (get_thread_total tid w) as ([t|] & w' & H); [|by eauto].
  exfalso. apply get_thread_inv in H as (r' & Hr' & Hl).
  rewrite Hr in Hr'. injection Hr' as <-.
  destruct Hl as [? ? cids ? _ _ _ H4 [H5 _] _ _ _ _ _ _].
  rewrite Hc in H4. injection H4 as <-. done.
Qed.

(** The records [no_content] and [one_content] of [Examples.world2]
    differ in [content_ids] only: the first is not loaded, the second
    is. *)
Lemma empty_content_ids_not_loaded_witness :
  redis Examples.world2 !! "no-content" = Some Examples.no_content /\
  Json.loads (ConversationThreadRedis.content_ids Examples.no_content) = Some (Json.Arr []) /\
  (exists w', get_thread "no-content" Examples.world2 = (Ok None, w')) /\
  get_thread "no-content" Examples.world2 = (Ok None, Examples.world2) /\
  (ConversationThread.content_id <$>
     match fst (get_thread "one-content" Examples.world2) with
     | Ok o => o
     | Raise _ => None
     end) = Some "content123".
Proof.
  assert (Hr : redis Examples.world2 !! "no-content" = Some Examples.no_content)
    by (vm_compute; reflexivity).
  assert (Hc : Json.loads (ConversationThreadRedis.content_ids Examples.no_content)
               = Some (Json.Arr []))
    by (vm_compute; reflexivity).
  split; [exact Hr|]. split; [exact Hc|].
  split; [exact (empty_content_ids_not_loaded "no-content" Examples.no_content
                   Examples.world2 Hr Hc)|].
  split; vm_compute; reflexivity.
Defined.

(** C8. The literal scenario: for a content item with problem
    [Solve for x: x + 5 = 10] and answer [x = 5], and a thread whose last
    student message has action [question], the generator without a model
    backend replies with a text that contains both the problem and the
    answer. *)
Theorem fallback_question_reply (tutor : TutorService.t) (thread : ConversationThread.t)
    (content : ContentResponse.t) (last_message : StudentMessage.t) (w : World) :
  TutorService.configured tutor = false ->
  ContentResponse.problem content = "Solve for x: x + 5 = 10" ->
  ContentResponse.answer content = "x = 5" ->
  TutorService.last_student (ConversationThread.messages thread) = Some last_message ->
  StudentMessage.action last_message = question ->
  exists reply w',
    TutorService.generate_response tutor thread content w = (Ok reply, w') /\
    Py.contains "Solve for x: x + 5 = 10" (TutorMessage.content reply) = true /\
    Py.contains "x = 5" (TutorMessage.content reply) = true.
Proof.
  intros Hcfg Hp Ha Hlast Hact. unfold TutorService.generate_response.
  rewrite Hlast, Hcfg. unfold TutorService.fallback_response. rewrite Hact, Hp, Ha.
  eexists _, _. split; [reflexivity|]. split; vm_compute; reflexivity.
Qed.

Lemma fallback_question_reply_witness :
  TutorService.configured Examples.tutor = false /\
  ContentResponse.problem content123 = "Solve for x: x + 5 = 10" /\
  ContentResponse.answer content123 = "x = 5" /\
  TutorService.last_student (ConversationThread.messages Examples.thread1)
    = Some Examples.question1 /\
  StudentMessage.action Examples.question1 = question /\
  exists reply w',
    TutorService.generate_response Examples.tutor Examples.thread1 content123 Examples.world1
    = (Ok reply, w') /\
    Py.contains "Solve for x: x + 5 = 10" (TutorMessage.content reply) = true /\
    Py.contains "x = 5" (TutorMessage.content reply) = true.
Proof.
  repeat (split; [reflexivity|]).
  exact (fallback_question_reply Examples.tutor Examples.thread1 content123 Examples.question1
           Examples.world1 eq_refl eq_refl eq_refl eq_refl eq_refl).
Defined.

(** C9. Without a model backend [generate_response] never raises, and
    two invocations on the same thread and content - whatever the worlds
    they run in - give the same reply text and the same feedback map; only
    the timestamp, drawn from the clock, may differ. *)
Theorem fallback_deterministic (tutor : TutorService.t) (thread : ConversationThread.t)
    (content : ContentResponse.t) (w1 w2 : World) :
  TutorService.configured tutor = false ->
  exists r1 w1' r2 w2',
    TutorService.generate_response tutor thread content w1 = (Ok r1, w1') /\
    TutorService.generate_response tutor thread content w2 = (Ok r2, w2') /\
    TutorMessage.content r1 = TutorMessage.content r2 /\
    TutorMessage.feedback r1 = TutorMessage.feedback r2.
Proof.
  intros Hcfg. unfold TutorService.generate_response. rewrite Hcfg.
  destruct (TutorService.last_student (ConversationThread.messages thread));
    eexists _, _, _, _; repeat split; reflexivity.
Qed.

Lemma fallback_deterministic_witness :
  TutorService.configured Examples.tutor = false /\
  exists r1 w1' r2 w2',
    TutorService.generate_response Examples.tutor Examples.thread1 content123 Examples.world0
    = (Ok r1, w1') /\
    TutorService.generate_response Examples.tutor Examples.thread1 content123 Examples.world1
    = (Ok r2, w2') /\
    TutorMessage.content r1 = TutorMessage.content r2 /\
    TutorMessage.feedback r1 = TutorMessage.feedback r2.
Proof.
  split; [reflexivity|].
  exact (fallback_deterministic Examples.tutor Examples.thread1 content123
           Examples.world0 Examples.world1 eq_refl).
Defined.

(** C10. Without a model backend: for a thread with no student message
    the reply is the introduction and its feedback map is empty; for a
    thread with at least one student message the reply carries exactly the
    map clarity 0.9, helpfulness 0.85, engagement 0.8. *)
Theorem fallback_feedback (tutor : TutorService.t) (thread : ConversationThread.t)
    (content : ContentResponse.t) (w : World) :
  TutorService.configured tutor = false ->
  exists reply w',
    TutorService.generate_response tutor thread content w = (Ok reply, w') /\
    (Forall (fun m => is_student m = false) (ConversationThread.messages thread) ->
     TutorMessage.feedback reply = ∅ /\
     TutorMessage.content reply
     = "Let's discuss this problem: " +:+ ContentResponse.problem content +:+
       ". How would you approach solving it?") /\
    (Exists (fun m => is_student m = true) (ConversationThread.messages thread) ->
     TutorMessage.feedback reply
     = {[ "clarity" := Num.f0_9; "helpfulness" := Num.f0_85; "engagement" := Num.f0_8 ]}).
Proof.
  intros Hcfg. unfold TutorService.generate_response.
  destruct (TutorService.last_student (ConversationThread.messages thread)) as [s|] eqn:Hlast.
  - eexists _, _. split; [reflexivity|]. split; [|done].
    intros Hall. apply last_student_none in Hall. congruence.
  - eexists _, _. split; [reflexivity|]. split; [done|].
    intros Hex. apply last_student_none in Hlast.
    apply Exists_exists in Hex as (m & Hm & Hs).
    rewrite Forall_forall in Hlast. specialize (Hlast m Hm). congruence.
Qed.

Lemma fallback_feedback_witness :
  TutorService.configured Examples.tutor = false /\
  Exists (fun m => is_student m = true) (ConversationThread.messages Examples.thread1) /\
  exists reply w',
    TutorService.generate_response Examples.tutor Examples.thread1 content123 Examples.world1
    = (Ok reply, w') /\
    TutorMessage.feedback reply
    = {[ "clarity" := Num.f0_9; "helpfulness" := Num.f0_85; "engagement" := Num.f0_8 ]}.
Proof.
  assert (Hex : Exists (fun m => is_student m = true)
                  (ConversationThread.messages Examples.thread1))
    by (apply Exists_cons_hd; reflexivity).
  split; [reflexivity|]. split; [exact Hex|].
  destruct (fallback_feedback Examples.tutor Examples.thread1 content123 Examples.world1 eq_refl)
    as (reply & w' & Hrun & _ & Hfb).
  exists reply, w'. split; [exact Hrun | exact (Hfb Hex)].
Defined.

(* ===================================================================== *)
(** * Further properties of the services, the endpoints and the items *)
(* ===================================================================== *)

Module ReadFacts.
Import Pydantic ConversationService.
Import ModelFacts ServiceFacts Inversion MoreFacts.

Lemma only_ticks_refl (w : World) : only_ticks w w.
Proof. unfold only_ticks. repeat split; lia. Qed.

Lemma only_ticks_trans (w1 w2 w3 : World) :
  only_ticks w1 w2 -> only_ticks w2 w3 -> only_ticks w1 w3.
Proof.
  intros (A1 & B1 & C1 & D1 & E1) (A2 & B2 & C2 & D2 & E2).
  unfold only_ticks. repeat split; (congruence || lia).
Qed.

Lemma reads_ret {A} (a : A) : reads (ret a).
Proof. intros w. apply only_ticks_refl. Qed.

Lemma reads_raise {A} (e : exn) : reads (@raise A e).
Proof. intros w. apply only_ticks_refl. Qed.

Lemma reads_lift {A} (r : result A) : reads (lift r).
Proof. intros w. apply only_ticks_refl. Qed.

Lemma reads_now : reads now.
Proof. intros w. unfold only_ticks. cbn. repeat split; lia. Qed.

Lemma reads_redis_get (pk : string) : reads (redis_get pk).
Proof. intros w. apply only_ticks_refl. Qed.

Lemma reads_bind {A B} (m : M A) (k : A -> M B) :
  reads m -> (forall a, reads (k a)) -> reads (bind m k).
Proof.
  intros Hm Hk w. unfold bind. specialize (Hm w).
  destruct (m w) as [[a|e] w1]; cbn [snd] in *; [|done].
  eapply only_ticks_trans; [exact Hm | apply Hk].
Qed.

Lemma reads_try_except {A} (m : M A) (h : exn -> M A) :
  reads m -> (forall e, reads (h e)) -> reads (try_except m h).
Proof.
  intros Hm Hh w. unfold try_except. specialize (Hm w).
  destruct (m w) as [[a|e] w1]; cbn [snd] in *; [done|].
  eapply only_ticks_trans; [exact Hm | apply Hh].
Qed.

Lemma reads_mapM {A B} (f : A -> M B) (l : list A) :
  (forall x, reads (f x)) -> reads (mapM f l).
Proof.
  intros Hf. induction l as [|x l IH]; [apply reads_ret|].
  cbn [mapM]. apply reads_bind; [apply Hf|]. intros y.
  apply reads_bind; [exact IH|]. intros ys. apply reads_ret.
Qed.

Lemma reads_timestamp_field (v : option Json.t) : reads (timestamp_field v).
Proof.
  destruct v as [x|]; [apply reads_ret|].
  apply reads_bind; [apply reads_now | intros; apply reads_ret].
Qed.

Lemma reads_typed_message (e : Json.t) : reads (typed_message e).
Proof.
  destruct e; try apply reads_raise. unfold typed_message.
  destruct (has_action items).
  - apply reads_bind; [|intros; apply reads_ret].
    apply reads_bind; [apply reads_timestamp_field | intros; apply reads_lift].
  - apply reads_bind; [|intros; apply reads_ret].
    apply reads_bind; [apply reads_timestamp_field | intros; apply reads_lift].
Qed.

Lemma reads_get_thread (tid : string) : reads (get_thread tid).
Proof.
  apply reads_try_except; [|intros; apply reads_ret].
  apply reads_bind; [apply reads_redis_get|]. intros [r|]; [|apply reads_ret].
  repeat (apply reads_bind; [first [apply reads_lift | apply reads_mapM, reads_typed_message]|];
          intros ?).
  apply reads_ret.
Qed.

Lemma get_thread_corrupt (tid : string) (r : ConversationThreadRedis.t) (w : World) :
  redis w !! tid = Some r -> corrupt_record r ->
  exists w', get_thread tid w = (Ok None, w').
Proof.
  intros Hr Hc.
  destruct (get_thread_total tid w) as ([t|] & w' & H); [|by eauto].
  exfalso. apply get_thread_inv in H as (r' & Hr' & Hl).
  rewrite Hr in Hr'. injection Hr' as <-. by eapply loaded_not_corrupt.
Qed.

End ReadFacts.

Import ReadFacts.

(** X1. [get_thread] never raises and never writes: whatever the store
    holds under the id, it returns a thread or [None], and the store, the
    clock and the uuid generator are as before; only the number of clock
    readings may have grown. *)
Theorem get_thread_only_reads (tid : string) (w : World) :
  exists o w',
    get_thread tid w = (Ok o, w') /\
    redis w' = redis w /\ clock w' = clock w /\ uuids w' = uuids w /\
    drawn w' = drawn w /\ (ticks w <= ticks w')%nat.
Proof.
  destruct (get_thread_total tid w) as (o & w' & H).
  exists o, w'. split; [exact H|].
  pose proof (reads_get_thread tid w) as Hr. rewrite H in Hr. exact Hr.
Qed.

(** X2. [add_message] on a stored thread appends the message at the tail,
    sets [updated_at] to the instant read from the clock, keeps the header
    (id, student_id, usmos, content_id, created_at), replaces the thread's
    record by the record of the new thread and touches no other record;
    the thread it returns is the one a later load returns. *)
Theorem add_message_appends (m : Message) (t : ConversationThread.t) (w : World) :
  stored t w ->
  message_conversation_id m = ConversationThread.id t ->
  exists t' w',
    add_message m w = (Ok t', w') /\
    ConversationThread.messages t' = ConversationThread.messages t ++ [m] /\
    ConversationThread.updated_at t' = clock w (ticks w) /\
    same_header t t' /\
    redis w' = <[ConversationThread.id t := thread_redis t']> (redis w) /\
    get_thread (ConversationThread.id t) w' = (Ok (Some t'), w').
Proof.
  intros Hs Hid. eexists _, _. split; [by apply add_message_run|].
  repeat split.
  exact (get_thread_stored (appended m t w) _ (stored_add_message m t w)).
Qed.

Lemma add_message_appends_witness :
  stored Examples.thread1 Examples.world1 /\
  message_conversation_id (Student Examples.again) = "conv123" /\
  exists t' w',
    add_message (Student Examples.again) Examples.world1 = (Ok t', w') /\
    ConversationThread.messages t'
      = [Student Examples.question1; Tutor Examples.reply1; Student Examples.again] /\
    get_thread "conv123" w' = (Ok (Some t'), w').
Proof.
  assert (Hs : stored Examples.thread1 Examples.world1) by (vm_compute; reflexivity).
  split; [exact Hs|]. split; [reflexivity|].
  destruct (add_message_appends (Student Examples.again) Examples.thread1 Examples.world1
              Hs eq_refl) as (t' & w' & Hrun & Hm & _ & _ & _ & Hget).
  exists t', w'. split; [exact Hrun|]. split; [exact Hm | exact Hget].
Defined.

Module ExtraFacts.
Import Pydantic ConversationService.
Import ModelFacts ServiceFacts Inversion MoreFacts ReadFacts.

Lemma same_header_refl (t : ConversationThread.t) : same_header t t.
Proof. by repeat split. Qed.

Lemma same_header_trans (t1 t2 t3 : ConversationThread.t) :
  same_header t1 t2 -> same_header t2 t3 -> same_header t1 t3.
Proof.
  intros (A1 & B1 & C1 & D1 & E1) (A2 & B2 & C2 & D2 & E2).
  unfold same_header. repeat split; congruence.
Qed.

Lemma same_header_appended (m : Message) (t : ConversationThread.t) (w : World) :
  same_header t (appended m t w).
Proof. by repeat split. Qed.

Lemma str_list_inv (v : Json.t) (l : list string) :
  str_list v = Ok l -> v = Json.Arr (Json.Str <$> l).
Proof.
  destruct v as [ | | | | | xs | ]; try done. unfold str_list. intros H. f_equal.
  revert l H. induction xs as [|x xs IH]; intros l H.
  - by injection H as <-.
  - cbn [rmapM] in H. apply rbind_inv in H as (s & Hs & H).
    apply rbind_inv in H as (l' & Hl' & H). injection H as <-.
    cbn [fmap list_fmap]. f_equal; [|by apply IH].
    destruct x; cbn in Hs; congruence.
Qed.

Lemma action_of_str_inv (s : string) (a : Action) :
  action_of_str s = Some a -> s = action_str a.
Proof.
  unfold action_of_str.
  destruct (String.eqb_spec s "question") as [->|_]; [by intros [= <-]|].
  destruct (String.eqb_spec s "answer") as [->|_]; [by intros [= <-]|].
  destruct (String.eqb_spec s "chat") as [->|_]; [by intros [= <-]|].
  destruct (String.eqb_spec s "regenerate") as [->|_]; [by intros [= <-]|].
  done.
Qed.

(** Lookup in a decoded object, in terms of the dict built from it. *)
Lemma existsb_key_get (k : string) (m : list (string * Json.t)) :
  existsb (fun kv => String.eqb (fst kv) k) m = true <-> is_Some (Json.get k m).
Proof.
  induction m as [|[k' v] m IH]; cbn [existsb Json.get fst].
  - split; [done | by intros [? ?]].
  - rewrite orb_true_iff, IH. destruct (Json.get k m) as [x|].
    + split; [by eauto | intros _; right; by eauto].
    + destruct (String.eqb k' k); split; try (by eauto);
        try (intros [?|[? ?]]; done); try (intros [? ?]; done).
Qed.

Lemma get_dict_items (k : string) (m : list (string * Json.t)) :
  Json.get k m = (list_to_map (dict_items m) : gmap string Json.t) !! k.
Proof.
  induction m as [|[k' v] m IH]; [done|]. cbn [Json.get dict_items].
  destruct (existsb (fun kv => String.eqb (fst kv) k') m) eqn:Hex.
  - rewrite <- IH. destruct (Json.get k m) as [x|] eqn:Hg; [done|].
    destruct (String.eqb_spec k' k) as [->|Hne]; [|done].
    apply existsb_key_get in Hex. rewrite Hg in Hex. by destruct Hex.
  - cbn [list_to_map foldr fst snd]. destruct (String.eqb_spec k' k) as [->|Hne].
    + rewrite lookup_insert_eq.
      destruct (Json.get k m) as [x|] eqn:Hg.
      * assert (is_Some (Json.get k m)) as Hs by (rewrite Hg; eauto).
        apply existsb_key_get in Hs. congruence.
      * done.
    + rewrite lookup_insert_ne by done. rewrite <- IH.
      by destruct (Json.get k m).
Qed.

Lemma rmapM_float_lookup (l : list (string * Json.t)) (l' : list (string * Num.pyfloat))
    (k : string) :
  rmapM (fun kv : string * Json.t => rbind (float_value (snd kv)) (fun f => Ok (fst kv, f))) l
  = Ok l' ->
  (Ok <$> (list_to_map l' : gmap string Num.pyfloat) !! k)
  = (float_value <$> (list_to_map l : gmap string Json.t) !! k).
Proof.
  revert l'. induction l as [|[k0 v] l IH]; intros l' H.
  - injection H as <-. done.
  - cbn [rmapM fst snd] in H. apply rbind_inv in H as ([k1 f] & Hf & H).
    apply rbind_inv in Hf as (f' & Hf' & Hf). injection Hf as <- <-.
    apply rbind_inv in H as (l'' & Hl & H). injection H as <-.
    cbn [list_to_map foldr fst snd].
    destruct (decide (k0 = k)) as [->|Hne].
    + rewrite !lookup_insert_eq. cbn. by rewrite Hf'.
    + rewrite !lookup_insert_ne by done. by apply IH.
Qed.

Lemma feedback_field_sound (fitems : list (string * Json.t)) (fb : gmap string Num.pyfloat)
    (k : string) :
  feedback_field (Some (Json.Obj fitems)) = Ok fb ->
  (Ok <$> fb !! k) = (float_value <$> Json.get k fitems).
Proof.
  unfold feedback_field. intros H. apply rbind_inv in H as (l & Hl & H).
  injection H as <-. rewrite get_dict_items. by apply rmapM_float_lookup.
Qed.

Lemma timestamp_field_sound (v : option Json.t) (w w' : World) (r : result Datetime.t)
    (d : Datetime.t) :
  timestamp_field v w = (Ok r, w') -> r = Ok d ->
  match v with
  | None => d = clock w (ticks w)
  | Some x => exists s, x = Json.Str s /\ Datetime.fromisoformat s = Some d
  end.
Proof.
  intros H ->. destruct v as [x|].
  - unfold timestamp_field, ret in H. injection H as H _.
    destruct x; try done. exists s. split; [done|].
    unfold datetime_value in H. destruct (Datetime.fromisoformat s); [|done].
    by injection H as ->.
  - unfold timestamp_field, bind, now, ret in H. by injection H as <- _.
Qed.

Lemma str_field_inv (v : option Json.t) (s : string) :
  str_field v = Ok s -> v = Some (Json.Str s).
Proof. destruct v as [[]|]; cbn; congruence. Qed.

Lemma action_field_inv (v : option Json.t) (a : Action) :
  action_field v = Ok a -> v = Some (Json.Str (action_str a)).
Proof.
  destruct v as [[]|]; cbn; try congruence. intros H.
  apply of_option_inv in H. by apply action_of_str_inv in H as ->.
Qed.

End ExtraFacts.

Import ExtraFacts.

(** X3. A sequence of [add_message] calls on a stored thread, each
    message addressed to it: every call succeeds, the thread returned by
    the i-th call holds the old log followed by the first i+1 messages, and
    the thread stored at the end holds the old log followed by all of them,
    in call order, under an unchanged header. *)
Theorem add_messages_in_order (ms : list Message) (t : ConversationThread.t) (w : World) :
  stored t w ->
  Forall (fun m => message_conversation_id m = ConversationThread.id t) ms ->
  exists ts w' t',
    mapM add_message ms w = (Ok ts, w') /\
    length ts = length ms /\
    (forall i ti, ts !! i = Some ti ->
       ConversationThread.messages ti = ConversationThread.messages t ++ take (S i) ms) /\
    stored t' w' /\
    same_header t t' /\
    ConversationThread.messages t' = ConversationThread.messages t ++ ms.
Proof.
  revert t w. induction ms as [|m ms IH]; intros t w Hs Hall.
  - exists [], w, t. repeat split; try done. by rewrite app_nil_r.
  - apply Forall_cons in Hall as [Hm Hall].
    pose proof (add_message_run m t w Hs Hm) as Hrun.
    set (t1 := appended m t w) in *. set (w1 := set_redis _ (tick w)) in *.
    assert (Hs1 : stored t1 w1) by apply stored_add_message.
    destruct (IH t1 w1 Hs1 Hall) as (ts & w' & t' & Hruns & Hlen & Hi & Hs' & Hh & Hmsgs).
    exists (t1 :: ts), w', t'. split.
    { cbn [mapM]. rewrite (bind_run _ _ _ _ _ Hrun). by rewrite (bind_run _ _ _ _ _ Hruns). }
    split; [cbn; by rewrite Hlen|]. split.
    { intros [|i] ti Hti.
      - injection Hti as <-. done.
      - cbn in Hti. rewrite (Hi i ti Hti).
        cbn [ConversationThread.messages t1 appended ConversationThread.set_updated_at
             ConversationThread.set_messages].
        by rewrite <- app_assoc. }
    split; [exact Hs'|]. split.
    { eapply same_header_trans; [apply (same_header_appended m t w) | exact Hh]. }
    rewrite Hmsgs.
    cbn [ConversationThread.messages t1 appended ConversationThread.set_updated_at
         ConversationThread.set_messages].
    by rewrite <- app_assoc.
Qed.

Lemma add_messages_in_order_witness :
  stored Examples.thread1 Examples.world1 /\
  Forall (fun m => message_conversation_id m = "conv123")
         [Student Examples.again; Tutor Examples.reply1] /\
  exists ts w' t',
    mapM add_message [Student Examples.again; Tutor Examples.reply1] Examples.world1
    = (Ok ts, w') /\
    length ts = 2%nat /\
    stored t' w' /\
    ConversationThread.messages t'
    = [Student Examples.question1; Tutor Examples.reply1;
       Student Examples.again; Tutor Examples.reply1].
Proof.
  assert (Hs : stored Examples.thread1 Examples.world1) by (vm_compute; reflexivity).
  assert (Hall : Forall (fun m => message_conversation_id m
                                  = ConversationThread.id Examples.thread1)
                        [Student Examples.again; Tutor Examples.reply1])
    by (repeat constructor).
  split; [exact Hs|]. split; [exact Hall|].
  destruct (add_messages_in_order [Student Examples.again; Tutor Examples.reply1]
              Examples.thread1 Examples.world1 Hs Hall)
    as (ts & w' & t' & Hrun & Hlen & _ & Hs' & _ & Hm).
  exists ts, w', t'. split; [exact Hrun|]. split; [exact Hlen|].
  split; [exact Hs' | exact Hm].
Defined.

(** X4. [add_message] for a conversation whose record is absent or
    corrupt (a field that certainly fails to decode, recognised from its
    text) raises [ValueError] with the text [Thread <id> not found] and
    writes nothing: the store is as before, the corrupt record
    included. *)
Theorem add_message_unknown_thread (m : Message) (w : World) :
  (redis w !! message_conversation_id m = None \/
   exists r, redis w !! message_conversation_id m = Some r /\ corrupt_record r) ->
  exists w',
    add_message m w
    = (Raise (ValueError ("Thread " +:+ message_conversation_id m +:+ " not found")), w') /\
    redis w' = redis w.
Proof.
  intros H.
  assert (exists w', get_thread (message_conversation_id m) w = (Ok None, w')) as (w' & Hget).
  { destruct H as [H|(r & Hr & Hc)]; [by eexists; apply get_thread_absent|].
    by eapply get_thread_corrupt. }
  exists w'. split.
  - unfold add_message. by rewrite (bind_run _ _ _ _ _ Hget).
  - pose proof (reads_get_thread (message_conversation_id m) w) as Hr.
    rewrite Hget in Hr. apply Hr.
Qed.

Lemma add_message_unknown_thread_witness :
  (redis Examples.world2 !! "conv123" = None \/
   exists r, redis Examples.world2 !! "conv123" = Some r /\ corrupt_record r) /\
  (exists w',
     add_message (Student Examples.again) Examples.world2
     = (Raise (ValueError "Thread conv123 not found"), w') /\
     redis w' = redis Examples.world2) /\
  (redis Samples.world3 !! "bad-json" = None \/
   exists r, redis Samples.world3 !! "bad-json" = Some r /\ corrupt_record r) /\
  exists w',
    add_message (Student Samples.stray) Samples.world3
    = (Raise (ValueError "Thread bad-json not found"), w') /\
    redis w' = redis Samples.world3.
Proof.
  assert (H : redis Examples.world2 !! message_conversation_id (Student Examples.again) = None
              \/ exists r, redis Examples.world2 !! message_conversation_id (Student Examples.again)
                           = Some r /\ corrupt_record r)
    by (left; vm_compute; reflexivity).
  assert (H' : redis Samples.world3 !! message_conversation_id (Student Samples.stray) = None
               \/ exists r, redis Samples.world3 !! message_conversation_id (Student Samples.stray)
                            = Some r /\ corrupt_record r).
  { right. exists Examples.bad_json. split; [vm_compute; reflexivity | exact bad_json_corrupt]. }
  split; [exact H|].
  split; [exact (add_message_unknown_thread (Student Examples.again) Examples.world2 H)|].
  split; [exact H'|].
  exact (add_message_unknown_thread (Student Samples.stray) Samples.world3 H').
Defined.

(** X5. The record [_save_thread] writes determines the thread: a thread
    none of whose feedback values is NaN and a thread with the same
    record agree field by field and compare equal. *)
Theorem thread_redis_injective (t t' : ConversationThread.t) :
  nan_free t = true ->
  thread_redis t = thread_redis t' ->
  t' = t /\ PyEq.thread t t' = true.
Proof.
  intros Hnan H.
  assert (Hid : ConversationThread.id t = ConversationThread.id t')
    by exact (f_equal ConversationThreadRedis.id H).
  set (w := set_redis {[ ConversationThread.id t := thread_redis t ]} Examples.world0).
  assert (Hs : stored t w) by apply lookup_singleton_eq.
  assert (Hs' : stored t' w).
  { unfold stored. rewrite <- Hid, <- H. apply lookup_singleton_eq. }
  pose proof (get_thread_stored t w Hs) as H1.
  pose proof (get_thread_stored t' w Hs') as H2.
  rewrite <- Hid in H2. assert (t' = t) as -> by congruence.
  split; [reflexivity | by apply PyEqFacts.thread_refl].
Qed.

Lemma thread_redis_injective_witness :
  nan_free Examples.thread1 = true /\
  thread_redis Examples.thread1
  = thread_redis (ConversationThread.set_messages
                    [Student Examples.question1; Tutor Examples.reply1] Examples.thread1) /\
  ConversationThread.set_messages
    [Student Examples.question1; Tutor Examples.reply1] Examples.thread1 = Examples.thread1 /\
  PyEq.thread Examples.thread1
    (ConversationThread.set_messages
       [Student Examples.question1; Tutor Examples.reply1] Examples.thread1) = true.
Proof.
  assert (Hn : nan_free Examples.thread1 = true) by (vm_compute; reflexivity).
  split; [exact Hn|]. split; [reflexivity|].
  exact (thread_redis_injective Examples.thread1 _ Hn eq_refl).
Defined.

Module DecodeFacts.
Import Pydantic ConversationService.
Import ModelFacts ServiceFacts Inversion MoreFacts ReadFacts ExtraFacts.

Lemma typed_message_decodes (e : Json.t) (w w' : World) (m : Message) :
  typed_message e w = (Ok m, w') -> decodes (clock w) e m.
Proof.
  destruct e as [ | | | | | | items]; try done.
  unfold typed_message. destruct (has_action items) eqn:Hact; intros H.
  - apply bind_inv in H as (s & w1 & Hs & H). apply ret_inv in H as [-> _].
    unfold new_StudentMessage in Hs.
    apply bind_inv in Hs as (ts & w2 & Hts & Hs). apply lift_inv in Hs as [Hs _].
    apply rbind_inv in Hs as (cid & Hcid & Hs). apply rbind_inv in Hs as (c & Hc & Hs).
    apply rbind_inv in Hs as (a & Ha & Hs). apply rbind_inv in Hs as (d & Hd & Hs).
    injection Hs as <-. exists items. cbn.
    apply str_field_inv in Hcid, Hc. apply action_field_inv in Ha.
    repeat split; try done.
    pose proof (timestamp_field_sound _ _ _ _ d Hts Hd) as Ht.
    destruct (Json.get "timestamp" items); [exact Ht | by eexists].
  - apply bind_inv in H as (u & w1 & Hu & H). apply ret_inv in H as [-> _].
    unfold new_TutorMessage in Hu.
    apply bind_inv in Hu as (ts & w2 & Hts & Hu). apply lift_inv in Hu as [Hu _].
    apply rbind_inv in Hu as (cid & Hcid & Hu). apply rbind_inv in Hu as (c & Hc & Hu).
    apply rbind_inv in Hu as (fb & Hfb & Hu). apply rbind_inv in Hu as (d & Hd & Hu).
    injection Hu as <-. exists items. cbn.
    apply str_field_inv in Hcid, Hc.
    repeat split; try done.
    + pose proof (timestamp_field_sound _ _ _ _ d Hts Hd) as Ht.
      destruct (Json.get "timestamp" items); [exact Ht | by eexists].
    + destruct (Json.get "feedback" items) as [v|] eqn:Hg.
      * destruct v as [ | | | | | | fitems]; try done.
        exists fitems. split; [done|]. intros k. by apply feedback_field_sound.
      * by injection Hfb as <-.
Qed.

Lemma mapM_typed_decodes (l : list Json.t) (w w' : World) (ms : list Message) :
  mapM typed_message l w = (Ok ms, w') -> Forall2 (decodes (clock w)) l ms.
Proof.
  revert w w' ms. induction l as [|x l IH]; intros w w' ms H.
  - apply ret_inv in H as [-> _]. constructor.
  - cbn [mapM] in H.
    apply bind_inv in H as (y & w1 & Hy & H).
    apply bind_inv in H as (ys & w2 & Hys & H).
    apply ret_inv in H as [-> _].
    constructor; [by eapply typed_message_decodes|].
    pose proof (reads_typed_message x w) as Hr. rewrite Hy in Hr.
    destruct Hr as (_ & Hc & _). cbn [snd] in Hc. rewrite <- Hc. by eapply IH.
Qed.

Lemma get_thread_messages_inv (tid : string) (w w' : World) (t : ConversationThread.t) :
  get_thread tid w = (Ok (Some t), w') ->
  exists r decoded elements w1,
    redis w !! tid = Some r /\
    Json.loads (ConversationThreadRedis.messages r) = Some decoded /\
    iterate decoded = Ok elements /\
    mapM typed_message elements w = (Ok (ConversationThread.messages t), w1).
Proof.
  unfold get_thread, try_except.
  destruct (get_thread_body tid w) as [[o|e] w1] eqn:Hbody; [|done].
  intros [= -> ->]. unfold get_thread_body in Hbody.
  apply bind_inv in Hbody as (o & w2 & Hget & H).
  unfold redis_get in Hget. injection Hget as <- <-.
  destruct (redis w !! tid) as [r|]; [|done].
  apply bind_inv in H as (msgs_v & w3 & H1 & H). apply lift_inv in H1 as [H1 ->].
  apply of_option_inv in H1.
  apply bind_inv in H as (elements & w4 & H2 & H). apply lift_inv in H2 as [H2 ->].
  apply bind_inv in H as (typed & w5 & H3 & H).
  exists r, msgs_v, elements, w5. repeat split; try done.
  apply bind_inv in H as (cids & w6 & H4 & H).
  apply bind_inv in H as (cid & w7 & H5 & H).
  apply bind_inv in H as (usmos_v & w8 & H6 & H).
  apply bind_inv in H as (created & w9 & H7 & H).
  apply bind_inv in H as (updated & w10 & H8 & H).
  apply bind_inv in H as (t' & w11 & H9 & H). apply lift_inv in H9 as [H9 ->].
  apply ret_inv in H as [[= ->] _].
  unfold new_ConversationThread in H9.
  apply rbind_inv in H9 as (us & Hus & H9). apply rbind_inv in H9 as (c & Hc & H9).
  injection H9 as <-. exact H3.
Qed.

End DecodeFacts.

Import DecodeFacts.

(** X6. The header of a loaded thread is what the record says: the id
    and student id are the record's, [usmos] is the list of strings its
    [usmos_json] decodes to, [content_id] is the first element of its
    decoded [content_ids], and the two instants are the ones its texts
    denote. *)
Theorem loaded_header_is_decoded (tid : string) (w w' : World) (t : ConversationThread.t) :
  get_thread tid w = (Ok (Some t), w') ->
  exists r content_ids,
    redis w !! tid = Some r /\
    ConversationThread.id t = ConversationThreadRedis.id r /\
    ConversationThread.student_id t = ConversationThreadRedis.student_id r /\
    Json.loads (ConversationThreadRedis.usmos_json r)
    = Some (Json.Arr (Json.Str <$> ConversationThread.usmos t)) /\
    Json.loads (ConversationThreadRedis.content_ids r) = Some content_ids /\
    Json.index0 content_ids = Ok (Json.Str (ConversationThread.content_id t)) /\
    Datetime.fromisoformat (ConversationThreadRedis.created_at r)
    = Some (ConversationThread.created_at t) /\
    Datetime.fromisoformat (ConversationThreadRedis.updated_at r)
    = Some (ConversationThread.updated_at t).
Proof.
  intros H. apply get_thread_inv in H as (r & Hr & Hl).
  destruct Hl as [? ? cids us _ _ _ H4 [_ H5] H6 H7 H8 H9 H10 H11].
  exists r, cids. repeat split; try done.
  by rewrite H6, (str_list_inv _ _ H7).
Qed.

Lemma loaded_header_is_decoded_witness :
  get_thread "conv123" Examples.world1 = (Ok (Some Examples.thread1), Examples.world1) /\
  exists r content_ids,
    redis Examples.world1 !! "conv123" = Some r /\
    ConversationThread.id Examples.thread1 = ConversationThreadRedis.id r /\
    ConversationThread.student_id Examples.thread1 = ConversationThreadRedis.student_id r /\
    Json.loads (ConversationThreadRedis.usmos_json r)
    = Some (Json.Arr (Json.Str <$> ConversationThread.usmos Examples.thread1)) /\
    Json.loads (ConversationThreadRedis.content_ids r) = Some content_ids /\
    Json.index0 content_ids = Ok (Json.Str (ConversationThread.content_id Examples.thread1)) /\
    Datetime.fromisoformat (ConversationThreadRedis.created_at r)
    = Some (ConversationThread.created_at Examples.thread1) /\
    Datetime.fromisoformat (ConversationThreadRedis.updated_at r)
    = Some (ConversationThread.updated_at Examples.thread1).
Proof.
  assert (H : get_thread "conv123" Examples.world1
              = (Ok (Some Examples.thread1), Examples.world1))
    by (vm_compute; reflexivity).
  split; [exact H|].
  exact (loaded_header_is_decoded "conv123" Examples.world1 Examples.world1
           Examples.thread1 H).
Defined.

(** X7. The messages of a loaded thread are the elements of the decoded
    [messages] text, one for one and in order: each element is a mapping
    whose [conversation_id] and [content] are the message's, whose
    [timestamp] text denotes the message's instant (a missing one is filled
    from the clock), whose [action] is the student message's tag, and whose
    [feedback] entries are the tutor message's. *)
Theorem loaded_messages_are_decoded (tid : string) (w w' : World) (t : ConversationThread.t) :
  get_thread tid w = (Ok (Some t), w') ->
  exists r decoded elements,
    redis w !! tid = Some r /\
    Json.loads (ConversationThreadRedis.messages r) = Some decoded /\
    iterate decoded = Ok elements /\
    Forall2 (decodes (clock w)) elements (ConversationThread.messages t).
Proof.
  intros H. apply get_thread_messages_inv in H as (r & decoded & elements & w1 & Hr & H1 & H2 & H3).
  exists r, decoded, elements. repeat split; try done.
  by eapply mapM_typed_decodes.
Qed.

Lemma loaded_messages_are_decoded_witness :
  get_thread "one-content" Examples.world2
  = (Ok (Some (ConversationThread.set_updated_at Examples.past_noon
                 {| ConversationThread.id := "one-content";
                    ConversationThread.student_id := "student123";
                    ConversationThread.usmos := ["MATH.ALG.1"];
                    ConversationThread.content_id := "content123";
                    ConversationThread.messages :=
                      [Student Examples.question1; Tutor Examples.reply1];
                    ConversationThread.created_at := Examples.noon;
                    ConversationThread.updated_at := Examples.noon |})), Examples.world2) /\
  exists r decoded elements,
    redis Examples.world2 !! "one-content" = Some r /\
    Json.loads (ConversationThreadRedis.messages r) = Some decoded /\
    iterate decoded = Ok elements /\
    Forall2 (decodes (clock Examples.world2)) elements
            [Student Examples.question1; Tutor Examples.reply1].
Proof.
  assert (H : get_thread "one-content" Examples.world2
  = (Ok (Some (ConversationThread.set_updated_at Examples.past_noon
                 {| ConversationThread.id := "one-content";
                    ConversationThread.student_id := "student123";
                    ConversationThread.usmos := ["MATH.ALG.1"];
                    ConversationThread.content_id := "content123";
                    ConversationThread.messages :=
                      [Student Examples.question1; Tutor Examples.reply1];
                    ConversationThread.created_at := Examples.noon;
                    ConversationThread.updated_at := Examples.noon |})), Examples.world2))
    by (vm_compute; reflexivity).
  split; [exact H|].
  exact (loaded_messages_are_decoded "one-content" Examples.world2 Examples.world2 _ H).
Defined.

Module FrameFacts.
Import Pydantic ConversationService.
Import ModelFacts ServiceFacts Inversion MoreFacts ReadFacts ExtraFacts.

Lemma touches_only_reads {A} (k0 : string) (m : M A) (w : World) :
  reads m -> touches_only k0 m w.
Proof.
  intros Hr Hk. destruct (Hr w) as (Hdb & _). split.
  - intros k r. rewrite Hdb. apply Hk.
  - intros k _. by rewrite Hdb.
Qed.

Lemma touches_only_bind {A B} (k0 : string) (m : M A) (f : A -> M B) (w : World) :
  touches_only k0 m w ->
  (forall a w1, m w = (Ok a, w1) -> keyed w1 -> touches_only k0 (f a) w1) ->
  touches_only k0 (bind m f) w.
Proof.
  intros Hm Hf Hk. destruct (Hm Hk) as [Hk1 Hfr]. unfold bind.
  destruct (m w) as [[a|e] w1] eqn:E; cbn [snd] in *; [|done].
  destruct (Hf a w1 eq_refl Hk1 Hk1) as [Hk2 Hfr2]. split; [exact Hk2|].
  intros k Hne. by rewrite Hfr2, Hfr.
Qed.

Lemma touches_only_ret {A} (k0 : string) (a : A) (w : World) : touches_only k0 (ret a) w.
Proof. apply touches_only_reads, reads_ret. Qed.

Lemma touches_only_raise {A} (k0 : string) (e : exn) (w : World) :
  touches_only k0 (@raise A e) w.
Proof. apply touches_only_reads, reads_raise. Qed.

Lemma touches_only_save (t : ConversationThread.t) (w : World) :
  touches_only (ConversationThread.id t) (_save_thread t) w.
Proof.
  intros Hk. rewrite save_run. unfold keyed. cbn [snd redis set_redis]. split.
  - intros k r. destruct (decide (k = ConversationThread.id t)) as [->|Hne].
    + rewrite lookup_insert_eq. by intros [= <-].
    + rewrite lookup_insert_ne by done. apply Hk.
  - intros k Hne. by rewrite lookup_insert_ne.
Qed.

Lemma get_thread_keyed (tid : string) (w w' : World) (t : ConversationThread.t) :
  keyed w -> get_thread tid w = (Ok (Some t), w') -> ConversationThread.id t = tid.
Proof.
  intros Hk H. apply get_thread_inv in H as (r & Hr & Hl).
  destruct Hl as [? ? ? ? _ _ _ _ _ _ _ _ _ Hid _]. rewrite Hid. by apply Hk.
Qed.

Lemma keyed_get_thread (tid : string) (w w' : World) (o : option ConversationThread.t) :
  keyed w -> get_thread tid w = (Ok o, w') -> keyed w'.
Proof.
  intros Hk H. pose proof (reads_get_thread tid w) as Hr. rewrite H in Hr.
  destruct Hr as (Hdb & _). cbn [snd] in Hdb. intros k r. rewrite Hdb. apply Hk.
Qed.

Lemma reads_generate_response (ts : TutorService.t) (t : ConversationThread.t)
    (c : ContentResponse.t) : reads (TutorService.generate_response ts t c).
Proof.
  intros w. destruct (generate_response_run ts t c w) as (r & -> & _).
  cbn [snd]. unfold only_ticks. cbn. repeat split; lia.
Qed.

Lemma generate_response_id (ts : TutorService.t) (t : ConversationThread.t)
    (c : ContentResponse.t) (w w' : World) (r : TutorMessage.t) :
  TutorService.generate_response ts t c w = (Ok r, w') ->
  TutorMessage.conversation_id r = ConversationThread.id t.
Proof.
  destruct (generate_response_run ts t c w) as (r' & -> & Hid). by intros [= <- _].
Qed.

Lemma touches_only_add_message (m : Message) (w : World) :
  touches_only (message_conversation_id m) (add_message m) w.
Proof.
  unfold add_message. apply touches_only_bind.
  { apply touches_only_reads, reads_get_thread. }
  intros [t|] w1 Hget Hk1; [|apply touches_only_raise].
  assert (Hk0 : keyed w -> ConversationThread.id t = message_conversation_id m)
    by (intros Hk; by eapply get_thread_keyed).
  intros Hk1'. clear Hk1'.
  (* the store of [w1] is that of [w] *)
  pose proof (reads_get_thread (message_conversation_id m) w) as Hr. rewrite Hget in Hr.
  destruct Hr as (Hdb & _). cbn [snd] in Hdb.
  assert (Hkw : keyed w) by (intros k r; rewrite <- Hdb; apply Hk1).
  specialize (Hk0 Hkw).
  unfold bind, now. cbn [fst snd].
  rewrite save_run. unfold keyed, ret.
  cbn [snd redis set_redis tick ConversationThread.id
    ConversationThread.set_updated_at ConversationThread.set_messages]. split.
  - intros k r. destruct (decide (k = ConversationThread.id t)) as [->|Hne].
    + rewrite lookup_insert_eq. by intros [= <-].
    + rewrite lookup_insert_ne by done. apply Hk1.
  - intros k Hne. rewrite lookup_insert_ne; [done|]. by rewrite Hk0.
Qed.

Lemma add_message_id (m : Message) (w w' : World) (t : ConversationThread.t) :
  keyed w -> add_message m w = (Ok t, w') ->
  ConversationThread.id t = message_conversation_id m.
Proof.
  intros Hk H. unfold add_message in H.
  apply bind_inv in H as (o & w1 & Hget & H).
  destruct o as [t0|]; [|done].
  apply bind_inv in H as (n & w2 & _ & H).
  apply bind_inv in H as (u & w3 & _ & H).
  apply ret_inv in H as [-> _]. cbn. by eapply get_thread_keyed.
Qed.

Lemma touches_only_regenerate (tutor : TutorService.t) (tid : string) (w : World) :
  touches_only tid (regenerate_tutor_response tutor tid) w.
Proof.
  unfold regenerate_tutor_response. apply touches_only_bind.
  { apply touches_only_reads, reads_get_thread. }
  intros [t|] w1 Hget Hk1; [|apply touches_only_raise].
  assert (Hid : ConversationThread.id t = tid).
  { pose proof (reads_get_thread tid w) as Hr. rewrite Hget in Hr.
    destruct Hr as (Hdb & _). cbn [snd] in Hdb.
    eapply get_thread_keyed; [|exact Hget]. intros k r. rewrite <- Hdb. apply Hk1. }
  destruct (get_content (ConversationThread.content_id t)) as [c|]; [|apply touches_only_raise].
  apply touches_only_bind.
  { destruct (Py.last (ConversationThread.messages t)) as [[s|u]|];
      try apply touches_only_ret.
    apply touches_only_bind; [|intros; apply touches_only_ret].
    rewrite <- Hid. apply (touches_only_save (ConversationThread.set_messages _ t)). }
  intros t2 w2 Ht2 Hk2.
  assert (Hid2 : ConversationThread.id t2 = tid).
  { destruct (Py.last (ConversationThread.messages t)) as [[s|u]|].
    - apply ret_inv in Ht2 as [-> _]. exact Hid.
    - apply bind_inv in Ht2 as (x & w3 & _ & Ht2). apply ret_inv in Ht2 as [-> _]. exact Hid.
    - apply ret_inv in Ht2 as [-> _]. exact Hid. }
  apply touches_only_bind.
  { apply touches_only_reads, reads_generate_response. }
  intros r w3 Hgen Hk3. apply generate_response_id in Hgen.
  apply touches_only_bind; [|intros; apply touches_only_ret].
  rewrite <- Hid2, <- Hgen. apply (touches_only_add_message (Tutor r)).
Qed.

Lemma touches_only_handle (tutor : TutorService.t) (m : StudentMessage.t) (w : World) :
  touches_only (StudentMessage.conversation_id m) (handle_student_action tutor m) w.
Proof.
  unfold handle_student_action. apply touches_only_bind.
  { apply touches_only_reads, reads_get_thread. }
  intros [t|] w1 Hget Hk1; [|apply touches_only_raise].
  destruct (get_content (ConversationThread.content_id t)) as [c|]; [|apply touches_only_raise].
  apply touches_only_bind; [apply (touches_only_add_message (Student m))|].
  intros t2 w2 Hadd Hk2.
  assert (Hid2 : ConversationThread.id t2 = StudentMessage.conversation_id m).
  { eapply (add_message_id (Student m)); [|exact Hadd]. exact Hk1. }
  assert (Hgen : touches_only (StudentMessage.conversation_id m)
                   (let* response := TutorService.generate_response tutor t2 c in
                    add_message (Tutor response) ;; ret response)%monad w2).
  { apply touches_only_bind.
    { apply touches_only_reads, reads_generate_response. }
    intros r w3 Hgen Hk3. apply generate_response_id in Hgen.
    apply touches_only_bind; [|intros; apply touches_only_ret].
    rewrite <- Hid2, <- Hgen. apply (touches_only_add_message (Tutor r)). }
  destruct (StudentMessage.action m); try exact Hgen.
  apply touches_only_regenerate.
Qed.

Lemma keyed_singleton (t : ConversationThread.t) (w : World) :
  keyed (set_redis {[ ConversationThread.id t := thread_redis t ]} w).
Proof.
  intros k r H. cbn [redis set_redis] in H.
  apply lookup_singleton_Some in H as [<- <-]. reflexivity.
Qed.

Lemma last_student_snoc (l : list Message) (s : StudentMessage.t) :
  TutorService.last_student (l ++ [Student s]) = Some s.
Proof. induction l as [|x l IH]; [done|]. cbn [app TutorService.last_student]. by rewrite IH. Qed.

Lemma get_thread_unknown (tid : string) (w : World) :
  (redis w !! tid = None \/ exists r, redis w !! tid = Some r /\ corrupt_record r) ->
  exists w', get_thread tid w = (Ok None, w') /\ redis w' = redis w.
Proof.
  intros H.
  assert (exists w', get_thread tid w = (Ok None, w')) as (w' & Hget).
  { destruct H as [H|(r & Hr & Hc)]; [by eexists; apply get_thread_absent|].
    by eapply get_thread_corrupt. }
  exists w'. split; [exact Hget|].
  pose proof (reads_get_thread tid w) as Hr. rewrite Hget in Hr. apply Hr.
Qed.

Lemma pop_snoc {A} (l : list A) (x : A) : Py.pop (l ++ [x]) = l.
Proof.
  induction l as [|y l IH]; [done|]. cbn [app Py.pop].
  destruct (l ++ [x]) eqn:E; [by destruct l|]. by rewrite IH.
Qed.

(** The run of [handle_student_action] on a stored thread whose content
    resolves, whatever the action. *)
Lemma exchange_run (tutor : TutorService.t) (t : ConversationThread.t)
    (c : ContentResponse.t) (m : StudentMessage.t) (w : World) :
  stored t w ->
  StudentMessage.conversation_id m = ConversationThread.id t ->
  get_content (ConversationThread.content_id t) = Some c ->
  let t1 := appended (Student m) t w in
  let w1 := set_redis (<[ConversationThread.id t := thread_redis t1]> (redis w)) (tick w) in
  exists r,
    TutorService.generate_response tutor t1 c w1 = (Ok r, tick w1) /\
    TutorMessage.conversation_id r = ConversationThread.id t /\
    handle_student_action tutor m w
    = (Ok r, set_redis (<[ConversationThread.id t :=
                            thread_redis (appended (Tutor r) t1 (tick w1))]> (redis (tick w1)))
                       (tick (tick w1))).
Proof.
  intros Hs Hid Hc t1 w1.
  pose proof (add_message_run (Student m) t w Hs Hid) as Hadd. fold t1 w1 in Hadd.
  assert (Hs1 : stored t1 w1) by apply stored_add_message.
  destruct (generate_response_run tutor t1 c w1) as (r & Hgen & Hrid).
  pose proof (add_message_run (Tutor r) t1 (tick w1) (stored_tick _ _ Hs1) Hrid) as Hadd2.
  exists r. split; [exact Hgen|]. split; [exact Hrid|].
  unfold handle_student_action. rewrite Hid.
  rewrite (bind_run _ _ _ _ _ (get_thread_stored t w Hs)).
  rewrite Hc. rewrite (bind_run _ _ _ _ _ Hadd).
  assert (Hrest : (let* response := TutorService.generate_response tutor t1 c in
                   add_message (Tutor response) ;; ret response)%monad w1
                  = (Ok r, set_redis (<[ConversationThread.id t1 :=
                                          thread_redis (appended (Tutor r) t1 (tick w1))]>
                                        (redis (tick w1))) (tick (tick w1)))).
  { rewrite (bind_run _ _ _ _ _ Hgen). by rewrite (bind_run _ _ _ _ _ Hadd2). }
  destruct (StudentMessage.action m); try exact Hrest.
  destruct (regenerate_without_trim tutor t1 c w1 Hs1 Hc) as (r' & w2 & Hgen' & _ & Hrun).
  { cbn [t1 appended ConversationThread.messages ConversationThread.set_updated_at
         ConversationThread.set_messages]. by rewrite last_snoc. }
  rewrite Hgen in Hgen'. injection Hgen' as <- <-. exact Hrun.
Qed.

Lemma coherent_snoc (t t' : ConversationThread.t) (ms : list Message) :
  coherent t ->
  ConversationThread.id t' = ConversationThread.id t ->
  ConversationThread.messages t' = ConversationThread.messages t ++ ms ->
  Forall (fun m => message_conversation_id m = ConversationThread.id t) ms ->
  coherent t'.
Proof.
  unfold coherent. intros Hc Hid -> Hms. rewrite Hid. apply Forall_app. by split.
Qed.

End FrameFacts.

Import FrameFacts.

(** X8. [add_message] writes under the message's conversation id and
    nowhere else: in a store where every record sits under its own id,
    whatever the call returns or raises, every record under another key is
    as before and the store is still keyed by id. *)
Theorem add_message_touches_one_record (m : Message) (w : World) (k : string) :
  keyed w ->
  k <> message_conversation_id m ->
  redis (snd (add_message m w)) !! k = redis w !! k /\ keyed (snd (add_message m w)).
Proof.
  intros Hk Hne. destruct (touches_only_add_message m w Hk) as [Hk' Hfr].
  split; [by apply Hfr | exact Hk'].
Qed.

Lemma add_message_touches_one_record_witness :
  keyed Examples.world1 /\
  "conv124" <> message_conversation_id (Student Examples.again) /\
  redis (snd (add_message (Student Examples.again) Examples.world1)) !! "conv124"
  = redis Examples.world1 !! "conv124" /\
  keyed (snd (add_message (Student Examples.again) Examples.world1)).
Proof.
  assert (Hk : keyed Examples.world1) by exact (keyed_singleton Examples.thread1 Examples.world0).
  assert (Hne : "conv124" <> message_conversation_id (Student Examples.again))
    by (cbn; discriminate).
  split; [exact Hk|]. split; [exact Hne|].
  exact (add_message_touches_one_record (Student Examples.again) Examples.world1 "conv124" Hk Hne).
Defined.

(** X9. [handle_student_action] and [regenerate_tutor_response] write
    under the one conversation id they are given and nowhere else: whatever
    the action, whatever they return or raise, the record of every other
    conversation is as before, and the store stays keyed by id. *)
Theorem exchange_touches_one_record (tutor : TutorService.t) (m : StudentMessage.t)
    (tid : string) (w : World) (k : string) :
  keyed w ->
  (k <> StudentMessage.conversation_id m ->
   redis (snd (handle_student_action tutor m w)) !! k = redis w !! k) /\
  (k <> tid ->
   redis (snd (regenerate_tutor_response tutor tid w)) !! k = redis w !! k) /\
  keyed (snd (handle_student_action tutor m w)) /\
  keyed (snd (regenerate_tutor_response tutor tid w)).
Proof.
  intros Hk.
  destruct (touches_only_handle tutor m w Hk) as [Hk1 Hfr1].
  destruct (touches_only_regenerate tutor tid w Hk) as [Hk2 Hfr2].
  repeat split; try done; intros Hne; [by apply Hfr1 | by apply Hfr2].
Qed.

Lemma exchange_touches_one_record_witness :
  keyed Examples.world1 /\
  redis (snd (handle_student_action Examples.tutor Examples.again Examples.world1)) !! "conv124"
  = redis Examples.world1 !! "conv124" /\
  redis (snd (regenerate_tutor_response Examples.tutor "conv123" Examples.world1)) !! "conv124"
  = redis Examples.world1 !! "conv124".
Proof.
  assert (Hk : keyed Examples.world1) by exact (keyed_singleton Examples.thread1 Examples.world0).
  split; [exact Hk|].
  destruct (exchange_touches_one_record Examples.tutor Examples.again "conv123"
              Examples.world1 "conv124" Hk) as (H1 & H2 & _).
  split; [apply H1 | apply H2]; cbn; discriminate.
Defined.

(** X10. A message sent to a stored thread whose content resolves,
    whatever its action: [handle_student_action] returns a tutor message
    for that thread, and the thread stored afterwards has the same header
    and the old log followed by the student message and the returned reply,
    in that order.  Only the thread's own record is written.  The reply is
    generated from the thread that already holds the student message and is
    stamped with the clock reading after the one that stamped the first
    save.  Without a model backend the reply is the rule-based text for
    that very message and the feedback is the fixed map.  A thread all of
    whose messages name it stays so. *)
Theorem handle_student_action_exchange (tutor : TutorService.t) (t : ConversationThread.t)
    (c : ContentResponse.t) (m : StudentMessage.t) (w : World) :
  stored t w ->
  StudentMessage.conversation_id m = ConversationThread.id t ->
  get_content (ConversationThread.content_id t) = Some c ->
  exists r w' t',
    handle_student_action tutor m w = (Ok r, w') /\
    stored t' w' /\
    same_header t t' /\
    ConversationThread.messages t' = ConversationThread.messages t ++ [Student m; Tutor r] /\
    TutorMessage.conversation_id r = ConversationThread.id t /\
    TutorMessage.timestamp r = clock w (S (ticks w)) /\
    redis w' = <[ConversationThread.id t := thread_redis t']> (redis w) /\
    (TutorService.configured tutor = false ->
     TutorMessage.content r = TutorService.fallback_response m c /\
     TutorMessage.feedback r
     = {[ "clarity" := Num.f0_9; "helpfulness" := Num.f0_85; "engagement" := Num.f0_8 ]}) /\
    (coherent t -> coherent t').
Proof.
  intros Hs Hid Hc.
  destruct (exchange_run tutor t c m w Hs Hid Hc) as (r & Hgen & Hrid & Hrun).
  set (t1 := appended (Student m) t w) in *.
  set (w1 := set_redis (<[ConversationThread.id t := thread_redis t1]> (redis w)) (tick w)) in *.
  set (t2 := appended (Tutor r) t1 (tick w1)) in *.
  assert (Hm : ConversationThread.messages t2
               = ConversationThread.messages t ++ [Student m; Tutor r])
    by (cbn; by rewrite <- app_assoc).
  exists r, (set_redis (<[ConversationThread.id t := thread_redis t2]> (redis (tick w1)))
               (tick (tick w1))), t2.
  split; [exact Hrun|].
  split; [exact (stored_add_message (Tutor r) t1 (tick w1))|].
  split; [by repeat split|].
  split; [exact Hm|].
  split; [exact Hrid|].
  split.
  { unfold TutorService.generate_response in Hgen.
    destruct (TutorService.last_student (ConversationThread.messages t1));
      injection Hgen as <-; reflexivity. }
  split.
  { cbn [redis set_redis tick w1]. apply insert_insert_eq. }
  split.
  { intros Hcfg. unfold TutorService.generate_response in Hgen.
    cbn [t1 appended ConversationThread.messages ConversationThread.set_updated_at
         ConversationThread.set_messages] in Hgen.
    rewrite last_student_snoc, Hcfg in Hgen. injection Hgen as <-. by split. }
  intros Hco. apply (coherent_snoc t t2 [Student m; Tutor r] Hco eq_refl Hm).
  by repeat constructor.
Qed.

Lemma handle_student_action_exchange_witness :
  stored Examples.thread1 Examples.world1 /\
  StudentMessage.conversation_id Examples.question1 = "conv123" /\
  get_content (ConversationThread.content_id Examples.thread1) = Some content123 /\
  exists r w' t',
    handle_student_action Examples.tutor Examples.question1 Examples.world1 = (Ok r, w') /\
    stored t' w' /\
    ConversationThread.messages t'
    = [Student Examples.question1; Tutor Examples.reply1; Student Examples.question1; Tutor r] /\
    TutorMessage.content r
    = "That's a good question about 'Solve for x: x + 5 = 10'. The answer is 'x = 5'. Does that make sense?".
Proof.
  assert (Hs : stored Examples.thread1 Examples.world1) by (vm_compute; reflexivity).
  assert (Hc : get_content (ConversationThread.content_id Examples.thread1) = Some content123)
    by (vm_compute; reflexivity).
  split; [exact Hs|]. split; [reflexivity|]. split; [exact Hc|].
  destruct (handle_student_action_exchange Examples.tutor Examples.thread1 content123
              Examples.question1 Examples.world1 Hs eq_refl Hc)
    as (r & w' & t' & Hrun & Hs' & _ & Hm & _ & _ & _ & Hfb & _).
  exists r, w', t'. split; [exact Hrun|]. split; [exact Hs'|]. split; [exact Hm|].
  destruct (Hfb eq_refl) as [Hcontent _]. exact Hcontent.
Defined.

(** X11. [handle_student_action] refuses before it writes.  For a
    conversation whose record is absent or does not decode it raises
    [ValueError] with the text [Thread <id> not found]; for a stored thread
    whose content id names no known content it raises [ValueError] with the
    text [Content <id> not found].  In both cases the store is as before:
    the student's message is not appended. *)
Theorem handle_student_action_refuses (tutor : TutorService.t) (m : StudentMessage.t)
    (w : World) :
  ((redis w !! StudentMessage.conversation_id m = None \/
    exists r, redis w !! StudentMessage.conversation_id m = Some r /\ corrupt_record r) ->
   exists w',
     handle_student_action tutor m w
     = (Raise (ValueError ("Thread " +:+ StudentMessage.conversation_id m +:+ " not found")), w') /\
     redis w' = redis w) /\
  (forall t,
     stored t w -> ConversationThread.id t = StudentMessage.conversation_id m ->
     get_content (ConversationThread.content_id t) = None ->
     handle_student_action tutor m w
     = (Raise (ValueError ("Content " +:+ ConversationThread.content_id t +:+ " not found")), w)).
Proof.
  split.
  - intros H. apply get_thread_unknown in H as (w' & Hget & Hdb).
    exists w'. split; [|exact Hdb].
    unfold handle_student_action. by rewrite (bind_run _ _ _ _ _ Hget).
  - intros t Hs Hid Hc. unfold handle_student_action. rewrite <- Hid.
    rewrite (bind_run _ _ _ _ _ (get_thread_stored t w Hs)). by rewrite Hc.
Qed.

Lemma handle_student_action_refuses_witness :
  (exists w',
     handle_student_action Examples.tutor Samples.stray Samples.world3
     = (Raise (ValueError "Thread bad-json not found"), w') /\
     redis w' = redis Samples.world3) /\
  stored Samples.orphan Samples.world3 /\
  get_content (ConversationThread.content_id Samples.orphan) = None /\
  handle_student_action Examples.tutor Samples.hello Samples.world3
  = (Raise (ValueError "Content content000 not found"), Samples.world3).
Proof.
  assert (Hs : stored Samples.orphan Samples.world3) by (vm_compute; reflexivity).
  assert (Hc : get_content (ConversationThread.content_id Samples.orphan) = None)
    by (vm_compute; reflexivity).
  split.
  - destruct (handle_student_action_refuses Examples.tutor Samples.stray Samples.world3)
      as [H _].
    apply H. right. exists Examples.bad_json. split; [vm_compute; reflexivity | exact bad_json_corrupt].
  - split; [exact Hs|]. split; [exact Hc|].
    destruct (handle_student_action_refuses Examples.tutor Samples.hello Samples.world3)
      as [_ H].
    exact (H Samples.orphan Hs eq_refl Hc).
Defined.

(** X12. [regenerate_tutor_response] refuses before it writes, in the same
    two cases and with the same two texts: nothing is removed from the log
    of a thread whose content cannot be resolved. *)
Theorem regenerate_refuses (tutor : TutorService.t) (tid : string) (w : World) :
  ((redis w !! tid = None \/ exists r, redis w !! tid = Some r /\ corrupt_record r) ->
   exists w',
     regenerate_tutor_response tutor tid w
     = (Raise (ValueError ("Thread " +:+ tid +:+ " not found")), w') /\
     redis w' = redis w) /\
  (forall t,
     stored t w -> ConversationThread.id t = tid ->
     get_content (ConversationThread.content_id t) = None ->
     regenerate_tutor_response tutor tid w
     = (Raise (ValueError ("Content " +:+ ConversationThread.content_id t +:+ " not found")), w)).
Proof.
  split.
  - intros H. apply get_thread_unknown in H as (w' & Hget & Hdb).
    exists w'. split; [|exact Hdb].
    unfold regenerate_tutor_response. by rewrite (bind_run _ _ _ _ _ Hget).
  - intros t Hs Hid Hc. unfold regenerate_tutor_response. rewrite <- Hid.
    rewrite (bind_run _ _ _ _ _ (get_thread_stored t w Hs)). by rewrite Hc.
Qed.

Lemma regenerate_refuses_witness :
  (exists w',
     regenerate_tutor_response Examples.tutor "bad-json" Samples.world3
     = (Raise (ValueError "Thread bad-json not found"), w') /\
     redis w' = redis Samples.world3) /\
  stored Samples.orphan Samples.world3 /\
  get_content (ConversationThread.content_id Samples.orphan) = None /\
  regenerate_tutor_response Examples.tutor "conv999" Samples.world3
  = (Raise (ValueError "Content content000 not found"), Samples.world3).
Proof.
  assert (Hs : stored Samples.orphan Samples.world3) by (vm_compute; reflexivity).
  assert (Hc : get_content (ConversationThread.content_id Samples.orphan) = None)
    by (vm_compute; reflexivity).
  split.
  - destruct (regenerate_refuses Examples.tutor "bad-json" Samples.world3) as [H _].
    apply H. right. exists Examples.bad_json. split; [vm_compute; reflexivity | exact bad_json_corrupt].
  - split; [exact Hs|]. split; [exact Hc|].
    destruct (regenerate_refuses Examples.tutor "conv999" Samples.world3) as [_ H].
    exact (H Samples.orphan Hs eq_refl Hc).
Defined.

Module TutorFacts.
Import Pydantic ConversationService.
Import NumFacts ModelFacts ServiceFacts Inversion MoreFacts ReadFacts ExtraFacts FrameFacts.

Lemma startswith_append (p rest : string) : Py.startswith (p +:+ rest) p = true.
Proof.
  induction p as [|a p IH]; [by destruct rest|].
  change (String a p +:+ rest) with (String a (p +:+ rest)). cbn [Py.startswith].
  by rewrite Ascii.eqb_refl, IH.
Qed.

Lemma startswith_inv (s p : string) :
  Py.startswith s p = true -> exists rest, s = p +:+ rest.
Proof.
  revert s. induction p as [|a p IH]; intros s H; [by exists s|].
  destruct s as [|b s]; [done|]. cbn [Py.startswith] in H.
  apply andb_true_iff in H as [Hab H]. apply Ascii.eqb_eq in Hab as ->.
  destruct (IH s H) as (rest & ->). by exists rest.
Qed.

Lemma contains_cases (needle hay : string) :
  Py.contains needle hay
  = Py.startswith hay needle ||
    match hay with EmptyString => false | String _ r => Py.contains needle r end.
Proof. by destruct hay. Qed.

Lemma contains_append (pre needle post : string) :
  Py.contains needle (pre +:+ needle +:+ post) = true.
Proof.
  induction pre as [|a pre IH].
  - change (EmptyString +:+ needle +:+ post) with (needle +:+ post).
    rewrite contains_cases, startswith_append. done.
  - change (String a pre +:+ needle +:+ post) with (String a (pre +:+ needle +:+ post)).
    rewrite contains_cases, IH. apply orb_true_r.
Qed.

Lemma contains_inv (needle hay : string) :
  Py.contains needle hay = true -> exists pre post, hay = pre +:+ needle +:+ post.
Proof.
  induction hay as [|a hay IH]; rewrite contains_cases; intros H.
  - rewrite orb_false_r in H. apply startswith_inv in H as (rest & ->).
    by exists EmptyString, rest.
  - apply orb_true_iff in H as [H|H].
    + apply startswith_inv in H as (rest & ->). by exists EmptyString, rest.
    + destruct (IH H) as (pre & post & ->). by exists (String a pre), post.
Qed.

Lemma contains_spec (needle hay : string) :
  Py.contains needle hay = true <-> exists pre post, hay = pre +:+ needle +:+ post.
Proof.
  split; [apply contains_inv|]. intros (pre & post & ->). apply contains_append.
Qed.

Lemma contains_after (lit needle post : string) :
  Py.contains needle (lit +:+ needle +:+ post) = true.
Proof. apply contains_append. Qed.

Lemma contains_end (lit needle : string) : Py.contains needle (lit +:+ needle) = true.
Proof.
  rewrite <- (append_nil_r needle) at 2. apply contains_append.
Qed.

Lemma contains_skip (lit needle rest : string) :
  Py.contains needle rest = true -> Py.contains needle (lit +:+ rest) = true.
Proof.
  intros H. apply contains_inv in H as (pre & post & ->).
  rewrite <- append_assoc. apply contains_append.
Qed.

Lemma mock_data_inv (u : string) (c : ContentResponse.t) :
  C3Service.mock_data !! u = Some c ->
  (u = "MATH.ALG.1" /\ c = content123) \/
  (u = "MATH.ALG.2" /\ c = content456) \/
  (u = "SCIENCE.PHYS.1" /\ c = content789).
Proof.
  unfold C3Service.mock_data. intros H.
  apply lookup_insert_Some in H as [[<- <-]|[_ H]]; [by left|].
  apply lookup_insert_Some in H as [[<- <-]|[_ H]]; [by right; left|].
  apply lookup_singleton_Some in H as [<- <-]. by right; right.
Qed.

Lemma mock_content_inv (i : string) (c : ContentResponse.t) :
  get_content i = Some c ->
  (i = "content123" /\ c = content123) \/
  (i = "content456" /\ c = content456) \/
  (i = "content789" /\ c = content789).
Proof.
  unfold get_content, mock_content. intros H.
  apply lookup_insert_Some in H as [[<- <-]|[_ H]]; [by left|].
  apply lookup_insert_Some in H as [[<- <-]|[_ H]]; [by right; left|].
  apply lookup_singleton_Some in H as [<- <-]. by right; right.
Qed.

Lemma mock_data_resolves (u : string) (c : ContentResponse.t) :
  C3Service.mock_data !! u = Some c ->
  get_content (ContentResponse.content_id c) = Some c /\ ContentResponse.usmos c = [u].
Proof.
  intros H. apply mock_data_inv in H as [[-> ->]|[[-> ->]|[-> ->]]];
    split; vm_compute; reflexivity.
Qed.

Lemma get_mock_content_elem (usmos : list string) (c : ContentResponse.t) :
  c ∈ C3Service.get_mock_content usmos ->
  exists u, u ∈ usmos /\ C3Service.mock_data !! u = Some c.
Proof.
  induction usmos as [|u usmos IH]; cbn [C3Service.get_mock_content]; intros H.
  - by apply elem_of_nil in H.
  - destruct (C3Service.mock_data !! u) as [c'|] eqn:E.
    + apply elem_of_cons in H as [->|H].
      * exists u. split; [left | done].
      * destruct (IH H) as (u' & Hu' & Hc). exists u'. split; [by right | done].
    + destruct (IH H) as (u' & Hu' & Hc). exists u'. split; [by right | done].
Qed.

End TutorFacts.

Import TutorFacts.

(** X13. The two mock tables agree in one direction: every item
    [get_mock_content] returns for a request is found again by
    [get_content] under the item's own content id, so a thread started on
    it can be answered. *)
Theorem mock_content_resolves (usmos : list string) (c : ContentResponse.t) :
  c ∈ C3Service.get_mock_content usmos ->
  get_content (ContentResponse.content_id c) = Some c.
Proof.
  intros H. apply get_mock_content_elem in H as (u & _ & Hu).
  by apply mock_data_resolves in Hu as [? _].
Qed.

Lemma mock_content_resolves_witness :
  content456 ∈ C3Service.get_mock_content ["ART.1"; "MATH.ALG.2"] /\
  get_content (ContentResponse.content_id content456) = Some content456.
Proof.
  assert (H : content456 ∈ C3Service.get_mock_content ["ART.1"; "MATH.ALG.2"])
    by (vm_compute; left).
  split; [exact H|].
  exact (mock_content_resolves ["ART.1"; "MATH.ALG.2"] content456 H).
Defined.

(** X14. And in the other: an item [get_content] finds under an id
    carries that id, and asking [get_mock_content] for the item's own tags
    returns exactly that item. *)
Theorem known_content_is_served (i : string) (c : ContentResponse.t) :
  get_content i = Some c ->
  ContentResponse.content_id c = i /\
  C3Service.get_mock_content (ContentResponse.usmos c) = [c].
Proof.
  intros H. apply mock_content_inv in H as [[-> ->]|[[-> ->]|[-> ->]]];
    split; vm_compute; reflexivity.
Qed.

Lemma known_content_is_served_witness :
  get_content "content789" = Some content789 /\
  ContentResponse.content_id content789 = "content789" /\
  C3Service.get_mock_content (ContentResponse.usmos content789) = [content789].
Proof.
  assert (H : get_content "content789" = Some content789) by (vm_compute; reflexivity).
  split; [exact H|].
  exact (known_content_is_served "content789" content789 H).
Defined.

(** X15. [get_mock_content] answers tag by tag: the tag lists of the
    items it returns, read in order, are exactly the requested tags that
    the table knows, in request order and with repetitions kept; unknown
    tags are dropped without an error. *)
Theorem get_mock_content_tags (usmos : list string) :
  concat (ContentResponse.usmos <$> C3Service.get_mock_content usmos)
  = filter (fun u => is_Some (C3Service.mock_data !! u)) usmos.
Proof.
  induction usmos as [|u usmos IH]; [done|]. cbn [C3Service.get_mock_content].
  destruct (C3Service.mock_data !! u) as [c|] eqn:E.
  - rewrite filter_cons_True by (rewrite E; eauto).
    apply mock_data_resolves in E as [_ Hu].
    cbn [fmap list_fmap concat]. fold (@fmap list _ _ _ ContentResponse.usmos).
    by rewrite Hu, IH.
  - rewrite filter_cons_False; [exact IH|]. rewrite E. by intros [? ?].
Qed.

(** X16. The rule-based reply embeds the content it talks about, for
    every content item and every student message: the reply to a question
    and to a regenerate request contains the problem and the answer, the
    reply to a chat message contains the problem, and the reply to an
    attempt is the fixed praise or contains the answer. *)
Theorem fallback_reply_embeds (m : StudentMessage.t) (c : ContentResponse.t) :
  match StudentMessage.action m with
  | question | regenerate =>
      Py.contains (ContentResponse.problem c) (TutorService.fallback_response m c) = true /\
      Py.contains (ContentResponse.answer c) (TutorService.fallback_response m c) = true
  | chat =>
      Py.contains (ContentResponse.problem c) (TutorService.fallback_response m c) = true
  | answer =>
      TutorService.fallback_response m c = "That's correct! Well done." \/
      Py.contains (ContentResponse.answer c) (TutorService.fallback_response m c) = true
  end.
Proof.
  unfold TutorService.fallback_response. destruct (StudentMessage.action m).
  - split; [apply contains_after|]. do 2 apply contains_skip. apply contains_after.
  - destruct (Py.contains _ _); [by left | right]. apply contains_after.
  - apply contains_end.
  - split; [apply contains_after|]. do 2 apply contains_skip. apply contains_after.
Qed.

(** X17. An attempt is accepted exactly when the lower-cased answer
    occurs somewhere in the lower-cased message: the check is a
    case-insensitive substring test, so text around the answer does not
    matter. *)
Theorem answer_accepted_iff_substring (m : StudentMessage.t) (c : ContentResponse.t) :
  StudentMessage.action m = answer ->
  (TutorService.fallback_response m c = "That's correct! Well done." <->
   exists pre post,
     Py.lower (StudentMessage.content m) = pre +:+ Py.lower (ContentResponse.answer c) +:+ post).
Proof.
  intros Ha. rewrite <- contains_spec. unfold TutorService.fallback_response. rewrite Ha.
  destruct (Py.contains _ _); split; done.
Qed.

Lemma answer_accepted_iff_substring_witness :
  StudentMessage.action Samples.attempt = answer /\
  (TutorService.fallback_response Samples.attempt content123 = "That's correct! Well done." <->
   exists pre post,
     Py.lower (StudentMessage.content Samples.attempt)
     = pre +:+ Py.lower (ContentResponse.answer content123) +:+ post) /\
  TutorService.fallback_response Samples.attempt content123 = "That's correct! Well done.".
Proof.
  split; [reflexivity|].
  split; [exact (answer_accepted_iff_substring Samples.attempt content123 eq_refl)|].
  vm_compute. reflexivity.
Defined.

Module EndpointFacts.
Import Pydantic ConversationService.
Import ModelFacts ServiceFacts Inversion MoreFacts ReadFacts ExtraFacts FrameFacts TutorFacts.

Lemma call_ok {A} (m : M A) (w w' : World) (a : A) :
  m w = (Ok a, w') -> Endpoints.call m w = (Endpoints.Return a, w').
Proof. intros H. unfold Endpoints.call. by rewrite H. Qed.

Lemma call_raise {A} (m : M A) (w w' : World) (e : exn) :
  m w = (Raise e, w') -> Endpoints.call m w = (Endpoints.Raised (Endpoints.Error e), w').
Proof. intros H. unfold Endpoints.call. by rewrite H. Qed.

Lemma start_conversation_run (student_id : string) (usmos : list string) (w : World) :
  exists threads w',
    start_conversation student_id usmos w
    = (Ok {| StartConversationResponse.threads := threads;
             StartConversationResponse.contents := C3Service.get_mock_content usmos |}, w') /\
    Forall2 (matches student_id) threads (C3Service.get_mock_content usmos) /\
    ConversationThread.id <$> threads
      = (fun i => uuids w (drawn w + i)%nat)
          <$> seq 0 (length (C3Service.get_mock_content usmos)) /\
    redis w' = save_all threads (redis w) /\
    (C3Service.get_mock_content usmos = [] -> w' = w).
Proof.
  unfold start_conversation, try_except.
  destruct (C3Service.get_mock_content usmos) as [|c0 contents0].
  - exists [], w. repeat split; try done; constructor.
  - destruct (create_threads_run student_id (c0 :: contents0) w)
      as (threads & w' & Hrun & Hm & Hids & Hdb & _).
    exists threads, w'. split; [by rewrite (bind_run _ _ _ _ _ Hrun)|]. done.
Qed.

End EndpointFacts.

Import EndpointFacts.

(** X18. Without a model backend a regeneration changes nothing but the
    timestamps: after an exchange on a stored thread,
    [regenerate_tutor_response] removes the reply just given, generates
    from the log that ends with the student's message, and appends a reply
    with the same text and the same feedback; the stored log has the
    length it had. *)
Theorem regenerate_after_exchange (tutor : TutorService.t) (t : ConversationThread.t)
    (c : ContentResponse.t) (m : StudentMessage.t) (w : World) :
  stored t w ->
  StudentMessage.conversation_id m = ConversationThread.id t ->
  get_content (ConversationThread.content_id t) = Some c ->
  TutorService.configured tutor = false ->
  exists r w1 r2 w2 t2,
    handle_student_action tutor m w = (Ok r, w1) /\
    regenerate_tutor_response tutor (ConversationThread.id t) w1 = (Ok r2, w2) /\
    TutorMessage.content r2 = TutorMessage.content r /\
    TutorMessage.feedback r2 = TutorMessage.feedback r /\
    stored t2 w2 /\
    same_header t t2 /\
    ConversationThread.messages t2 = ConversationThread.messages t ++ [Student m; Tutor r2].
Proof.
  intros Hs Hid Hc Hcfg.
  destruct (exchange_run tutor t c m w Hs Hid Hc) as (r & Hgen & Hrid & Hrun).
  set (t1 := appended (Student m) t w) in *.
  set (w1 := set_redis (<[ConversationThread.id t := thread_redis t1]> (redis w)) (tick w)) in *.
  set (T := appended (Tutor r) t1 (tick w1)) in *.
  set (W := set_redis (<[ConversationThread.id t := thread_redis T]> (redis (tick w1)))
                      (tick (tick w1))) in *.
  assert (HsT : stored T W) by exact (stored_add_message (Tutor r) t1 (tick w1)).
  assert (Hlast : Py.last (ConversationThread.messages T) = Some (Tutor r))
    by (cbn; apply last_snoc).
  assert (Hpop : Py.pop (ConversationThread.messages T)
                 = ConversationThread.messages t ++ [Student m])
    by (cbn; apply pop_snoc).
  destruct (regenerate_after_tutor tutor T c r W HsT Hc Hlast)
    as (r2 & W1 & W2 & _ & _ & Hgen2 & Hregen).
  set (trimmed := ConversationThread.set_messages (Py.pop (ConversationThread.messages T)) T) in *.
  eexists r, W, r2, _, (appended (Tutor r2) trimmed W2).
  split; [exact Hrun|]. split; [exact Hregen|].
  unfold TutorService.generate_response in Hgen, Hgen2.
  cbn [trimmed ConversationThread.messages ConversationThread.set_messages] in Hgen2.
  fold (ConversationThread.messages T) in Hgen2. rewrite Hpop in Hgen2.
  cbn [t1 appended ConversationThread.messages ConversationThread.set_updated_at
       ConversationThread.set_messages] in Hgen.
  rewrite last_student_snoc, Hcfg in Hgen, Hgen2.
  injection Hgen as <-. injection Hgen2 as <- _.
  split; [reflexivity|]. split; [reflexivity|].
  split; [exact (stored_add_message _ trimmed W2)|].
  split; [by repeat split|].
  cbn [appended trimmed ConversationThread.messages ConversationThread.set_updated_at
       ConversationThread.set_messages].
  fold (ConversationThread.messages T). rewrite Hpop. by rewrite <- app_assoc.
Qed.

Lemma regenerate_after_exchange_witness :
  stored Examples.thread1 Examples.world1 /\
  StudentMessage.conversation_id Samples.attempt = "conv123" /\
  get_content (ConversationThread.content_id Examples.thread1) = Some content123 /\
  TutorService.configured Examples.tutor = false /\
  exists r w1 r2 w2 t2,
    handle_student_action Examples.tutor Samples.attempt Examples.world1 = (Ok r, w1) /\
    regenerate_tutor_response Examples.tutor "conv123" w1 = (Ok r2, w2) /\
    TutorMessage.content r2 = TutorMessage.content r /\
    stored t2 w2 /\
    ConversationThread.messages t2
    = [Student Examples.question1; Tutor Examples.reply1; Student Samples.attempt; Tutor r2].
Proof.
  assert (Hs : stored Examples.thread1 Examples.world1) by (vm_compute; reflexivity).
  assert (Hc : get_content (ConversationThread.content_id Examples.thread1) = Some content123)
    by (vm_compute; reflexivity).
  split; [exact Hs|]. split; [reflexivity|]. split; [exact Hc|]. split; [reflexivity|].
  destruct (regenerate_after_exchange Examples.tutor Examples.thread1 content123
              Samples.attempt Examples.world1 Hs eq_refl Hc eq_refl)
    as (r & w1 & r2 & w2 & t2 & H1 & H2 & H3 & _ & H5 & _ & H7).
  exists r, w1, r2, w2, t2. repeat split; assumption.
Defined.

(** X19. Starting and then talking compose: when the uuids drawn are
    new, every thread [start_conversation] returns can be sent a message at
    once - [handle_student_action] finds the thread, resolves its content
    and returns a reply for it, and the thread then holds exactly the
    message and the reply. *)
Theorem started_thread_accepts_messages (tutor : TutorService.t) (student_id : string)
    (usmos : list string) (w : World) :
  fresh_uuids (length (C3Service.get_mock_content usmos)) w ->
  exists resp w',
    start_conversation student_id usmos w = (Ok resp, w') /\
    length (StartConversationResponse.threads resp)
    = length (C3Service.get_mock_content usmos) /\
    forall t m,
      t ∈ StartConversationResponse.threads resp ->
      StudentMessage.conversation_id m = ConversationThread.id t ->
      exists r w'' t',
        handle_student_action tutor m w' = (Ok r, w'') /\
        TutorMessage.conversation_id r = ConversationThread.id t /\
        stored t' w'' /\
        same_header t t' /\
        ConversationThread.messages t' = [Student m; Tutor r].
Proof.
  intros [Hnd Hnew].
  destruct (start_conversation_run student_id usmos w)
    as (threads & w' & Hrun & Hm & Hids & Hdb & _).
  eexists _, w'. split; [exact Hrun|]. cbn [StartConversationResponse.threads].
  split; [by apply Forall2_length in Hm|].
  intros t m Ht Hid.
  assert (Hs : stored t w').
  { unfold stored. rewrite Hdb. apply save_all_lookup; [by rewrite Hids | done]. }
  destruct (Forall2_elem_of_l _ _ _ _ Hm Ht) as (c & Hc & _ & _ & Hcid & Hmsgs).
  apply get_mock_content_elem in Hc as (u & _ & Hu).
  apply mock_data_resolves in Hu as [Hres _]. rewrite <- Hcid in Hres.
  destruct (exchange_run tutor t c m w' Hs Hid Hres) as (r & _ & Hrid & Hrun2).
  eexists r, _, (appended (Tutor r) (appended (Student m) t w') _).
  split; [exact Hrun2|]. split; [exact Hrid|].
  split; [exact (stored_add_message (Tutor r) (appended (Student m) t w') _)|].
  split; [by repeat split|].
  cbn [appended ConversationThread.messages ConversationThread.set_updated_at
       ConversationThread.set_messages]. by rewrite Hmsgs.
Qed.

Lemma started_thread_accepts_messages_witness :
  fresh_uuids (length (C3Service.get_mock_content ["MATH.ALG.1"])) Examples.world0 /\
  exists resp w',
    start_conversation "student123" ["MATH.ALG.1"] Examples.world0 = (Ok resp, w') /\
    length (StartConversationResponse.threads resp) = 1%nat.
Proof.
  assert (Hf : fresh_uuids (length (C3Service.get_mock_content ["MATH.ALG.1"])) Examples.world0).
  { split; [|intros i _; apply lookup_empty].
    apply (bool_decide_unpack _). vm_compute. reflexivity. }
  split; [exact Hf|].
  destruct (started_thread_accepts_messages Examples.tutor "student123" ["MATH.ALG.1"]
              Examples.world0 Hf) as (resp & w' & Hrun & Hlen & _).
  exists resp, w'. split; [exact Hrun | exact Hlen].
Defined.

(** X20. [GET /conversation/{id}] never answers 404.  When the service
    loads the thread the endpoint returns it; when the service returns
    [None] - the record is absent or does not decode - the
    [HTTPException] with status 404 raised inside the [try] is caught by
    the [except Exception] of the same statement and re-raised with status
    500, its detail the text of the 404.  The store is not written. *)
Theorem get_conversation_never_404 (conversation_id : string) (w : World) :
  exists w',
    redis w' = redis w /\
    ((exists t,
        get_thread conversation_id w = (Ok (Some t), w') /\
        Endpoints.get_conversation conversation_id w = (Endpoints.Return t, w')) \/
     (get_thread conversation_id w = (Ok None, w') /\
      Endpoints.get_conversation conversation_id w
      = (Endpoints.Raised
           (Endpoints.HTTPException 500
              (Endpoints.str
                 (Endpoints.HTTPException 404
                    (Endpoints.Text ("Conversation " +:+ conversation_id +:+ " not found"))))),
         w'))).
Proof.
  destruct (get_thread_total conversation_id w) as (o & w' & H).
  exists w'. split.
  { pose proof (reads_get_thread conversation_id w) as Hr. rewrite H in Hr. apply Hr. }
  unfold Endpoints.get_conversation, Endpoints.try_exception, Endpoints.ebind.
  rewrite (call_ok _ _ _ _ H). destruct o as [t|]; [left; by exists t | right; done].
Qed.

(** X21. [POST /message] maps the service's refusals to 404 and writes
    nothing in those cases: a conversation that is absent or does not
    decode gives 404 with the text [Thread <id> not found], a stored thread
    with an unknown content id gives 404 with the text
    [Content <id> not found]; a stored thread with known content gives the
    reply of [handle_student_action]. *)
Theorem send_message_statuses (tutor : TutorService.t) (m : StudentMessage.t) (w : World) :
  ((redis w !! StudentMessage.conversation_id m = None \/
    exists r, redis w !! StudentMessage.conversation_id m = Some r /\ corrupt_record r) ->
   exists w',
     Endpoints.send_message tutor m w
     = (Endpoints.Raised
          (Endpoints.HTTPException 404
             (Endpoints.str
                (Endpoints.Error
                   (ValueError ("Thread " +:+ StudentMessage.conversation_id m +:+ " not found"))))),
        w') /\
     redis w' = redis w) /\
  (forall t,
     stored t w -> StudentMessage.conversation_id m = ConversationThread.id t ->
     match get_content (ConversationThread.content_id t) with
     | None =>
         Endpoints.send_message tutor m w
         = (Endpoints.Raised
              (Endpoints.HTTPException 404
                 (Endpoints.str
                    (Endpoints.Error
                       (ValueError ("Content " +:+ ConversationThread.content_id t +:+ " not found"))))),
            w)
     | Some c =>
         exists r w',
           handle_student_action tutor m w = (Ok r, w') /\
           Endpoints.send_message tutor m w = (Endpoints.Return r, w')
     end).
Proof.
  split.
  - intros H. apply get_thread_unknown in H as (w' & Hget & Hdb).
    exists w'. split; [|exact Hdb].
    assert (Hrun : handle_student_action tutor m w
                   = (Raise (ValueError ("Thread " +:+ StudentMessage.conversation_id m
                                         +:+ " not found")), w')).
    { unfold handle_student_action. by rewrite (bind_run _ _ _ _ _ Hget). }
    unfold Endpoints.send_message, Endpoints.try_value_error, Endpoints.ebind.
    by rewrite (call_raise _ _ _ _ Hrun).
  - intros t Hs Hid. destruct (get_content (ConversationThread.content_id t)) as [c|] eqn:Hc.
    + destruct (exchange_run tutor t c m w Hs Hid Hc) as (r & _ & _ & Hrun).
      eexists r, _. split; [exact Hrun|].
      unfold Endpoints.send_message, Endpoints.try_value_error, Endpoints.ebind.
      by rewrite (call_ok _ _ _ _ Hrun).
    + assert (Hrun : handle_student_action tutor m w
                     = (Raise (ValueError ("Content " +:+ ConversationThread.content_id t
                                           +:+ " not found")), w)).
      { unfold handle_student_action. rewrite Hid.
        rewrite (bind_run _ _ _ _ _ (get_thread_stored t w Hs)). by rewrite Hc. }
      unfold Endpoints.send_message, Endpoints.try_value_error, Endpoints.ebind.
      by rewrite (call_raise _ _ _ _ Hrun).
Qed.

Lemma send_message_statuses_witness :
  (exists w',
     Endpoints.send_message Examples.tutor Samples.stray Samples.world3
     = (Endpoints.Raised
          (Endpoints.HTTPException 404
             (Endpoints.str (Endpoints.Error (ValueError "Thread bad-json not found")))), w') /\
     redis w' = redis Samples.world3) /\
  stored Samples.orphan Samples.world3 /\
  Endpoints.send_message Examples.tutor Samples.hello Samples.world3
  = (Endpoints.Raised
       (Endpoints.HTTPException 404
          (Endpoints.str (Endpoints.Error (ValueError "Content content000 not found")))),
     Samples.world3).
Proof.
  assert (Hs : stored Samples.orphan Samples.world3) by (vm_compute; reflexivity).
  split.
  - destruct (send_message_statuses Examples.tutor Samples.stray Samples.world3) as [H _].
    apply H. right. exists Examples.bad_json. split; [vm_compute; reflexivity | exact bad_json_corrupt].
  - split; [exact Hs|].
    destruct (send_message_statuses Examples.tutor Samples.hello Samples.world3) as [_ H].
    exact (H Samples.orphan Hs eq_refl).
Defined.

(** X22. [POST /regenerate] never answers 400.  A body without the key
    [conversation_id] raises the [HTTPException] with status 400 inside the
    [try]; it is not a [ValueError], so the [except Exception] clause
    catches it and the client receives status 500 with the text of the 400
    as detail.  Nothing is read or written.  A body that names, by a string,
    a conversation that is absent or does not decode gives 404. *)
Theorem regenerate_request_statuses (tutor : TutorService.t) (format_value : Json.t -> string)
    (request : list (string * Json.t)) (w : World) :
  (Json.get "conversation_id" request = None ->
   Endpoints.regenerate_response tutor format_value request w
   = (Endpoints.Raised
        (Endpoints.HTTPException 500
           (Endpoints.str
              (Endpoints.HTTPException 400 (Endpoints.Text "conversation_id is required")))),
      w)) /\
  (forall tid,
     Json.get "conversation_id" request = Some (Json.Str tid) ->
     (redis w !! tid = None \/ exists r, redis w !! tid = Some r /\ corrupt_record r) ->
     exists w',
       Endpoints.regenerate_response tutor format_value request w
       = (Endpoints.Raised
            (Endpoints.HTTPException 404
               (Endpoints.str
                  (Endpoints.Error (ValueError ("Thread " +:+ tid +:+ " not found"))))),
          w') /\
       redis w' = redis w).
Proof.
  split.
  - intros H. unfold Endpoints.regenerate_response, Endpoints.try_value_error. by rewrite H.
  - intros tid H Hu. apply get_thread_unknown in Hu as (w' & Hget & Hdb).
    exists w'. split; [|exact Hdb].
    assert (Hrun : regenerate_tutor_response tutor tid w
                   = (Raise (ValueError ("Thread " +:+ tid +:+ " not found")), w')).
    { unfold regenerate_tutor_response. by rewrite (bind_run _ _ _ _ _ Hget). }
    unfold Endpoints.regenerate_response, Endpoints.try_value_error, Endpoints.ebind.
    rewrite H. cbn [Endpoints.thread_id_of]. by rewrite (call_raise _ _ _ _ Hrun).
Qed.

Lemma regenerate_request_statuses_witness :
  Json.get "conversation_id" [("thread", Json.Str "conv123")] = None /\
  Endpoints.status_code
    (fst (Endpoints.regenerate_response Examples.tutor Json.dumps
            [("thread", Json.Str "conv123")] Examples.world1)) = 500 /\
  Json.get "conversation_id" [("conversation_id", Json.Str "bad-json")]
  = Some (Json.Str "bad-json") /\
  exists w',
    Endpoints.regenerate_response Examples.tutor Json.dumps
      [("conversation_id", Json.Str "bad-json")] Samples.world3
    = (Endpoints.Raised
         (Endpoints.HTTPException 404
            (Endpoints.str (Endpoints.Error (ValueError "Thread bad-json not found")))), w') /\
    redis w' = redis Samples.world3.
Proof.
  split; [reflexivity|]. split.
  - destruct (regenerate_request_statuses Examples.tutor Json.dumps
                [("thread", Json.Str "conv123")] Examples.world1) as [H _].
    rewrite (H eq_refl). reflexivity.
  - split; [reflexivity|].
    destruct (regenerate_request_statuses Examples.tutor Json.dumps
                [("conversation_id", Json.Str "bad-json")] Samples.world3) as [_ H].
    apply (H "bad-json" eq_refl). right. exists Examples.bad_json. split; [vm_compute; reflexivity | exact bad_json_corrupt].
Defined.

(** X24. Items: creating under a free id and deleting again restores the
    dictionary; in between the item is the one read back. *)
Theorem create_then_delete_restores (item_id : Z) (item : Items.Item) (db : gmap Z Items.Item) :
  db !! item_id = None ->
  exists db1,
    Items.create_item item_id item db = (Endpoints.Return item, db1) /\
    Items.read_item item_id db1 = (Endpoints.Return item, db1) /\
    Items.create_item item_id item db1
    = (Endpoints.Raised (Endpoints.HTTPException 400 (Endpoints.Text "Item already exists")),
       db1) /\
    Items.delete_item item_id db1 = (Endpoints.Return ("Item deleted", item), db).
Proof.
  intros H. exists (<[item_id := item]> db).
  unfold Items.create_item, Items.read_item, Items.delete_item.
  rewrite H, lookup_insert_eq. repeat split. f_equal. by apply delete_insert_id.
Qed.

Lemma create_then_delete_restores_witness :
  Items.items_db !! 3%Z = None /\
  exists db1,
    Items.create_item 3 {| Items.name := "Item 3"; Items.description := None |} Items.items_db
    = (Endpoints.Return {| Items.name := "Item 3"; Items.description := None |}, db1) /\
    Items.delete_item 3 db1
    = (Endpoints.Return ("Item deleted", {| Items.name := "Item 3"; Items.description := None |}),
       Items.items_db).
Proof.
  assert (H : Items.items_db !! 3%Z = None) by (vm_compute; reflexivity).
  split; [exact H|].
  destruct (create_then_delete_restores 3 {| Items.name := "Item 3"; Items.description := None |}
              Items.items_db H) as (db1 & H1 & _ & _ & H4).
  exists db1. split; [exact H1 | exact H4].
Defined.

(** X25. Items: what each endpoint does to the set of ids.  Reading and
    updating never change it - an update never creates; creating adds at
    most the given id; deleting removes at most the given id. *)
Theorem items_key_set (item_id : Z) (item : Items.Item) (db : gmap Z Items.Item) :
  dom (snd (Items.read_item item_id db)) = dom db /\
  dom (snd (Items.update_item item_id item db)) = dom db /\
  dom (snd (Items.create_item item_id item db)) = dom db ∪ {[ item_id ]} /\
  dom (snd (Items.delete_item item_id db)) = dom db ∖ {[ item_id ]}.
Proof.
  unfold Items.read_item, Items.update_item, Items.create_item, Items.delete_item,
    Items.not_found.
  destruct (db !! item_id) as [it|] eqn:E; cbn [snd].
  - assert (Hin : {[ item_id ]} ⊆ dom db).
    { apply singleton_subseteq_l, elem_of_dom. eauto. }
    rewrite dom_insert_L, dom_delete_L, (subseteq_union_1_L _ _ Hin).
    repeat split. rewrite (union_comm_L (dom db)). by rewrite (subseteq_union_1_L _ _ Hin).
  - assert (Hout : dom db ## ({[ item_id ]} : gset Z)).
    { apply disjoint_singleton_r. by apply not_elem_of_dom. }
    rewrite dom_insert_L. repeat split; [apply union_comm_L|].
    symmetry. by apply difference_disjoint_L.
Qed.

Module StartFacts.
Import Pydantic ConversationService.
Import ModelFacts ServiceFacts Inversion MoreFacts ReadFacts ExtraFacts FrameFacts EndpointFacts.

Lemma keyed_save_all (threads : list ConversationThread.t)
    (db : gmap string ConversationThreadRedis.t) :
  (forall k r, db !! k = Some r -> ConversationThreadRedis.id r = k) ->
  forall k r, save_all threads db !! k = Some r -> ConversationThreadRedis.id r = k.
Proof.
  revert db. induction threads as [|t threads IH]; intros db Hk; [exact Hk|].
  unfold save_all. cbn [foldl]. apply IH. intros k r.
  destruct (decide (k = ConversationThread.id t)) as [->|Hne].
  - rewrite lookup_insert_eq. by intros [= <-].
  - rewrite lookup_insert_ne by done. apply Hk.
Qed.

Lemma join_lines_snoc (l : list string) (x y : string) :
  TutorService.join_lines ((x :: l) ++ [y])
  = TutorService.join_lines (x :: l) +:+ String TutorService.newline y.
Proof.
  revert x. induction l as [|z l IH]; intros x; [done|].
  change ((x :: z :: l) ++ [y]) with (x :: ((z :: l) ++ [y])).
  change (TutorService.join_lines (x :: (z :: l) ++ [y]))
    with (x +:+ String TutorService.newline (TutorService.join_lines ((z :: l) ++ [y]))).
  rewrite IH.
  change (TutorService.join_lines (x :: z :: l))
    with (x +:+ String TutorService.newline (TutorService.join_lines (z :: l))).
  rewrite NumFacts.append_assoc. reflexivity.
Qed.

End StartFacts.

Import StartFacts.

(** X26. [start_conversation] only adds: in a store keyed by id, every
    record under a key that is not one of the uuids drawn is as before, and
    the store is still keyed by id afterwards. *)
Theorem start_conversation_keeps_others (student_id : string) (usmos : list string)
    (w : World) (k : string) :
  keyed w ->
  (forall i, (i < length (C3Service.get_mock_content usmos))%nat ->
             uuids w (drawn w + i)%nat <> k) ->
  redis (snd (start_conversation student_id usmos w)) !! k = redis w !! k /\
  keyed (snd (start_conversation student_id usmos w)).
Proof.
  intros Hk Hne.
  destruct (start_conversation_run student_id usmos w)
    as (threads & w' & Hrun & _ & Hids & Hdb & _).
  rewrite Hrun. cbn [snd]. unfold keyed. rewrite Hdb. split.
  - apply save_all_lookup_ne. rewrite Hids. intros Hin.
    apply list_elem_of_fmap in Hin as (i & -> & Hi). apply elem_of_seq in Hi.
    apply (Hne i); [lia | done].
  - by apply keyed_save_all.
Qed.

Lemma start_conversation_keeps_others_witness :
  keyed Examples.world1 /\
  (forall i, (i < length (C3Service.get_mock_content ["MATH.ALG.1"]))%nat ->
             uuids Examples.world1 (drawn Examples.world1 + i)%nat <> "conv123") /\
  redis (snd (start_conversation "student123" ["MATH.ALG.1"] Examples.world1)) !! "conv123"
  = redis Examples.world1 !! "conv123".
Proof.
  assert (Hk : keyed Examples.world1) by exact (keyed_singleton Examples.thread1 Examples.world0).
  assert (Hne : forall i, (i < length (C3Service.get_mock_content ["MATH.ALG.1"]))%nat ->
                  uuids Examples.world1 (drawn Examples.world1 + i)%nat <> "conv123").
  { intros i Hi.
    replace (length (C3Service.get_mock_content ["MATH.ALG.1"])) with 1%nat in Hi
      by (vm_compute; reflexivity).
    assert (i = 0%nat) as -> by lia. vm_compute. discriminate. }
  split; [exact Hk|]. split; [exact Hne|].
  destruct (start_conversation_keeps_others "student123" ["MATH.ALG.1"] Examples.world1
              "conv123" Hk Hne) as [H _].
  exact H.
Defined.

(** X27. The history text handed to the model grows by one line per
    message: for a non-empty log, the history with one more message is the
    old history, a line break, and the line of the new message, prefixed
    with the speaker. *)
Theorem history_grows_by_a_line (ms : list Message) (m : Message) :
  ms <> [] ->
  TutorService._format_conversation_history (ms ++ [m])
  = TutorService._format_conversation_history ms
    +:+ String TutorService.newline (TutorService.history_line m).
Proof.
  intros Hne. destruct ms as [|x ms]; [done|].
  unfold TutorService._format_conversation_history.
  rewrite fmap_app. cbn [fmap list_fmap]. apply join_lines_snoc.
Qed.

Lemma history_grows_by_a_line_witness :
  [Student Examples.question1] <> [] /\
  TutorService._format_conversation_history [Student Examples.question1; Tutor Examples.reply1]
  = TutorService._format_conversation_history [Student Examples.question1]
    +:+ String TutorService.newline "Tutor: To solve x + 5 = 10, subtract 5 from both sides.".
Proof.
  assert (H : [Student Examples.question1] <> []) by discriminate.
  split; [exact H|].
  exact (history_grows_by_a_line [Student Examples.question1] (Tutor Examples.reply1) H).
Defined.
